(** * WorkersTransport: the request/response bridge of fastmcp-cloudflare

    A shallow embedding of [transports/WorkersTransport.ts]: the request
    validation pipeline of [handleRequest], the promise/timer exchange of
    [processMessage], the preflight answer of [handleCors] and the header
    policy of [getCorsHeaders], followed by the properties the
    specification states about them.

    Conventions.
    - JavaScript numbers are modelled by [Z]; the development covers the
      integer values (status codes, byte counts, error codes) the transport
      manipulates.
    - Header records ([Record<string, string>]) are finite maps from header
      name to value.  Request headers are looked up through [Headers.get],
      which is case-insensitive: the request's map is keyed by lower-case
      names.
    - Values that cross the completion sink are plain JSON data.
    - The broadcast calls the handlers synchronously, in registration
      order.  What reaches the exchange afterwards -- asynchronous sink
      invocations and the deadline -- is a trace of events, in the order the
      event loop delivers them; the properties quantify over all traces.
    - [JSON.parse] and the stack an engine captures in [new Error] belong to
      the platform and are parameters of the model. *)

From Stdlib Require Import ZArith String Ascii List Bool.
From stdpp Require Import gmap strings list fin_maps pretty.

Set Warnings "-register-all".

Open Scope string_scope.
Open Scope Z_scope.

(* ===================================================================== *)
(** ** JSON values and [JSON.stringify] *)
(* ===================================================================== *)

(** Object members are kept in insertion order, which is the order
    [JSON.stringify] prints them in. *)
Inductive json : Type :=
  | JNull
  | JBool (b : bool)
  | JNum (n : Z)
  | JStr (s : string)
  | JArr (items : list json)
  | JObj (members : list (string * json)).

Module Json.

Definition hexDigit (n : N) : ascii :=
  ascii_of_N (if (n <? 10)%N then 48 + n else 87 + n)%N.

(** One character of a quoted string (QuoteJSONString). *)
Definition escapeChar (c : ascii) : string :=
  let n := N_of_ascii c in
  if (n =? 8)%N then "\b"
  else if (n =? 9)%N then "\t"
  else if (n =? 10)%N then "\n"
  else if (n =? 12)%N then "\f"
  else if (n =? 13)%N then "\r"
  else if (n =? 34)%N then String "\" (String c EmptyString)
  else if (n =? 92)%N then "\\"
  else if (n <? 32)%N then
    "\u00" +:+ String (hexDigit (n / 16)) (String (hexDigit (n mod 16)) EmptyString)
  else String c EmptyString.

Fixpoint escape (s : string) : string :=
  match s with
  | EmptyString => EmptyString
  | String c rest => escapeChar c +:+ escape rest
  end.

Definition quote (s : string) : string :=
  String "034" (escape s +:+ String "034" EmptyString).

Fixpoint stringify (j : json) : string :=
  match j with
  | JNull => "null"
  | JBool true => "true"
  | JBool false => "false"
  | JNum n => pretty n
  | JStr s => quote s
  | JArr items =>
      "[" +:+
      (fix elems (l : list json) : string :=
         match l with
         | [] => ""
         | [x] => stringify x
         | x :: r => stringify x +:+ "," +:+ elems r
         end) items +:+ "]"
  | JObj members =>
      "{" +:+
      (fix props (l : list (string * json)) : string :=
         match l with
         | [] => ""
         | [(k, v)] => quote k +:+ ":" +:+ stringify v
         | (k, v) :: r => quote k +:+ ":" +:+ stringify v +:+ "," +:+ props r
         end) members +:+ "}"
  end.

(** Property read [o.k] on a parsed value: the last member wins when a key
    is repeated, as in a JavaScript object. *)
Fixpoint lookupLast (k : string) (l : list (string * json)) : option json :=
  match l with
  | [] => None
  | (k', v) :: r =>
      match lookupLast k r with
      | Some w => Some w
      | None => if String.eqb k k' then Some v else None
      end
  end.

Definition get (k : string) (j : json) : option json :=
  match j with
  | JObj members => lookupLast k members
  | _ => None
  end.

End Json.

(* ===================================================================== *)
(** ** String primitives used by the validator *)
(* ===================================================================== *)

Module Js.

(** [s.startsWith(p)] *)
Definition startsWith (s p : string) : bool := String.prefix p s.

(** [s.includes(p)]: [p] occurs somewhere in [s]. *)
Fixpoint includes (s p : string) : bool :=
  String.prefix p s ||
  match s with
  | EmptyString => false
  | String _ rest => includes rest p
  end.

(** Truthiness of a [string | null] value: null and the empty string are
    falsy. *)
Definition truthy (v : option string) : bool :=
  match v with
  | Some s => negb (String.eqb s "")
  | None => false
  end.

(** [a.includes(x)] on an array of strings. *)
Definition arrayIncludes (a : list string) (x : string) : bool :=
  existsb (String.eqb x) a.

(** *** [parseInt] with the radix left out *)

(** White space skipped in front of the digits (the one-byte members of
    StrWhiteSpaceChar). *)
Definition isWhiteSpace (c : ascii) : bool :=
  let n := N_of_ascii c in
  ((9 <=? n) && (n <=? 13) || (n =? 32))%N.

Fixpoint trimStart (s : string) : string :=
  match s with
  | String c rest => if isWhiteSpace c then trimStart rest else s
  | EmptyString => s
  end.

Definition digitValue (c : ascii) : option Z :=
  let n := Z.of_N (N_of_ascii c) in
  if (48 <=? n) && (n <=? 57) then Some (n - 48)
  else if (97 <=? n) && (n <=? 122) then Some (n - 87)
  else if (65 <=? n) && (n <=? 90) then Some (n - 55)
  else None.

(** The longest prefix of radix-[R] digits, accumulated left to right;
    [seen] records whether at least one digit was consumed. *)
Fixpoint readDigits (R : Z) (s : string) (seen : bool) (acc : Z) : option Z :=
  match s with
  | EmptyString => if seen then Some acc else None
  | String c rest =>
      match digitValue c with
      | Some d =>
          if d <? R then readDigits R rest true (acc * R + d)
          else if seen then Some acc else None
      | None => if seen then Some acc else None
      end
  end.

(** [None] stands for [NaN]. *)
Definition parseInt (input : string) : option Z :=
  let S0 := trimStart input in
  let '(sign, S1) :=
    match S0 with
    | String "-" r => (-1, r)
    | String "+" r => (1, r)
    | _ => (1, S0)
    end in
  let '(R, S2) :=
    match S1 with
    | String "0" (String "x" r) => (16, r)
    | String "0" (String "X" r) => (16, r)
    | _ => (10, S1)
    end in
  match readDigits R S2 false 0 with
  | Some n => Some (sign * n)
  | None => None
  end.

(** [a > b] where [a] may be [NaN]: every comparison with [NaN] is false. *)
Definition gt (a : option Z) (b : Z) : bool :=
  match a with
  | Some n => b <? n
  | None => false
  end.

End Js.

(* ===================================================================== *)
(** ** Requests, responses and transport options *)
(* ===================================================================== *)

Record CorsOptions := {
  enabled : bool;
  origins : list string;
  credentials : bool
}.

(** The options object the transport holds once constructed
    ([Required<WorkersTransportOptions>], every field present). *)
Record WorkersTransportOptions := {
  pathPrefix : string;
  cors : CorsOptions;
  maxBodySize : Z;
  timeout : Z
}.

Definition DEFAULT_OPTIONS : WorkersTransportOptions := {|
  pathPrefix := "/mcp";
  cors := {| enabled := true; origins := ["*"]; credentials := false |};
  maxBodySize := 1024 * 1024;
  timeout := 30000
|}.

(** The parts of a Workers [Request] the transport reads: the method, the
    path of its URL, the headers and the body text. *)
Record Request := {
  method : string;
  pathname : string;
  headers : gmap string string;
  body : string
}.

(** [request.headers.get(name)], [name] in lower case. *)
Definition headersGet (request : Request) (name : string) : option string :=
  headers request !! name.

(** What is handed to the [Response] constructor as its body: [null], a
    text, or [JSON.stringify(j)] (kept as [j]; [bodyText] is what goes on
    the wire). *)
Inductive ResponseBody :=
  | NoBody
  | Text (s : string)
  | Serialized (j : json).

Definition bodyText (b : ResponseBody) : option string :=
  match b with
  | NoBody => None
  | Text s => Some s
  | Serialized j => Some (Json.stringify j)
  end.

Record Response := {
  resBody : ResponseBody;
  status : Z;
  resHeaders : gmap string string
}.

(* ===================================================================== *)
(** ** CORS policy *)
(* ===================================================================== *)

Definition ALLOW_METHODS := "Access-Control-Allow-Methods".
Definition ALLOW_HEADERS := "Access-Control-Allow-Headers".
Definition ALLOW_ORIGIN := "Access-Control-Allow-Origin".
Definition ALLOW_CREDENTIALS := "Access-Control-Allow-Credentials".

(** [getCorsHeaders(request)] *)
Definition getCorsHeaders (options : WorkersTransportOptions) (request : Request)
  : gmap string string :=
  if negb (enabled (cors options)) then ∅
  else
    let h0 : gmap string string :=
      <[ALLOW_HEADERS := "Content-Type, Authorization"]>
        (<[ALLOW_METHODS := "POST, OPTIONS"]> ∅) in
    let origin := headersGet request "origin" in
    let h1 :=
      if Js.arrayIncludes (origins (cors options)) "*" then
        <[ALLOW_ORIGIN := "*"]> h0
      else
        match origin with
        | Some o =>
            if Js.truthy origin && Js.arrayIncludes (origins (cors options)) o
            then <[ALLOW_ORIGIN := o]> h0
            else h0
        | None => h0
        end in
    if credentials (cors options) then <[ALLOW_CREDENTIALS := "true"]> h1 else h1.

(** [handleCors(request)] *)
Definition handleCors (options : WorkersTransportOptions) (request : Request)
  : Response :=
  if negb (enabled (cors options)) then
    {| resBody := Text "CORS disabled"; status := 403; resHeaders := ∅ |}
  else
    {| resBody := NoBody; status := 204;
       resHeaders := getCorsHeaders options request |}.

(* ===================================================================== *)
(** ** The exchange: one promise, one deadline timer *)
(* ===================================================================== *)

(** A value a handler can throw, as far as the transport looks at it:
    an [Error] instance with its message and captured stack, or any other
    value, of which only [String(value)] is read. *)
Inductive thrown :=
  | ErrorObject (message stack : string)
  | OtherValue (shown : string).

Inductive settled :=
  | Fulfilled (value : json)
  | Rejected (reason : thrown).

Inductive timerState :=
  | Armed (ms : Z)
  | Cleared
  | Fired.

(** The promise created by [processMessage] together with its timer.
    [promise] is the promise's slot (empty while pending); [delivered]
    lists the settlements handed to the code awaiting the promise. *)
Record exchange := {
  promise : option settled;
  delivered : list settled;
  timer : timerState
}.

(** [new Promise(...)] right after [setTimeout(..., ms)]. *)
Definition armed (ms : Z) : exchange :=
  {| promise := None; delivered := []; timer := Armed ms |}.

(** The promise's resolving functions: they act on a pending promise only. *)
Definition settle (r : settled) (x : exchange) : exchange :=
  match promise x with
  | None =>
      {| promise := Some r; delivered := delivered x ++ [r]; timer := timer x |}
  | Some _ => x
  end.

Definition resolve (v : json) : exchange -> exchange := settle (Fulfilled v).
Definition reject (e : thrown) : exchange -> exchange := settle (Rejected e).

(** [clearTimeout(timeout)]: disarms a timer that has not fired yet. *)
Definition clearTimeout (x : exchange) : exchange :=
  match timer x with
  | Armed _ => {| promise := promise x; delivered := delivered x; timer := Cleared |}
  | _ => x
  end.

(** The completion sink, [responseHandler(response)]. *)
Definition responseHandler (response : json) (x : exchange) : exchange :=
  resolve response (clearTimeout x).

(** The [catch] clause around a handler call. *)
Definition handlerRaised (error : thrown) (x : exchange) : exchange :=
  reject error (clearTimeout x).

(** What one handler does while it is being called: it invokes the sink
    some number of times, then returns or throws. *)
Record reaction := {
  sinkCalls : list json;
  raised : option thrown
}.

Definition quiet (r : reaction) : Prop := sinkCalls r = [] /\ raised r = None.

(** What happens once the broadcast has returned: a handler invokes the sink
    asynchronously, or the deadline elapses. *)
Inductive event :=
  | SinkInvoked (response : json)
  | DeadlineElapsed.

Section Transport.

(** The platform: the request-scoped environment type, [JSON.parse]
    ([None] when it throws) and the stack an engine records in
    [new Error(message)]. *)
Variable Env : Type.
Variable JSON_parse : string -> option json.
Variable captureStack : string -> string.

Definition newError (message : string) : thrown :=
  ErrorObject message (captureStack message).

(** The timer callback; it runs only if the timer is still armed when the
    deadline elapses. *)
Definition deadlineElapsed (x : exchange) : exchange :=
  match timer x with
  | Armed _ =>
      reject (newError "Request timeout")
        {| promise := promise x; delivered := delivered x; timer := Fired |}
  | _ => x
  end.

(** A handler receives [{...message, _responseHandler, _env}]; it is
    modelled by its reaction to the message and the environment. *)
Definition handler : Type := json -> option Env -> reaction.

(** The transport instance: its options and its registry of message
    handlers (a [Set], iterated in insertion order). *)
Record WorkersTransport := {
  options : WorkersTransportOptions;
  messageHandlers : list handler
}.

(** One iteration of [messageHandlers.forEach]. *)
Definition callHandler (message : json) (env : option Env)
    (x : exchange) (h : handler) : exchange :=
  let r := h message env in
  let x' := fold_left (fun x v => responseHandler v x) (sinkCalls r) x in
  match raised r with
  | Some error => handlerRaised error x'
  | None => x'
  end.

Definition broadcast (this : WorkersTransport) (message : json)
    (env : option Env) : exchange :=
  fold_left (callHandler message env) (messageHandlers this)
    (armed (timeout (options this))).

Definition deliver (x : exchange) (ev : event) : exchange :=
  match ev with
  | SinkInvoked v => responseHandler v x
  | DeadlineElapsed => deadlineElapsed x
  end.

(** [processMessage(message, env)]: the timer is armed, the message is
    broadcast, and the exchange is then followed through the events [trace]
    that reach it after the broadcast. *)
Definition processMessage (this : WorkersTransport) (message : json)
    (env : option Env) (trace : list event) : exchange :=
  fold_left deliver trace (broadcast this message env).

(** *** [handleRequest] *)

Definition plain (text : string) (code : Z) : Response :=
  {| resBody := Text text; status := code; resHeaders := ∅ |}.

(** Headers of the two JSON responses:
    [{'Content-Type': 'application/json', ...getCorsHeaders(request)}]. *)
Definition jsonHeaders (this : WorkersTransport) (request : Request)
  : gmap string string :=
  getCorsHeaders (options this) request
    ∪ {[ "Content-Type" := "application/json" ]}.

(** [error instanceof Error ? error.message : String(error)] *)
Definition errorData (error : thrown) : string :=
  match error with
  | ErrorObject message _ => message
  | OtherValue shown => shown
  end.

Definition internalError (this : WorkersTransport) (request : Request)
    (error : thrown) : Response :=
  {| resBody :=
       Serialized (JObj [("error",
         JObj [("code", JNum (-32603));
               ("message", JStr "Internal error");
               ("data", JStr (errorData error))])]);
     status := 500;
     resHeaders := jsonHeaders this request |}.

(** What follows [await this.processMessage(...)]: the success response,
    or the [catch] clause. *)
Definition respond (this : WorkersTransport) (request : Request)
    (r : settled) : Response :=
  match r with
  | Fulfilled response =>
      {| resBody := Serialized response; status := 200;
         resHeaders := jsonHeaders this request |}
  | Rejected error => internalError this request error
  end.

(** What a call of [handleRequest] has done by the end of [trace]: the
    responses it produced, whether [request.text()] was called, and the
    handlers (by position in the registry) it called. *)
Record outcome := {
  responses : list Response;
  bodyRead : bool;
  invoked : list nat
}.

Definition reply (o : outcome) : option Response := head (responses o).

Definition answer (r : Response) : outcome :=
  {| responses := [r]; bodyRead := false; invoked := [] |}.

Definition handleRequest (this : WorkersTransport) (request : Request)
    (env : option Env) (trace : list event) : outcome :=
  if String.eqb (method request) "OPTIONS" then
    answer (handleCors (options this) request)
  else if negb (Js.startsWith (pathname request) (pathPrefix (options this))) then
    answer (plain "Not Found" 404)
  else if negb (String.eqb (method request) "POST") then
    answer {| resBody := Text "Method Not Allowed"; status := 405;
              resHeaders := {[ "Allow" := "POST, OPTIONS" ]} |}
  else
    let contentType := headersGet request "content-type" in
    if negb (Js.truthy contentType)
       || negb (Js.includes (default "" contentType) "application/json") then
      answer (plain "Bad Request: Content-Type must be application/json" 400)
    else
      let contentLength := headersGet request "content-length" in
      if Js.truthy contentLength
         && Js.gt (Js.parseInt (default "" contentLength))
                  (maxBodySize (options this)) then
        answer (plain "Payload Too Large" 413)
      else
        match JSON_parse (body request) with
        | None =>
            {| responses := [plain "Bad Request: Invalid JSON" 400];
               bodyRead := true; invoked := [] |}
        | Some message =>
            let x := processMessage this message env trace in
            {| responses := map (respond this request) (delivered x);
               bodyRead := true;
               invoked := seq 0 (length (messageHandlers this)) |}
        end.

End Transport.

Arguments options {Env}.
Arguments messageHandlers {Env}.
Arguments handleRequest {Env}.
Arguments processMessage {Env}.
Arguments broadcast {Env}.
Arguments callHandler {Env}.
Arguments respond {Env}.
Arguments internalError {Env}.
Arguments jsonHeaders {Env}.

(* ===================================================================== *)
(** ** Vocabulary of the specification *)
(* ===================================================================== *)

(** The request declares a JSON content type. *)
Definition isJson (request : Request) : bool :=
  match headersGet request "content-type" with
  | Some ct => Js.includes ct "application/json"
  | None => false
  end.

(** The declared content length parses to more than the configured maximum. *)
Definition oversized (options : WorkersTransportOptions) (request : Request) : bool :=
  match headersGet request "content-length" with
  | Some cl => Js.gt (Js.parseInt cl) (maxBodySize options)
  | None => false
  end.

(** Member [k] of the [error] object of a JSON response body. *)
Definition errorField (k : string) (r : Response) : option json :=
  match resBody r with
  | Serialized j =>
      match Json.get "error" j with
      | Some e => Json.get k e
      | None => None
      end
  | _ => None
  end.

(** The exchange is over: the promise is settled and the timer is not armed. *)
Definition resolved (x : exchange) : Prop :=
  promise x <> None /\ forall ms, timer x <> Armed ms.

(** Pending exactly while the timer is armed; once settled, the settlement
    has been delivered exactly once. *)
Definition coherent (x : exchange) : Prop :=
  (promise x = None /\ delivered x = [] /\ exists ms, timer x = Armed ms)
  \/ (exists r, promise x = Some r /\ delivered x = [r] /\ resolved x).

Section Statements.

Context {Env : Type}.
Variable JSON_parse : string -> option json.
Variable captureStack : string -> string.

(** The request passes every check of the validator and its body parses
    to [message]. *)
Definition validated (this : WorkersTransport Env) (request : Request)
    (message : json) : Prop :=
  method request = "POST"
  /\ Js.startsWith (pathname request) (pathPrefix (options this)) = true
  /\ isJson request = true
  /\ oversized (options this) request = false
  /\ JSON_parse (body request) = Some message.

(** No handler of the registry invokes the sink or throws while it is
    being called with [message]. *)
Definition allQuiet (this : WorkersTransport Env) (message : json)
    (env : option Env) : Prop :=
  Forall (fun h : handler Env => quiet (h message env)) (messageHandlers this).

(** *** Statements of the specification that the code does not satisfy
    as they are worded; each is refuted below at a concrete input. *)

(** When no handler invokes the sink before the deadline elapses, a
    validated request is answered 500 with error code -32603 and the error
    message "Request timeout". *)
Definition timeout_message_as_stated (this : WorkersTransport Env)
    (request : Request) (env : option Env) (late : list event) : Prop :=
  forall message,
    validated this request message ->
    Forall (fun h : handler Env => sinkCalls (h message env) = [])
           (messageHandlers this) ->
    exists r,
      reply (handleRequest JSON_parse captureStack this request env
               (DeadlineElapsed :: late)) = Some r
      /\ status r = 500
      /\ errorField "code" r = Some (JNum (-32603))
      /\ errorField "message" r = Some (JStr "Request timeout").

(** With CORS enabled, every response carries the access-control
    headers. *)
Definition cors_everywhere_as_stated (this : WorkersTransport Env)
    (request : Request) (env : option Env) (trace : list event) : Prop :=
  enabled (cors (options this)) = true ->
  forall r,
    r ∈ responses (handleRequest JSON_parse captureStack this request env trace) ->
    getCorsHeaders (options this) request ⊆ resHeaders r.

(** A method other than POST and OPTIONS is answered 405 with the Allow
    header, whatever the path. *)
Definition method_first_as_stated (this : WorkersTransport Env)
    (request : Request) (env : option Env) (trace : list event) : Prop :=
  method request <> "POST" ->
  method request <> "OPTIONS" ->
  exists r,
    responses (handleRequest JSON_parse captureStack this request env trace) = [r]
    /\ status r = 405
    /\ resHeaders r !! "Allow" = Some "POST, OPTIONS".

(** A POST on the prefix whose declared length exceeds the maximum is
    answered 413, with the body unread and no handler called. *)
Definition oversized_rejected_as_stated (this : WorkersTransport Env)
    (request : Request) (env : option Env) (trace : list event) : Prop :=
  method request = "POST" ->
  Js.startsWith (pathname request) (pathPrefix (options this)) = true ->
  forall cl n,
    headersGet request "content-length" = Some cl ->
    Js.parseInt cl = Some n ->
    maxBodySize (options this) < n ->
    let o := handleRequest JSON_parse captureStack this request env trace in
    (exists r, responses o = [r] /\ status r = 413)
    /\ bodyRead o = false
    /\ invoked o = [].

End Statements.

(** The allow-origin header follows the allow-list: always "*" under a
    wildcard; otherwise the request's Origin, only if listed verbatim, and
    no header at all when it is not. *)
Definition allow_origin_as_stated (options : WorkersTransportOptions)
    (request : Request) : Prop :=
  let allowOrigin := getCorsHeaders options request !! ALLOW_ORIGIN in
  ("*" ∈ origins (cors options) -> allowOrigin = Some "*")
  /\ ("*" ∉ origins (cors options) ->
      (forall o, allowOrigin = Some o ->
                 headersGet request "origin" = Some o /\ o ∈ origins (cors options))
      /\ ((forall o, headersGet request "origin" = Some o ->
                     o ∉ origins (cors options)) ->
          allowOrigin = None)).

(* ===================================================================== *)
(** ** Concrete scenarios *)
(* ===================================================================== *)

Module Scenario.

(** A [JSON.parse] for the documents of the scenarios: a text parses to
    the listed document it is the serialisation of. *)
Definition documents : list json :=
  [ JObj []; JObj [("method", JStr "tools/list")] ].

Definition parse (text : string) : option json :=
  find (fun j => String.eqb (Json.stringify j) text) documents.

Definition stackOf (message : string) : string :=
  "Error: " +:+ message +:+ String "010" "    at <anonymous>".

Definition handle := @handleRequest unit parse stackOf.

(** Handlers: one that never answers, one that answers at once, one that
    throws. *)
Definition silent : handler unit :=
  fun _ _ => {| sinkCalls := []; raised := None |}.
Definition prompt (v : json) : handler unit :=
  fun _ _ => {| sinkCalls := [v]; raised := None |}.
Definition failing (m : string) : handler unit :=
  fun _ _ => {| sinkCalls := []; raised := Some (ErrorObject m (stackOf m)) |}.

Definition transport (hs : list (handler unit)) : WorkersTransport unit :=
  {| options := DEFAULT_OPTIONS; messageHandlers := hs |}.

Definition closedCors : WorkersTransportOptions :=
  {| pathPrefix := "/mcp";
     cors := {| enabled := false; origins := ["*"]; credentials := false |};
     maxBodySize := 1024 * 1024;
     timeout := 30000 |}.

Definition listed : WorkersTransportOptions :=
  {| pathPrefix := "/mcp";
     cors := {| enabled := true; origins := ["https://a.com"];
                credentials := false |};
     maxBodySize := 1024 * 1024;
     timeout := 50 |}.

Definition request (m path : string) (hs : list (string * string))
    (text : string) : Request :=
  {| method := m; pathname := path; headers := list_to_map hs; body := text |}.

Definition postJson (text : string) : Request :=
  request "POST" "/mcp" [("content-type", "application/json")] text.

Definition toolsList : string :=
  Json.stringify (JObj [("method", JStr "tools/list")]).

Definition elsewhere : Request := request "GET" "/unrelated" [] "".
Definition sizeOnly : Request :=
  request "POST" "/mcp" [("content-length", "2000000")] "{}".
Definition sizeAndType : Request :=
  request "POST" "/mcp"
    [("content-length", "2000000"); ("content-type", "application/json")] "{}".
Definition preflight (path origin : string) : Request :=
  request "OPTIONS" path [("origin", origin)] "".

End Scenario.

(* ===================================================================== *)
(** ** The listener registries of the transport *)
(* ===================================================================== *)

Module Listeners.

Section Registries.

Variable Env : Type.

(** A function handed to [addEventListener]: its identity (a [Set] compares
    functions by reference), what it does when the broadcast calls it with
    a message, and what it does when [close] calls it without argument
    ([Some e]: it throws [e]). *)
Record listener := {
  ref : nat;
  onMessage : handler Env;
  onClose : option thrown
}.

(** A [Set] of functions: its members in insertion order. *)
Definition has (s : list listener) (f : listener) : bool :=
  existsb (fun g => Nat.eqb (ref g) (ref f)) s.

(** [s.add(f)] *)
Definition add (f : listener) (s : list listener) : list listener :=
  if has s f then s else (s ++ [f])%list.

(** [s.delete(f)] *)
Definition delete (f : listener) (s : list listener) : list listener :=
  List.filter (fun g => negb (Nat.eqb (ref g) (ref f))) s.

(** The private fields of a [WorkersTransport]. *)
Record registries := {
  options : WorkersTransportOptions;
  messageHandlers : list listener;
  closeHandlers : list listener;
  errorHandlers : list listener
}.

(** [new WorkersTransport(...)]: the three sets start empty. *)
Definition create (o : WorkersTransportOptions) : registries :=
  {| options := o; messageHandlers := []; closeHandlers := [];
     errorHandlers := [] |}.

(** [addEventListener(event, handler)] *)
Definition addEventListener (event : string) (h : listener) (t : registries)
  : registries :=
  if String.eqb event "message" then
    {| options := options t; messageHandlers := add h (messageHandlers t);
       closeHandlers := closeHandlers t; errorHandlers := errorHandlers t |}
  else if String.eqb event "close" then
    {| options := options t; messageHandlers := messageHandlers t;
       closeHandlers := add h (closeHandlers t); errorHandlers := errorHandlers t |}
  else if String.eqb event "error" then
    {| options := options t; messageHandlers := messageHandlers t;
       closeHandlers := closeHandlers t; errorHandlers := add h (errorHandlers t) |}
  else t.

(** [removeEventListener(event, handler)] *)
Definition removeEventListener (event : string) (h : listener) (t : registries)
  : registries :=
  if String.eqb event "message" then
    {| options := options t; messageHandlers := delete h (messageHandlers t);
       closeHandlers := closeHandlers t; errorHandlers := errorHandlers t |}
  else if String.eqb event "close" then
    {| options := options t; messageHandlers := messageHandlers t;
       closeHandlers := delete h (closeHandlers t); errorHandlers := errorHandlers t |}
  else if String.eqb event "error" then
    {| options := options t; messageHandlers := messageHandlers t;
       closeHandlers := closeHandlers t; errorHandlers := delete h (errorHandlers t) |}
  else t.

(** [closeHandlers.forEach(handler => handler())]: the handlers called, in
    order, and the error of the first one that throws, which ends the
    iteration. *)
Fixpoint callCloseHandlers (hs : list listener) : list nat * option thrown :=
  match hs with
  | [] => ([], None)
  | h :: rest =>
      match onClose h with
      | Some e => ([ref h], Some e)
      | None =>
          let '(called, err) := callCloseHandlers rest in
          (ref h :: called, err)
      end
  end.

(** [close()]: the transport afterwards, the close handlers it called, and
    the error it threw, if any.  The three [clear()] calls follow the
    iteration, so they are skipped when a close handler throws. *)
Definition close (t : registries) : registries * list nat * option thrown :=
  let '(called, err) := callCloseHandlers (closeHandlers t) in
  match err with
  | Some e => (t, called, Some e)
  | None => (create (options t), called, None)
  end.

(** The set a given event name selects, if any. *)
Definition selected (event : string) (t : registries) : option (list listener) :=
  if String.eqb event "message" then Some (messageHandlers t)
  else if String.eqb event "close" then Some (closeHandlers t)
  else if String.eqb event "error" then Some (errorHandlers t)
  else None.

(** [handler] is a member of the set [event] selects. *)
Definition registered (event : string) (h : listener) (t : registries) : bool :=
  match selected event t with
  | Some s => has s h
  | None => false
  end.

(** No function is twice in a set. *)
Definition distinct (t : registries) : Prop :=
  NoDup (map ref (messageHandlers t))
  /\ NoDup (map ref (closeHandlers t))
  /\ NoDup (map ref (errorHandlers t)).

(** What [handleRequest] and [processMessage] see of the transport. *)
Definition transportOf (t : registries) : WorkersTransport Env :=
  Build_WorkersTransport Env (options t) (map onMessage (messageHandlers t)).

End Registries.

Arguments ref {Env}.
Arguments onMessage {Env}.
Arguments onClose {Env}.
Arguments has {Env}.
Arguments add {Env}.
Arguments delete {Env}.
Arguments options {Env}.
Arguments messageHandlers {Env}.
Arguments closeHandlers {Env}.
Arguments errorHandlers {Env}.
Arguments create {Env}.
Arguments addEventListener {Env}.
Arguments removeEventListener {Env}.
Arguments callCloseHandlers {Env}.
Arguments close {Env}.
Arguments selected {Env}.
Arguments registered {Env}.
Arguments distinct {Env}.
Arguments transportOf {Env}.

End Listeners.
(* ===================================================================== *)
(** ** Sample listeners *)
(* ===================================================================== *)

Module Samples.

(** A listener that returns when called in either role. *)
Definition returning (n : nat) : Listeners.listener unit :=
  {| Listeners.ref := n; Listeners.onMessage := Scenario.silent;
     Listeners.onClose := None |}.

(** A listener that throws when called as a close handler. *)
Definition throwing (n : nat) (m : string) : Listeners.listener unit :=
  {| Listeners.ref := n; Listeners.onMessage := Scenario.silent;
     Listeners.onClose := Some (ErrorObject m (Scenario.stackOf m)) |}.

(** A transport with one message handler and two close handlers. *)
Definition wired : Listeners.registries unit :=
  Listeners.addEventListener "close" (returning 3)
    (Listeners.addEventListener "close" (returning 2)
       (Listeners.addEventListener "message" (returning 1)
          (Listeners.create DEFAULT_OPTIONS))).

(** The same with a close handler that throws between the two. *)
Definition brittle : Listeners.registries unit :=
  {| Listeners.options := DEFAULT_OPTIONS;
     Listeners.messageHandlers := [returning 1];
     Listeners.closeHandlers := [returning 2; throwing 4 "stop"; returning 3];
     Listeners.errorHandlers := [] |}.

End Samples.

(* ===================================================================== *)
(** ** Response helpers ([utils/response-helpers.ts]) *)
(* ===================================================================== *)

Module ResponseHelpers.

(** Truthiness of an [any] holding JSON data; [None] is [undefined]. *)
Definition truthy (v : option json) : bool :=
  match v with
  | None => false
  | Some JNull => false
  | Some (JBool b) => b
  | Some (JNum n) => negb (n =? 0)
  | Some (JStr s) => negb (String.eqb s "")
  | Some (JArr _) => true
  | Some (JObj _) => true
  end.

(** [...(data && { data })] inside an object literal. *)
Definition spreadData (data : option json) : list (string * json) :=
  match data with
  | Some d => if truthy data then [("data", d)] else []
  | None => []
  end.

(** The [options] argument of the two JSON helpers; [None] is a field left
    out (or [undefined]), which takes the destructuring default. *)
Record ResponseOptions := {
  status : option Z;
  headers : option (gmap string string)
}.

(** [{ "Content-Type": "application/json", ...headers }] *)
Definition withContentType (hs : gmap string string) : gmap string string :=
  hs ∪ {[ "Content-Type" := "application/json" ]}.

(** [createJsonResponse(data, options)] *)
Definition createJsonResponse (data : json) (options : ResponseOptions) : Response :=
  Build_Response (Serialized data)
    (default 200 (status options))
    (withContentType (default ∅ (headers options))).

(** The [error] argument of [createErrorResponse]. *)
Record ErrorInfo := {
  code : Z;
  message : string;
  data : option json
}.

(** [createErrorResponse(error, options)] *)
Definition createErrorResponse (error : ErrorInfo) (options : ResponseOptions)
  : Response :=
  Build_Response
    (Serialized (JObj [("error",
       JObj ([("code", JNum (code error)); ("message", JStr (message error))]
             ++ spreadData (data error))%list)]))
    (default 500 (status options))
    (withContentType (default ∅ (headers options))).

(** The [options] argument of [createCorsResponse]; [allowedHeaders] is its
    [headers] member, under the name the function binds it to. *)
Record CorsResponseOptions := {
  origins : option (list string);
  credentials : option bool;
  methods : option (list string);
  allowedHeaders : option (list string)
}.

(** [a.join(", ")] *)
Definition join (a : list string) : string := String.concat ", " a.

(** [createCorsResponse(request, options)] *)
Definition createCorsResponse (request : Request) (options : CorsResponseOptions)
  : Response :=
  let origins := default ["*"] (origins options) in
  let credentials := default false (credentials options) in
  let methods := default ["GET"; "POST"; "OPTIONS"] (methods options) in
  let allowedHeaders :=
    default ["Content-Type"; "Authorization"] (allowedHeaders options) in
  let h0 : gmap string string :=
    <[ALLOW_HEADERS := join allowedHeaders]>
      (<[ALLOW_METHODS := join methods]> ∅) in
  let origin := headersGet request "origin" in
  let h1 :=
    if Js.arrayIncludes origins "*" then <[ALLOW_ORIGIN := "*"]> h0
    else
      match origin with
      | Some o =>
          if Js.truthy origin && Js.arrayIncludes origins o
          then <[ALLOW_ORIGIN := o]> h0
          else h0
      | None => h0
      end in
  let h2 := if credentials then <[ALLOW_CREDENTIALS := "true"]> h1 else h1 in
  Build_Response NoBody 204 h2.

(** [createHealthResponse(status, data)]; [now] is
    [new Date().toISOString()] at the time of the call. *)
Definition createHealthResponse (now : string) (status : option string)
    (data : option json) : Response :=
  let status := default "ok" status in
  let responseData :=
    JObj ([("status", JStr status); ("timestamp", JStr now)]
          ++ spreadData data)%list in
  createJsonResponse responseData
    {| ResponseHelpers.status := Some (if String.eqb status "ok" then 200 else 503);
       headers := None |}.

(** Member [k] of a JSON response body. *)
Definition bodyField (k : string) (r : Response) : option json :=
  match resBody r with
  | Serialized j => Json.get k j
  | _ => None
  end.

End ResponseHelpers.

(* ===================================================================== *)
(** ** The event emitter polyfill ([runtime/polyfills.ts]) *)
(* ===================================================================== *)

Module Emitter.

(** A function in a listener array: a listener of the caller's, known by
    its identity [f], or the wrapper that [once] builds around a listener
    [f].  Every call of [once] builds a new function: [w] numbers the
    wrappers in the order of their creation.  Listeners are taken not to
    call back into the emitter; the wrapper's own [this.off] is modelled. *)
Inductive entry :=
  | Plain (f : nat)
  | Wrapper (w f : nat).

(** The caller's listener an entry ends up calling. *)
Definition target (e : entry) : nat :=
  match e with Plain f => f | Wrapper _ f => f end.

(** [a === b] on functions. *)
Definition same (a b : entry) : bool :=
  match a, b with
  | Plain f, Plain g => Nat.eqb f g
  | Wrapper w _, Wrapper v _ => Nat.eqb w v
  | _, _ => false
  end.

(** [events] is the [Map] from event name to listener array; [wrappers]
    counts the wrappers built so far. *)
Record emitter := {
  events : gmap string (list entry);
  wrappers : nat
}.

Definition empty : emitter := {| events := ∅; wrappers := 0 |}.

(** [this.events.get(event)], an absent array read as empty. *)
Definition listeners (event : string) (em : emitter) : list entry :=
  default [] (events em !! event).

(** [on(event, listener)] for any function. *)
Definition push (event : string) (x : entry) (em : emitter) : emitter :=
  {| events := <[event := (listeners event em ++ [x])%list]> (events em);
     wrappers := wrappers em |}.

(** [const index = listeners.indexOf(x); if (index > -1) listeners.splice(index, 1)] *)
Fixpoint removeFirst (x : entry) (l : list entry) : list entry :=
  match l with
  | [] => []
  | y :: rest => if same y x then rest else y :: removeFirst x rest
  end.

(** [off(event, listener)] for any function. *)
Definition drop (event : string) (x : entry) (em : emitter) : emitter :=
  match events em !! event with
  | Some l =>
      {| events := <[event := removeFirst x l]> (events em);
         wrappers := wrappers em |}
  | None => em
  end.

(** [on(event, listener)] *)
Definition on (event : string) (f : nat) (em : emitter) : emitter :=
  push event (Plain f) em.

(** [off(event, listener)] *)
Definition off (event : string) (f : nat) (em : emitter) : emitter :=
  drop event (Plain f) em.

(** [once(event, listener)] *)
Definition once (event : string) (f : nat) (em : emitter) : emitter :=
  push event (Wrapper (wrappers em) f)
    {| events := events em; wrappers := S (wrappers em) |}.

(** [listeners.forEach(...)] inside [emit], on the array itself: [fuel] is
    what is left of the length read when the iteration started, [k] the
    index.  An index past the end of the array is skipped; a plain listener
    is called; a wrapper first removes itself from the array, then calls its
    listener.  The result is the array afterwards and the listeners called,
    in order. *)
Fixpoint forEach (fuel k : nat) (l : list entry) : list entry * list nat :=
  match fuel with
  | O => (l, [])
  | S fuel' =>
      match l !! k with
      | None => forEach fuel' (S k) l
      | Some (Plain f) =>
          let '(l', called) := forEach fuel' (S k) l in (l', f :: called)
      | Some (Wrapper w f) =>
          let '(l', called) := forEach fuel' (S k) (removeFirst (Wrapper w f) l) in
          (l', f :: called)
      end
  end.

(** What a call of [emit] does: the value it returns, the emitter
    afterwards, the listeners it called, and those whose error it caught and
    logged. *)
Record emission := {
  returned : bool;
  after : emitter;
  called : list nat;
  logged : list nat
}.

(** [emit(event, ...args)]; [throws f] says whether listener [f] throws
    when called with these arguments. *)
Definition emit (throws : nat -> bool) (event : string) (em : emitter) : emission :=
  match events em !! event with
  | Some (x :: rest) =>
      let '(l', cs) := forEach (length (x :: rest)) 0 (x :: rest) in
      {| returned := true;
         after := {| events := <[event := l']> (events em); wrappers := wrappers em |};
         called := cs;
         logged := List.filter throws cs |}
  | _ => {| returned := false; after := em; called := []; logged := [] |}
  end.

(** [removeAllListeners(event)]; [None] is a call without argument. *)
Definition removeAllListeners (event : option string) (em : emitter) : emitter :=
  if Js.truthy event then
    {| events := base.delete (default "" event) (events em); wrappers := wrappers em |}
  else
    {| events := ∅; wrappers := wrappers em |}.

(** [listenerCount(event)] *)
Definition listenerCount (event : string) (em : emitter) : nat :=
  match events em !! event with
  | Some l => length l
  | None => O
  end.

(** The listeners an emit calls, read off the array: each entry in turn,
    but the entry right after a wrapper is passed over. *)
Fixpoint fired (l : list entry) : list nat :=
  match l with
  | [] => []
  | Plain f :: rest => f :: fired rest
  | Wrapper _ f :: [] => [f]
  | Wrapper _ f :: _ :: rest => f :: fired rest
  end.

(** The array an emit leaves: the wrappers that fired are gone. *)
Fixpoint kept (l : list entry) : list entry :=
  match l with
  | [] => []
  | Plain f :: rest => Plain f :: kept rest
  | Wrapper _ _ :: [] => []
  | Wrapper _ _ :: y :: rest => y :: kept rest
  end.

(** The wrappers of an array. *)
Fixpoint wrapperIds (l : list entry) : list nat :=
  match l with
  | [] => []
  | Plain _ :: rest => wrapperIds rest
  | Wrapper w _ :: rest => w :: wrapperIds rest
  end.

Definition isPlain (e : entry) : bool :=
  match e with Plain _ => true | Wrapper _ _ => false end.

(** Every array holds each wrapper at most once, and only wrappers that
    were built already. *)
Definition wellFormed (em : emitter) : Prop :=
  forall event l,
    events em !! event = Some l ->
    NoDup (wrapperIds l) /\ Forall (fun w => (w < wrappers em)%nat) (wrapperIds l).

End Emitter.

Module EmitterSamples.

(** Listener 0, then two [once] listeners (1 and 2), then listener 3, all
    on the event "x". *)
Definition mixed : Emitter.emitter :=
  Emitter.on "x" 3
    (Emitter.once "x" 2 (Emitter.once "x" 1 (Emitter.on "x" 0 Emitter.empty))).

(** Two plain listeners on "x". *)
Definition plainTwo : Emitter.emitter :=
  Emitter.on "x" 5 (Emitter.on "x" 4 Emitter.empty).

(** Listener 1 throws, the others return. *)
Definition oneThrows (f : nat) : bool := Nat.eqb f 1.

End EmitterSamples.

(* ===================================================================== *)
(** ** Content helpers ([utils/content-helpers.ts]) *)
(* ===================================================================== *)

Module Content.

(** *** Strings *)

(** [s.toLowerCase()] on the ASCII letters.  (The two characters outside
    ASCII whose lower case contains an ASCII letter give "k" and "i"
    followed by a combining dot; neither can complete a key of the tables
    below.) *)
Definition lowerChar (c : ascii) : ascii :=
  let n := N_of_ascii c in
  if ((65 <=? n) && (n <=? 90))%N then ascii_of_N (n + 32) else c.

Fixpoint toLowerCase (s : string) : string :=
  match s with
  | EmptyString => EmptyString
  | String c rest => String (lowerChar c) (toLowerCase rest)
  end.

(** [s.split(sep)] for a one-character separator: never empty. *)
Fixpoint split (sep : ascii) (s : string) : list string :=
  match s with
  | EmptyString => [EmptyString]
  | String c rest =>
      if Ascii.eqb c sep then EmptyString :: split sep rest
      else
        match split sep rest with
        | first :: others => String c first :: others
        | [] => [String c EmptyString]
        end
  end.

(** *** MIME type from a URL *)

(** What a property read on one of the two tables can give: a string of the
    table, a member inherited from [Object.prototype] (a function or an
    object, in any case truthy and not a string), or [undefined]. *)
Inductive looked :=
  | Listed (mime : string)
  | Inherited (name : string)
  | Missing.

Definition imageTypes : list (string * string) :=
  [ ("jpg", "image/jpeg"); ("jpeg", "image/jpeg"); ("png", "image/png");
    ("gif", "image/gif"); ("webp", "image/webp"); ("svg", "image/svg+xml");
    ("bmp", "image/bmp"); ("ico", "image/x-icon") ].

Definition audioTypes : list (string * string) :=
  [ ("mp3", "audio/mpeg"); ("wav", "audio/wav"); ("ogg", "audio/ogg");
    ("aac", "audio/aac"); ("m4a", "audio/mp4"); ("flac", "audio/flac") ].

(** The members every plain object inherits. *)
Definition objectPrototype : list string :=
  [ "constructor"; "__defineGetter__"; "__defineSetter__"; "hasOwnProperty";
    "__lookupGetter__"; "__lookupSetter__"; "isPrototypeOf";
    "propertyIsEnumerable"; "toString"; "valueOf"; "__proto__";
    "toLocaleString" ].

Fixpoint assoc (key : string) (table : list (string * string)) : option string :=
  match table with
  | [] => None
  | (k, v) :: rest => if String.eqb key k then Some v else assoc key rest
  end.

(** [table[key]] *)
Definition read (table : list (string * string)) (key : string) : looked :=
  match assoc key table with
  | Some v => Listed v
  | None => if Js.arrayIncludes objectPrototype key then Inherited key else Missing
  end.

(** A MIME type as the helpers compute it: a string, or the inherited
    member a table read can return in its place. *)
Inductive mimeValue :=
  | MimeString (mime : string)
  | NotAString (name : string).

(** [a || b || 'application/octet-stream'] over two table reads (every
    listed type is a non-empty string). *)
Definition firstTruthy (a b : looked) : mimeValue :=
  match a with
  | Listed m => MimeString m
  | Inherited n => NotAString n
  | Missing =>
      match b with
      | Listed m => MimeString m
      | Inherited n => NotAString n
      | Missing => MimeString "application/octet-stream"
      end
  end.

(** [url.split('.').pop()?.toLowerCase()] *)
Definition extensionOf (url : string) : string :=
  toLowerCase (List.last (split "." url) EmptyString).

(** [getMimeTypeFromUrl(url)] *)
Definition getMimeTypeFromUrl (url : string) : mimeValue :=
  let extension := extensionOf url in
  firstTruthy (read imageTypes extension) (read audioTypes extension).

(** The parts of a fetched [Response] the helpers read. *)
Record Fetched := {
  ok : bool;
  fetchedStatus : Z;
  statusText : string;
  contentType : option string;
  bytes : list Byte.byte
}.

(** [getMimeType(response, url)] *)
Definition getMimeType (response : Fetched) (url : option string) : mimeValue :=
  if Js.truthy (contentType response) then
    MimeString (List.hd EmptyString (split ";" (default "" (contentType response))))
  else if Js.truthy url then getMimeTypeFromUrl (default "" url)
  else MimeString "application/octet-stream".

(** *** MIME type from the first bytes *)

(** [bytes[i] === v]; an index past the end reads [undefined]. *)
Definition byteIs (data : list Byte.byte) (i : nat) (v : Byte.byte) : bool :=
  match nth_error data i with
  | Some b => Byte.eqb b v
  | None => false
  end.

(** [detectMimeTypeFromBytes(bytes)] *)
Definition detectMimeTypeFromBytes (data : list Byte.byte) : option string :=
  if (length data <? 4)%nat then None
  else if byteIs data 0 Byte.x89 && byteIs data 1 Byte.x50
          && byteIs data 2 Byte.x4e && byteIs data 3 Byte.x47 then
    Some "image/png"
  else if byteIs data 0 Byte.xff && byteIs data 1 Byte.xd8
          && byteIs data 2 Byte.xff then
    Some "image/jpeg"
  else if byteIs data 0 Byte.x47 && byteIs data 1 Byte.x49
          && byteIs data 2 Byte.x46 && byteIs data 3 Byte.x38 then
    Some "image/gif"
  else if byteIs data 0 Byte.x52 && byteIs data 1 Byte.x49
          && byteIs data 2 Byte.x46 && byteIs data 3 Byte.x46
          && ((12 <=? length data)%nat
              && byteIs data 8 Byte.x57 && byteIs data 9 Byte.x45
              && byteIs data 10 Byte.x42 && byteIs data 11 Byte.x50) then
    Some "image/webp"
  else None.

(** [detectAudioMimeTypeFromBytes(bytes)] *)
Definition detectAudioMimeTypeFromBytes (data : list Byte.byte) : option string :=
  if (length data <? 4)%nat then None
  else if byteIs data 0 Byte.xff
          && (byteIs data 1 Byte.xfb || byteIs data 1 Byte.xf3
              || byteIs data 1 Byte.xf2) then
    Some "audio/mpeg"
  else if byteIs data 0 Byte.x52 && byteIs data 1 Byte.x49
          && byteIs data 2 Byte.x46 && byteIs data 3 Byte.x46
          && ((12 <=? length data)%nat
              && byteIs data 8 Byte.x57 && byteIs data 9 Byte.x41
              && byteIs data 10 Byte.x56 && byteIs data 11 Byte.x45) then
    Some "audio/wav"
  else if byteIs data 0 Byte.x4f && byteIs data 1 Byte.x67
          && byteIs data 2 Byte.x67 && byteIs data 3 Byte.x53 then
    Some "audio/ogg"
  else None.

(** *** Base64 *)

Definition alphabet : string :=
  "ABCDEFGHIJKLMNOPQRSTUVWXYZabcdefghijklmnopqrstuvwxyz0123456789+/".

Definition sextet (n : N) : ascii :=
  match String.get (N.to_nat n) alphabet with
  | Some c => c
  | None => "="%char
  end.

(** [toBase64(data)]: both branches ([btoa] of the binary string, and
    [Buffer]'s [toString('base64')]) produce the standard encoding with
    padding. *)
Fixpoint toBase64 (data : list Byte.byte) : string :=
  match data with
  | [] => EmptyString
  | [a] =>
      let x := Byte.to_N a in
      String (sextet (x / 4))
        (String (sextet ((x mod 4) * 16)) "==")
  | [a; b] =>
      let x := Byte.to_N a in
      let y := Byte.to_N b in
      String (sextet (x / 4))
        (String (sextet ((x mod 4) * 16 + y / 16))
           (String (sextet ((y mod 16) * 4)) "="))
  | a :: b :: c :: rest =>
      let x := Byte.to_N a in
      let y := Byte.to_N b in
      let z := Byte.to_N c in
      String (sextet (x / 4))
        (String (sextet ((x mod 4) * 16 + y / 16))
           (String (sextet ((y mod 16) * 4 + z / 64))
              (String (sextet (z mod 64)) (toBase64 rest))))
  end.

(** *** [imageContent] and [audioContent] *)

(** The input object: [url] and [buffer] are [None] when the key is
    absent. *)
Record ContentInput := {
  url : option string;
  buffer : option (list Byte.byte)
}.

(** What [fetch(url)] comes to: a rejection with an error of the given
    message, or a response. *)
Inductive fetchResult :=
  | FetchFailed (message : string)
  | FetchReturned (response : Fetched).

(** [ImageContent] and [AudioContent]. *)
Record MediaContent := {
  type : string;
  data : string;
  mimeType : string
}.

(** The message of an error caught by the helpers: a text of the code's
    own, or the engine's text for the [TypeError] raised by calling
    [startsWith] on the inherited member [name]. *)
Inductive detail :=
  | Text (s : string)
  | StartsWithOnInherited (name : string).

(** What a helper comes to: the content and whether a warning was logged,
    or the [Error] it throws, whose message is the given prefix followed by
    the detail. *)
Inductive contentResult :=
  | Content (c : MediaContent) (warned : bool)
  | Throws (prefix : string) (d : detail).

(** 'Invalid input: Provide either "url" or "buffer"' *)
Definition invalidInput : string :=
  "Invalid input: Provide either " +:+ String "034" ("url" +:+ String "034" (" or "
    +:+ String "034" ("buffer" +:+ String "034" EmptyString))).

(** The body shared, word for word but for the kind, by [imageContent] and
    [audioContent]: [kind] is "image" or "audio", [detect] the detector for
    buffers and [fallback] the type used when it finds nothing. *)
Definition mediaContent (kind : string)
    (detect : list Byte.byte -> option string) (fallback : string)
    (fetch : string -> fetchResult) (input : ContentInput) : contentResult :=
  let failure := Throws ("Failed to process " +:+ kind +:+ " content: ") in
  let content raw mime warned :=
    Content {| type := kind; data := toBase64 raw; mimeType := mime |} warned in
  let marker := kind +:+ "/" in
  match url input with
  | Some u =>
      match fetch u with
      | FetchFailed message => failure (Text message)
      | FetchReturned response =>
          if negb (ok response) then
            failure (Text ("Failed to fetch " +:+ kind +:+ ": "
                           +:+ pretty (fetchedStatus response) +:+ " - "
                           +:+ statusText response))
          else
            match getMimeType response (Some u) with
            | NotAString name => failure (StartsWithOnInherited name)
            | MimeString declared =>
                if Js.startsWith declared marker then
                  content (bytes response) declared false
                else
                  match getMimeTypeFromUrl u with
                  | NotAString name => failure (StartsWithOnInherited name)
                  | MimeString detected =>
                      if Js.startsWith detected marker then
                        content (bytes response) detected false
                      else content (bytes response) declared true
                  end
            end
      end
  | None =>
      match buffer input with
      | Some raw => content raw (default fallback (detect raw)) false
      | None =>
          failure (Text invalidInput)
      end
  end.

(** [imageContent(input)] *)
Definition imageContent : (string -> fetchResult) -> ContentInput -> contentResult :=
  mediaContent "image" detectMimeTypeFromBytes "image/jpeg".

(** [audioContent(input)] *)
Definition audioContent : (string -> fetchResult) -> ContentInput -> contentResult :=
  mediaContent "audio" detectAudioMimeTypeFromBytes "audio/mpeg".

End Content.

(* ===================================================================== *)
(** ** Version check ([compatibility/version-check.ts]) *)
(* ===================================================================== *)

Module VersionCheck.

(** *** [Number(text)] on the integer literals

    The model of numbers is [Z].  [Number] also accepts literals with an
    exponent and the word Infinity, and skips white space outside ASCII;
    such texts, and integers beyond 2^53 (which a double does not hold
    exactly), are [Unmodelled]: the model says nothing about them. *)
Inductive converted :=
  | NaN
  | Int (z : Z)
  | Unmodelled.

Fixpoint trimEnd (s : string) : string :=
  match s with
  | EmptyString => EmptyString
  | String c rest =>
      match trimEnd rest with
      | EmptyString => if Js.isWhiteSpace c then EmptyString else String c EmptyString
      | kept => String c kept
      end
  end.

Fixpoint isAscii (s : string) : bool :=
  match s with
  | EmptyString => true
  | String c rest => (N_of_ascii c <? 128)%N && isAscii rest
  end.

(** The value of a text made of one or more radix-[R] digits and nothing
    else. *)
Fixpoint digitsValue (R : Z) (s : string) (seen : bool) (acc : Z) : option Z :=
  match s with
  | EmptyString => if seen then Some acc else None
  | String c rest =>
      match Js.digitValue c with
      | Some d => if d <? R then digitsValue R rest true (acc * R + d) else None
      | None => None
      end
  end.

Definition allDecimal (s : string) : bool :=
  match digitsValue 10 s false 0 with Some _ => true | None => false end.

(** One or more decimal digits, then [e] or [E], an optional sign, and one
    or more decimal digits. *)
Fixpoint isExponentForm (s : string) (seen : bool) : bool :=
  match s with
  | EmptyString => false
  | String c rest =>
      if Ascii.eqb c "e" || Ascii.eqb c "E" then
        seen &&
        match rest with
        | String "+" r => allDecimal r
        | String "-" r => allDecimal r
        | _ => allDecimal rest
        end
      else
        match Js.digitValue c with
        | Some d => (d <? 10) && isExponentForm rest true
        | None => false
        end
  end.

Definition exact (z : Z) : converted :=
  if Z.abs z <=? 2 ^ 53 then Int z else Unmodelled.

(** A decimal literal without its sign. *)
Definition unsignedDecimal (sign : Z) (s : string) : converted :=
  match digitsValue 10 s false 0 with
  | Some n => exact (sign * n)
  | None =>
      if String.eqb s "Infinity" || isExponentForm s false then Unmodelled else NaN
  end.

Definition prefixed (R : Z) (digits : string) : converted :=
  match digitsValue R digits false 0 with
  | Some n => exact n
  | None => NaN
  end.

Definition Number (text : string) : converted :=
  if negb (isAscii text) then Unmodelled
  else
    match trimEnd (Js.trimStart text) with
    | EmptyString => Int 0
    | String "0" (String "x" r) => prefixed 16 r
    | String "0" (String "X" r) => prefixed 16 r
    | String "0" (String "o" r) => prefixed 8 r
    | String "0" (String "O" r) => prefixed 8 r
    | String "0" (String "b" r) => prefixed 2 r
    | String "0" (String "B" r) => prefixed 2 r
    | String "+" r => unsignedDecimal 1 r
    | String "-" r => unsignedDecimal (-1) r
    | s => unsignedDecimal 1 s
    end.

(** [version.split(".").map(Number)] *)
Definition parts (version : string) : list converted :=
  map Number (Content.split "." version).

Definition isUnmodelled (n : converted) : bool :=
  match n with Unmodelled => true | _ => false end.

Definition isNaN (n : converted) : bool :=
  match n with NaN => true | _ => false end.

(** The integer behind a converted part, 0 standing in where there is
    none (never read then). *)
Definition valueOf (n : converted) : Z :=
  match n with Int z => z | _ => 0 end.

(** *** The current revision *)

Record SupportedVersions := {
  minimum : string;
  maximum : string;
  tested : list string
}.

Definition SUPPORTED_FASTMCP_VERSIONS : SupportedVersions :=
  {| minimum := "3.0.0"; maximum := "4.0.0"; tested := ["3.12.0"] |}.

(** The comparisons of [isVersionSupported] on nine numbers. *)
Definition inRange (maj min pat minMaj minMin minPat maxMaj maxMin maxPat : Z)
  : bool :=
  if maj <? minMaj then false
  else if (maj =? minMaj) && (min <? minMin) then false
  else if (maj =? minMaj) && (min =? minMin) && (pat <? minPat) then false
  else if maxMaj <=? maj then false
  else if (maj =? maxMaj - 1) && (maxMin <=? min) then false
  else if (maj =? maxMaj - 1) && (min =? maxMin - 1) && (maxPat <=? pat) then false
  else true.

(** [isVersionSupported(version)] against a table of supported versions;
    [None] when a part is outside the model of numbers. *)
Definition isVersionSupportedIn (supported : SupportedVersions) (version : string)
  : option bool :=
  let versionParts := parts version in
  let minParts := parts (minimum supported) in
  let maxParts := parts (maximum supported) in
  if existsb isUnmodelled (versionParts ++ minParts ++ maxParts) then None
  else
    match versionParts, minParts, maxParts with
    | [major; minor; patch], [minMajor; minMinor; minPatch],
      [maxMajor; maxMinor; maxPatch] =>
        if existsb isNaN [major; minor; patch; minMajor; minMinor; minPatch;
                          maxMajor; maxMinor; maxPatch] then Some false
        else
          Some (inRange (valueOf major) (valueOf minor) (valueOf patch)
                  (valueOf minMajor) (valueOf minMinor) (valueOf minPatch)
                  (valueOf maxMajor) (valueOf maxMinor) (valueOf maxPatch))
    | _, _, _ => Some false
    end.

(** [isVersionSupported(version)] *)
Definition isVersionSupported : string -> option bool :=
  isVersionSupportedIn SUPPORTED_FASTMCP_VERSIONS.

End VersionCheck.

(** The earlier revision of the same file, which reads the installed
    version from the package and has neither the length check nor the
    NaN check. *)
Module VersionCheckLegacy.

Definition SUPPORTED_FASTMCP_VERSIONS : VersionCheck.SupportedVersions :=
  {| VersionCheck.minimum := "1.0.0"; VersionCheck.maximum := "2.0.0";
     VersionCheck.tested := ["1.0.0"] |}.

(** An element read by array destructuring: [None] is [undefined] (no such
    element) or [NaN]; every comparison with either is false. *)
Definition component (i : nat) (l : list VersionCheck.converted) : option Z :=
  match nth_error l i with
  | Some (VersionCheck.Int z) => Some z
  | _ => None
  end.

Definition lt (a b : option Z) : bool :=
  match a, b with Some x, Some y => x <? y | _, _ => false end.

Definition ge (a b : option Z) : bool :=
  match a, b with Some x, Some y => y <=? x | _, _ => false end.

(** [a === b] where [b] is a number. *)
Definition same (a b : option Z) : bool :=
  match a, b with Some x, Some y => x =? y | _, _ => false end.

Definition minus1 (a : option Z) : option Z :=
  match a with Some x => Some (x - 1) | None => None end.

(** [isVersionSupported(version)]; [None] when a part is outside the model
    of numbers. *)
Definition isVersionSupported (version : string) : option bool :=
  let versionParts := VersionCheck.parts version in
  let minParts := VersionCheck.parts (VersionCheck.minimum SUPPORTED_FASTMCP_VERSIONS) in
  let maxParts := VersionCheck.parts (VersionCheck.maximum SUPPORTED_FASTMCP_VERSIONS) in
  if existsb VersionCheck.isUnmodelled (versionParts ++ minParts ++ maxParts) then None
  else
    let major := component 0 versionParts in
    let minor := component 1 versionParts in
    let patch := component 2 versionParts in
    let minMajor := component 0 minParts in
    let minMinor := component 1 minParts in
    let minPatch := component 2 minParts in
    let maxMajor := component 0 maxParts in
    let maxMinor := component 1 maxParts in
    let maxPatch := component 2 maxParts in
    Some (
      if lt major minMajor then false
      else if same major minMajor && lt minor minMinor then false
      else if same major minMajor && same minor minMinor && lt patch minPatch then false
      else if ge major maxMajor then false
      else if same major (minus1 maxMajor) && ge minor maxMinor then false
      else if same major (minus1 maxMajor) && same minor (minus1 maxMinor)
              && ge patch maxPatch then false
      else true).

(** What [checkFastMCPCompatibility] returns. *)
Record Compatibility := {
  compatible : bool;
  version : option string;
  issues : list string
}.

Definition rangeIssue (v : string) : string :=
  "FastMCP version " +:+ v +:+ " is not in supported range "
  +:+ VersionCheck.minimum SUPPORTED_FASTMCP_VERSIONS +:+ " - "
  +:+ VersionCheck.maximum SUPPORTED_FASTMCP_VERSIONS.

Definition untestedIssue (v : string) : string :=
  "FastMCP version " +:+ v +:+ " has not been specifically tested with this adapter".

(** [checkFastMCPCompatibility()]: [packageVersion] is the [version] read
    from the package ([None] when it cannot be read), [apiIssues] what
    [checkAPICompatibility()] reports about the installed library.  [None]
    when the version has a part outside the model of numbers. *)
Definition checkFastMCPCompatibility (packageVersion : option string)
    (apiIssues : list string) : option Compatibility :=
  let finish versionIssues :=
    let all := (versionIssues ++ apiIssues)%list in
    {| compatible := Nat.eqb (length all) 0; version := packageVersion;
       issues := all |} in
  if Js.truthy packageVersion then
    let v := default "" packageVersion in
    match isVersionSupported v with
    | None => None
    | Some supported =>
        Some (finish
                ((if negb supported then [rangeIssue v] else [])
                 ++ (if negb (Js.arrayIncludes
                                (VersionCheck.tested SUPPORTED_FASTMCP_VERSIONS) v)
                     then [untestedIssue v] else []))%list)
    end
  else Some (finish []).

(** [assertFastMCPCompatibility()]: [Some message] when it throws. *)
Definition assertFastMCPCompatibility (packageVersion : option string)
    (apiIssues : list string) : option (option string) :=
  match checkFastMCPCompatibility packageVersion apiIssues with
  | None => None
  | Some result =>
      if negb (compatible result) then
        Some (Some (String.concat (String "010" EmptyString)
          (["FastMCP compatibility check failed!"; "Issues found:"]
           ++ map (fun issue => "  - " +:+ issue) (issues result)
           ++ [""; "Please ensure you are using a compatible version of FastMCP.";
               "Supported versions: "
               +:+ VersionCheck.minimum SUPPORTED_FASTMCP_VERSIONS +:+ " - "
               +:+ VersionCheck.maximum SUPPORTED_FASTMCP_VERSIONS +:+ " (exclusive)";
               "Tested versions: "
               +:+ String.concat ", " (VersionCheck.tested SUPPORTED_FASTMCP_VERSIONS)])%list))
      else Some None
  end.

End VersionCheckLegacy.

(* ===================================================================== *)
(** ** The server ([WorkersFastMCP.ts]) *)
(* ===================================================================== *)

(** *** The transport under options with missing members

    [WorkersTransportOptions] declares every member optional, and the
    constructor of the transport fills in only the members its argument
    lacks ([{...DEFAULT_OPTIONS, ...options}]): a member that is present is
    taken as it stands, the value [undefined] and an incomplete [cors]
    object included.  This is the transport read again without the
    assumption that [this.options] is complete. *)
Module Loose.

(** A member of an object that is spread into another: missing, present
    with the value [undefined], or given. *)
Inductive member (A : Type) :=
  | Missing
  | Undefined
  | Given (a : A).

Arguments Missing {A}.
Arguments Undefined {A}.
Arguments Given {A} a.

(** [{key: d, ...argument}.key] *)
Definition over {A : Type} (d : option A) (m : member A) : option A :=
  match m with
  | Missing => d
  | Undefined => None
  | Given a => Some a
  end.

(** [argument.key] *)
Definition read {A : Type} (m : member A) : option A :=
  match m with
  | Given a => Some a
  | _ => None
  end.

(** A call returns a value or throws. *)
Inductive attempt (A : Type) :=
  | Done (a : A)
  | Throws (error : thrown).

Arguments Done {A} a.
Arguments Throws {A} error.

#[global] Instance attempt_ret : MRet attempt := fun A a => Done a.

#[global] Instance attempt_bind : MBind attempt := fun A B f m =>
  match m with
  | Done a => f a
  | Throws error => Throws error
  end.

(** Truthiness of a [boolean | undefined]. *)
Definition flag (b : option bool) : bool := default false b.

(** The [cors] object: [None] is a member left out. *)
Record Cors := {
  enabled : option bool;
  origins : option (list string);
  credentials : option bool
}.

(** The argument of the constructor. *)
Record Argument := {
  argPathPrefix : member string;
  argCors : member Cors;
  argMaxBodySize : member Z;
  argTimeout : member Z
}.

(** [this.options]: [None] is [undefined]. *)
Record Options := {
  pathPrefix : option string;
  cors : option Cors;
  maxBodySize : option Z;
  timeout : option Z
}.

(** Complete options, every member present. *)
Definition loosen (o : WorkersTransportOptions) : Options :=
  match o with
  | Build_WorkersTransportOptions prefix (Build_CorsOptions e os c) size ms =>
      {| pathPrefix := Some prefix;
         cors := Some {| enabled := Some e; origins := Some os;
                         credentials := Some c |};
         maxBodySize := Some size;
         timeout := Some ms |}
  end.

(** [this.options = { ...DEFAULT_OPTIONS, ...options }] *)
Definition construct (argument : Argument) : Options :=
  let d := loosen DEFAULT_OPTIONS in
  {| pathPrefix := over (pathPrefix d) (argPathPrefix argument);
     cors := over (cors d) (argCors argument);
     maxBodySize := over (maxBodySize d) (argMaxBodySize argument);
     timeout := over (timeout d) (argTimeout argument) |}.

(** What a call of [handleRequest] has done by the end of the trace; each
    settlement handed to the awaiting code ends in a response or in an
    error thrown out of [handleRequest]. *)
Record Outcome := {
  results : list (attempt Response);
  bodyRead : bool;
  invoked : list nat
}.

Definition answer (r : attempt Response) : Outcome :=
  {| results := [r]; bodyRead := false; invoked := [] |}.

(** An outcome in which nothing was thrown. *)
Definition lift (o : outcome) : Outcome :=
  match o with
  | Build_outcome rs b i => {| results := map Done rs; bodyRead := b; invoked := i |}
  end.

Section LooseTransport.

Variable Env : Type.
Variable JSON_parse : string -> option json.
Variable captureStack : string -> string.

(** The [TypeError] the engine throws when member [name] is read off
    [undefined]. *)
Variable readOfUndefined : string -> thrown.

Record Transport := {
  options : Options;
  messageHandlers : list (handler Env)
}.

(** [getCorsHeaders(request)] *)
Definition getCorsHeaders (this : Transport) (request : Request)
  : attempt (gmap string string) :=
  match cors (options this) with
  | None => Throws (readOfUndefined "enabled")
  | Some c =>
      if negb (flag (enabled c)) then Done ∅
      else
        let h0 : gmap string string :=
          <[ALLOW_HEADERS := "Content-Type, Authorization"]>
            (<[ALLOW_METHODS := "POST, OPTIONS"]> ∅) in
        let origin := headersGet request "origin" in
        match origins c with
        | None => Throws (readOfUndefined "includes")
        | Some os =>
            let h1 :=
              if Js.arrayIncludes os "*" then <[ALLOW_ORIGIN := "*"]> h0
              else
                match origin with
                | Some o =>
                    if Js.truthy origin && Js.arrayIncludes os o
                    then <[ALLOW_ORIGIN := o]> h0
                    else h0
                | None => h0
                end in
            Done (if flag (credentials c)
                  then <[ALLOW_CREDENTIALS := "true"]> h1 else h1)
        end
  end.

(** [handleCors(request)] *)
Definition handleCors (this : Transport) (request : Request) : attempt Response :=
  match cors (options this) with
  | None => Throws (readOfUndefined "enabled")
  | Some c =>
      if negb (flag (enabled c)) then
        Done {| resBody := Text "CORS disabled"; status := 403; resHeaders := ∅ |}
      else
        h ← getCorsHeaders this request;
        Done {| resBody := NoBody; status := 204; resHeaders := h |}
  end.

(** The [catch] clause of [handleRequest]. *)
Definition internalError (this : Transport) (request : Request)
    (error : thrown) : attempt Response :=
  h ← getCorsHeaders this request;
  Done {| resBody :=
            Serialized (JObj [("error",
              JObj [("code", JNum (-32603));
                    ("message", JStr "Internal error");
                    ("data", JStr (errorData error))])]);
          status := 500;
          resHeaders := h ∪ {[ "Content-Type" := "application/json" ]} |}.

(** What follows [await this.processMessage(...)]; an error thrown while
    the success response is built is caught like any other. *)
Definition respond (this : Transport) (request : Request) (r : settled)
  : attempt Response :=
  match r with
  | Fulfilled response =>
      match getCorsHeaders this request with
      | Done h =>
          Done {| resBody := Serialized response; status := 200;
                  resHeaders := h ∪ {[ "Content-Type" := "application/json" ]} |}
      | Throws error => internalError this request error
      end
  | Rejected error => internalError this request error
  end.

(** [processMessage(message, env)]; [setTimeout] takes a delay of
    [undefined] as 0. *)
Definition processMessage (this : Transport) (message : json)
    (env : option Env) (trace : list event) : exchange :=
  fold_left (deliver captureStack) trace
    (fold_left (callHandler message env) (messageHandlers this)
       (armed (default 0 (timeout (options this))))).

(** [handleRequest(request, env)]; [startsWith(undefined)] looks for the
    text "undefined", and a comparison with [undefined] is false. *)
Definition handleRequest (this : Transport) (request : Request)
    (env : option Env) (trace : list event) : Outcome :=
  if String.eqb (method request) "OPTIONS" then
    answer (handleCors this request)
  else if negb (Js.startsWith (pathname request)
                  (default "undefined" (pathPrefix (options this)))) then
    answer (Done (plain "Not Found" 404))
  else if negb (String.eqb (method request) "POST") then
    answer (Done {| resBody := Text "Method Not Allowed"; status := 405;
                    resHeaders := {[ "Allow" := "POST, OPTIONS" ]} |})
  else
    let contentType := headersGet request "content-type" in
    if negb (Js.truthy contentType)
       || negb (Js.includes (default "" contentType) "application/json") then
      answer (Done (plain "Bad Request: Content-Type must be application/json" 400))
    else
      let contentLength := headersGet request "content-length" in
      if Js.truthy contentLength
         && match maxBodySize (options this) with
            | Some size => Js.gt (Js.parseInt (default "" contentLength)) size
            | None => false
            end then
        answer (Done (plain "Payload Too Large" 413))
      else
        match JSON_parse (body request) with
        | None =>
            {| results := [Done (plain "Bad Request: Invalid JSON" 400)];
               bodyRead := true; invoked := [] |}
        | Some message =>
            let x := processMessage this message env trace in
            {| results := map (respond this request) (delivered x);
               bodyRead := true;
               invoked := seq 0 (length (messageHandlers this)) |}
        end.

End LooseTransport.

Arguments options {Env}.
Arguments messageHandlers {Env}.
Arguments Build_Transport {Env}.
Arguments getCorsHeaders {Env}.
Arguments handleCors {Env}.
Arguments internalError {Env}.
Arguments respond {Env}.
Arguments processMessage {Env}.
Arguments handleRequest {Env}.

(** A transport whose options are complete. *)
Definition loosenTransport {Env : Type} (this : WorkersTransport Env)
  : Transport Env :=
  match this with
  | Build_WorkersTransport _ o hs =>
      {| options := loosen o; messageHandlers := hs |}
  end.

End Loose.

(** *** The server *)
Module Server.

Inductive Runtime :=
  | workers
  | node
  | unknown.

Definition runtimeName (r : Runtime) : string :=
  match r with
  | workers => "workers"
  | node => "node"
  | unknown => "unknown"
  end.

(** [assertWorkersRuntime()], given what [detectRuntime()] returns. *)
Definition assertWorkersRuntime (captureStack : string -> string)
    (runtime : Runtime) : Loose.attempt unit :=
  match runtime with
  | workers => Loose.Done ()
  | _ =>
      Loose.Throws
        (newError captureStack
           ("This code must run in Cloudflare Workers environment. "
            +:+ "Detected runtime: " +:+ runtimeName runtime))
  end.

(** The [health] object; [None] is a member left out. *)
Record HealthOptions := {
  enabled : option bool;
  path : option string;
  message : option string;
  status : option Z
}.

(** The [oauth] object; the two descriptions are objects, kept as the JSON
    values [JSON.stringify] writes for them. *)
Record OAuthOptions := {
  oauthEnabled : bool;
  authorizationServer : option json;
  protectedResource : option json
}.

(** The members of [WorkersServerOptions] that decide how a request is
    answered.  [transport] and [health] are spread over the defaults;
    the others are only read. *)
Record WorkersServerOptions := {
  transport : Loose.member Loose.Argument;
  oauth : option OAuthOptions;
  health : Loose.member HealthOptions;
  cors : option Loose.Cors;
  skipCompatibilityCheck : option bool
}.

Definition DEFAULT_TRANSPORT : Loose.Argument :=
  {| Loose.argPathPrefix := Loose.Given "/mcp";
     Loose.argCors :=
       Loose.Given {| Loose.enabled := Some true; Loose.origins := Some ["*"];
                      Loose.credentials := Some false |};
     Loose.argMaxBodySize := Loose.Missing;
     Loose.argTimeout := Loose.Missing |}.

Definition DEFAULT_HEALTH : HealthOptions :=
  {| enabled := Some true; path := Some "/health"; message := Some "OK";
     status := Some 200 |}.

(** A member of [{ ...DEFAULT_SERVER_OPTIONS, ...options }] that has a
    default. *)
Definition merged {A : Type} (d : A) (m : Loose.member A) : Loose.member A :=
  match m with
  | Loose.Missing => Loose.Given d
  | _ => m
  end.

(** [this.options = { ...DEFAULT_SERVER_OPTIONS, ...options }] *)
Definition merge (options : WorkersServerOptions) : WorkersServerOptions :=
  {| transport := merged DEFAULT_TRANSPORT (transport options);
     oauth := oauth options;
     health := merged DEFAULT_HEALTH (health options);
     cors := cors options;
     skipCompatibilityCheck := skipCompatibilityCheck options |}.

(** [{ ...this.options.transport,
       cors: this.options.cors || this.options.transport?.cors }]:
    the [cors] member is always present, be it with the value
    [undefined]. *)
Definition transportOptions (options : WorkersServerOptions) : Loose.Argument :=
  let given := Loose.read (transport options) in
  let chosen :=
    match cors options with
    | Some c => Some c
    | None =>
        match given with
        | Some t => Loose.read (Loose.argCors t)
        | None => None
        end
    end in
  {| Loose.argPathPrefix :=
       match given with Some t => Loose.argPathPrefix t | None => Loose.Missing end;
     Loose.argCors :=
       match chosen with Some c => Loose.Given c | None => Loose.Undefined end;
     Loose.argMaxBodySize :=
       match given with Some t => Loose.argMaxBodySize t | None => Loose.Missing end;
     Loose.argTimeout :=
       match given with Some t => Loose.argTimeout t | None => Loose.Missing end |}.

Section Instance.

Variable Env : Type.
Variable JSON_parse : string -> option json.
Variable captureStack : string -> string.
Variable readOfUndefined : string -> thrown.

(** The listener [connectTransport] registers; what it does with a message
    is the FastMCP library's. *)
Variable forward : handler Env.

Record WorkersFastMCP := {
  options : WorkersServerOptions;
  serverTransport : Loose.Transport Env
}.

(** The constructor.  [runtime] is what [detectRuntime()] returns and
    [compatibility] what [assertFastMCPCompatibility()] does; the
    constructor of the FastMCP library is taken to return. *)
Definition construct (runtime : Runtime) (compatibility : Loose.attempt unit)
    (given : WorkersServerOptions) : Loose.attempt WorkersFastMCP :=
  assertWorkersRuntime captureStack runtime;;
  (if negb (Loose.flag (skipCompatibilityCheck given)) then compatibility
   else Loose.Done ());;
  let this_options := merge given in
  assertWorkersRuntime captureStack runtime;;
  Loose.Done
    {| options := this_options;
       serverTransport :=
         {| Loose.options := Loose.construct (transportOptions this_options);
            Loose.messageHandlers := [forward] |} |}.

(** [this.options.health?.enabled && url.pathname === this.options.health.path]:
    the health object when the test succeeds. *)
Definition healthCheck (this : WorkersFastMCP) (request : Request)
  : option HealthOptions :=
  match Loose.read (health (options this)) with
  | Some h =>
      if Loose.flag (enabled h)
         && match path h with
            | Some p => String.eqb (pathname request) p
            | None => false
            end
      then Some h else None
  | None => None
  end.

(** The health response: [message || "OK"] and [status || 200]. *)
Definition healthResponse (h : HealthOptions) : Response :=
  Build_Response
    (Text (if Js.truthy (message h) then default "" (message h) else "OK"))
    (match status h with
     | Some s => if s =? 0 then 200 else s
     | None => 200
     end)
    {[ "Content-Type" := "text/plain" ]}.

(** [handleOAuthAuthorizationServer()] and [handleOAuthProtectedResource()];
    a response built without a status has the constructor's default, 200. *)
Definition handleOAuth (description : option json) (missing : string) : Response :=
  match description with
  | None => Build_Response (Text missing) 404 ∅
  | Some d =>
      Build_Response (Serialized d) 200 {[ "Content-Type" := "application/json" ]}
  end.

Definition handleOAuthAuthorizationServer (this : WorkersFastMCP) : Response :=
  handleOAuth
    (match oauth (options this) with
     | Some o => authorizationServer o
     | None => None
     end)
    "OAuth authorization server not configured".

Definition handleOAuthProtectedResource (this : WorkersFastMCP) : Response :=
  handleOAuth
    (match oauth (options this) with
     | Some o => protectedResource o
     | None => None
     end)
    "OAuth protected resource not configured".

(** The OAuth discovery route a request takes, if any. *)
Definition discovery (this : WorkersFastMCP) (request : Request) : option Response :=
  if match oauth (options this) with Some o => oauthEnabled o | None => false end
  then
    if String.eqb (pathname request) "/.well-known/oauth-authorization-server"
    then Some (handleOAuthAuthorizationServer this)
    else if String.eqb (pathname request) "/.well-known/oauth-protected-resource"
    then Some (handleOAuthProtectedResource this)
    else None
  else None.

(** The handler [toWorkerHandler()] returns. *)
Definition toWorkerHandler (this : WorkersFastMCP) (request : Request)
    (env : option Env) (trace : list event) : Loose.Outcome :=
  match healthCheck this request with
  | Some h => Loose.answer (Loose.Done (healthResponse h))
  | None =>
      match discovery this request with
      | Some r => Loose.answer (Loose.Done r)
      | None =>
          Loose.handleRequest JSON_parse captureStack readOfUndefined
            (serverTransport this) request env trace
      end
  end.

End Instance.

Arguments options {Env}.
Arguments serverTransport {Env}.
Arguments Build_WorkersFastMCP {Env}.
Arguments healthCheck {Env}.
Arguments discovery {Env}.
Arguments handleOAuthAuthorizationServer {Env}.
Arguments handleOAuthProtectedResource {Env}.
Arguments toWorkerHandler {Env}.
Arguments construct {Env}.

End Server.

(** Sample servers *)
Module ServerSamples.

Definition readOfUndefined (name : string) : thrown :=
  let text := "Cannot read properties of undefined (reading '" +:+ name +:+ "')" in
  ErrorObject text (Scenario.stackOf text).

(** [new WorkersFastMCP({ name, version })] *)
Definition bare : Server.WorkersServerOptions :=
  {| Server.transport := Loose.Missing; Server.oauth := None;
     Server.health := Loose.Missing; Server.cors := None;
     Server.skipCompatibilityCheck := None |}.

(** [new WorkersFastMCP({ name, version, transport: { pathPrefix: "/api" } })] *)
Definition prefixed : Server.WorkersServerOptions :=
  {| Server.transport :=
       Loose.Given {| Loose.argPathPrefix := Loose.Given "/api";
                      Loose.argCors := Loose.Missing;
                      Loose.argMaxBodySize := Loose.Missing;
                      Loose.argTimeout := Loose.Missing |};
     Server.oauth := None;
     Server.health := Loose.Missing; Server.cors := None;
     Server.skipCompatibilityCheck := None |}.

(** [new WorkersFastMCP({ name, version, health: { path: "/status" } })] *)
Definition statusPage : Server.WorkersServerOptions :=
  {| Server.transport := Loose.Missing; Server.oauth := None;
     Server.health :=
       Loose.Given {| Server.enabled := None; Server.path := Some "/status";
                      Server.message := None; Server.status := None |};
     Server.cors := None;
     Server.skipCompatibilityCheck := None |}.

Definition construct :=
  Server.construct (Env := unit) Scenario.stackOf Scenario.silent
    Server.workers (Loose.Done ()).

Definition handler (this : Server.WorkersFastMCP unit) :=
  Server.toWorkerHandler Scenario.parse Scenario.stackOf readOfUndefined this.

End ServerSamples.

(* ===================================================================== *)
(** ** Properties of the primitives *)
(* ===================================================================== *)

Example stringify_scenario1 :
  Json.stringify (JObj [("result", JArr [])])
  = "{" +:+ Json.quote "result" +:+ ":[]}".
Proof. vm_compute. reflexivity. Qed.

Example stringify_escapes :
  Json.stringify (JArr [JStr (String "010" "a\"); JNum (-7); JBool true; JNull])
  = "[" +:+ String "034" ("\na\\" +:+ String "034" ",-7,true,null]").
Proof. vm_compute. reflexivity. Qed.

Example parseInt_plain : Js.parseInt "2000000" = Some 2000000.
Proof. reflexivity. Qed.
Example parseInt_trailing : Js.parseInt " 12px" = Some 12.
Proof. reflexivity. Qed.
Example parseInt_hex : Js.parseInt "0x1F" = Some 31.
Proof. reflexivity. Qed.
Example parseInt_nan : Js.parseInt "abc" = None.
Proof. reflexivity. Qed.
Example includes_json :
  Js.includes "application/json; charset=utf-8" "application/json" = true.
Proof. reflexivity. Qed.
Example includes_not : Js.includes "text/plain" "application/json" = false.
Proof. reflexivity. Qed.


Lemma arrayIncludes_elem_of (a : list string) (x : string) :
  Js.arrayIncludes a x = true <-> x ∈ a.
Proof.
  unfold Js.arrayIncludes. rewrite existsb_exists, list_elem_of_In. split.
  - intros (y & Hy & Heq). apply String.eqb_eq in Heq. now subst.
  - intros Hx. exists x. split; [assumption | apply String.eqb_refl].
Qed.

Lemma arrayIncludes_not_elem_of (a : list string) (x : string) :
  Js.arrayIncludes a x = false <-> x ∉ a.
Proof.
  rewrite <- arrayIncludes_elem_of. destruct (Js.arrayIncludes a x); intuition congruence.
Qed.

(** The guard [!contentType || !contentType.includes('application/json')]
    is the negation of [isJson]. *)
Lemma contentType_guard (request : Request) :
  let contentType := headersGet request "content-type" in
  negb (Js.truthy contentType)
  || negb (Js.includes (default "" contentType) "application/json")
  = negb (isJson request).
Proof.
  unfold isJson. destruct (headersGet request "content-type") as [ct|]; simpl.
  - destruct ct; reflexivity.
  - reflexivity.
Qed.

(** The guard [contentLength && parseInt(contentLength) > maxBodySize] is
    [oversized]. *)
Lemma contentLength_guard (options : WorkersTransportOptions) (request : Request) :
  let contentLength := headersGet request "content-length" in
  Js.truthy contentLength
  && Js.gt (Js.parseInt (default "" contentLength)) (maxBodySize options)
  = oversized options request.
Proof.
  unfold oversized. destruct (headersGet request "content-length") as [cl|]; simpl.
  - destruct cl; reflexivity.
  - reflexivity.
Qed.

(** *** The exchange *)

Lemma settle_resolved (r : settled) (x : exchange) :
  promise x <> None -> settle r x = x.
Proof. unfold settle. destruct (promise x); congruence. Qed.

Lemma clearTimeout_resolved (x : exchange) :
  resolved x -> clearTimeout x = x.
Proof.
  intros [_ Ht]. unfold clearTimeout.
  destruct (timer x) as [ms| |]; [now destruct (Ht ms) | reflexivity..].
Qed.

Lemma responseHandler_resolved (v : json) (x : exchange) :
  resolved x -> responseHandler v x = x.
Proof.
  intros Hx. unfold responseHandler, resolve.
  rewrite clearTimeout_resolved by assumption.
  apply settle_resolved, Hx.
Qed.

Lemma handlerRaised_resolved (e : thrown) (x : exchange) :
  resolved x -> handlerRaised e x = x.
Proof.
  intros Hx. unfold handlerRaised, reject.
  rewrite clearTimeout_resolved by assumption.
  apply settle_resolved, Hx.
Qed.

Lemma sinkCalls_resolved (vs : list json) (x : exchange) :
  resolved x -> fold_left (fun x v => responseHandler v x) vs x = x.
Proof.
  intros Hx. induction vs as [|v vs IH]; simpl; [reflexivity|].
  now rewrite responseHandler_resolved.
Qed.

(** The first sink invocation on a fresh exchange settles it with its
    argument and disarms the timer. *)
Lemma responseHandler_armed (v : json) (ms : Z) :
  responseHandler v (armed ms)
  = {| promise := Some (Fulfilled v); delivered := [Fulfilled v]; timer := Cleared |}.
Proof. reflexivity. Qed.

Lemma handlerRaised_armed (e : thrown) (ms : Z) :
  handlerRaised e (armed ms)
  = {| promise := Some (Rejected e); delivered := [Rejected e]; timer := Cleared |}.
Proof. reflexivity. Qed.

Lemma resolved_intro (r : settled) (l : list settled) (t : timerState) :
  (forall ms, t <> Armed ms) ->
  resolved {| promise := Some r; delivered := l; timer := t |}.
Proof. intros Ht. split; simpl; [congruence | assumption]. Qed.

#[local] Hint Resolve resolved_intro : core.

Section Exchange.

Context {Env : Type}.
Variable JSON_parse : string -> option json.
Variable captureStack : string -> string.

Implicit Types (this : WorkersTransport Env) (h : handler Env)
  (env : option Env) (x : exchange) (trace : list event).

Lemma deadlineElapsed_resolved x :
  resolved x -> deadlineElapsed captureStack x = x.
Proof.
  intros [_ Ht]. unfold deadlineElapsed.
  destruct (timer x) as [ms| |]; [now destruct (Ht ms) | reflexivity..].
Qed.

Lemma deadlineElapsed_armed ms :
  deadlineElapsed captureStack (armed ms)
  = {| promise := Some (Rejected (newError captureStack "Request timeout"));
       delivered := [Rejected (newError captureStack "Request timeout")];
       timer := Fired |}.
Proof. reflexivity. Qed.

Lemma callHandler_resolved message env x h :
  resolved x -> callHandler message env x h = x.
Proof.
  intros Hx. unfold callHandler. rewrite sinkCalls_resolved by assumption.
  destruct (raised (h message env)); [now apply handlerRaised_resolved | reflexivity].
Qed.

Lemma callHandler_quiet message env x h :
  quiet (h message env) -> callHandler message env x h = x.
Proof. intros [Hs Hr]. unfold callHandler. now rewrite Hs, Hr. Qed.

Lemma callHandlers_resolved message env (hs : list (handler Env)) x :
  resolved x -> fold_left (callHandler message env) hs x = x.
Proof.
  intros Hx. induction hs as [|h hs IH]; simpl; [reflexivity|].
  now rewrite callHandler_resolved.
Qed.

Lemma callHandlers_quiet message env (hs : list (handler Env)) x :
  Forall (fun h => quiet (h message env)) hs ->
  fold_left (callHandler message env) hs x = x.
Proof.
  induction 1 as [|h hs Hh _ IH]; simpl; [reflexivity|].
  now rewrite callHandler_quiet.
Qed.

Lemma deliver_resolved x ev :
  resolved x -> deliver captureStack x ev = x.
Proof.
  intros Hx. destruct ev; simpl;
    [now apply responseHandler_resolved | now apply deadlineElapsed_resolved].
Qed.

Lemma trace_resolved trace x :
  resolved x -> fold_left (deliver captureStack) trace x = x.
Proof.
  intros Hx. induction trace as [|ev trace IH]; simpl; [reflexivity|].
  now rewrite deliver_resolved.
Qed.

Lemma broadcast_quiet this message env :
  allQuiet this message env ->
  broadcast this message env = armed (timeout (options this)).
Proof. intros Hq. unfold broadcast. now apply callHandlers_quiet. Qed.

(** A validated request reaches [processMessage]: its responses are the
    settlements delivered by the exchange. *)
Lemma handleRequest_validated this request message env trace :
  validated JSON_parse this request message ->
  handleRequest JSON_parse captureStack this request env trace
  = {| responses :=
         map (respond this request)
             (delivered (processMessage captureStack this message env trace));
       bodyRead := true;
       invoked := seq 0 (length (messageHandlers this)) |}.
Proof.
  intros (Hm & Hp & Hj & Ho & Hb). unfold handleRequest.
  rewrite contentType_guard, contentLength_guard.
  rewrite Hm, Hp, Hj, Ho, Hb. reflexivity.
Qed.

End Exchange.

(* ===================================================================== *)
(** ** Properties of the CORS policy *)
(* ===================================================================== *)

Lemma cors_names_distinct :
  ALLOW_CREDENTIALS <> ALLOW_ORIGIN /\ ALLOW_HEADERS <> ALLOW_ORIGIN
  /\ ALLOW_METHODS <> ALLOW_ORIGIN.
Proof. repeat split; discriminate. Qed.

(** The only names [getCorsHeaders] ever sets. *)
Lemma getCorsHeaders_names (options : WorkersTransportOptions)
    (request : Request) (k : string) :
  is_Some (getCorsHeaders options request !! k) ->
  k ∈ [ALLOW_HEADERS; ALLOW_METHODS; ALLOW_ORIGIN; ALLOW_CREDENTIALS].
Proof.
  unfold getCorsHeaders.
  repeat match goal with
         | |- context [if ?b then _ else _] => destruct b
         | |- context [match ?o with Some _ => _ | None => _ end] => destruct o
         end;
    intros H;
    repeat (apply lookup_insert_is_Some in H as [<- | [_ H]]; [set_solver|]);
    destruct H as [v H]; by rewrite lookup_empty in H.
Qed.

(** With CORS disabled no header is computed at all. *)
Lemma getCorsHeaders_disabled (options : WorkersTransportOptions)
    (request : Request) :
  enabled (cors options) = false -> getCorsHeaders options request = ∅.
Proof. intros He. unfold getCorsHeaders. now rewrite He. Qed.

(** The allow-origin entry, once CORS is enabled. *)
Lemma allow_origin_enabled (options : WorkersTransportOptions)
    (request : Request) :
  enabled (cors options) = true ->
  getCorsHeaders options request !! ALLOW_ORIGIN
  = if Js.arrayIncludes (origins (cors options)) "*" then Some "*"
    else match headersGet request "origin" with
         | Some o =>
             if Js.truthy (Some o) && Js.arrayIncludes (origins (cors options)) o
             then Some o else None
         | None => None
         end.
Proof.
  intros He. unfold getCorsHeaders. rewrite He. simpl negb. cbv iota.
  destruct cors_names_distinct as (Hc & Hh & Hm).
  assert (Hbase : (<[ALLOW_HEADERS := "Content-Type, Authorization"]>
                     (<[ALLOW_METHODS := "POST, OPTIONS"]> ∅)
                   : gmap string string) !! ALLOW_ORIGIN = None).
  { rewrite !lookup_insert_ne by assumption. apply lookup_empty. }
  destruct (credentials (cors options));
    rewrite ?(lookup_insert_ne _ _ _ _ Hc);
    (destruct (Js.arrayIncludes (origins (cors options)) "*");
     [ apply lookup_insert_eq
     | destruct (headersGet request "origin") as [o|]; [| exact Hbase];
       destruct (Js.truthy (Some o) && Js.arrayIncludes (origins (cors options)) o);
       [ apply lookup_insert_eq | exact Hbase ] ]).
Qed.

(* ===================================================================== *)
(** ** Validation and CORS: the claims *)
(* ===================================================================== *)

(** C6 (as amended).  When CORS is enabled: if the allow-list contains the
    wildcard entry, Access-Control-Allow-Origin is "*" whatever Origin the
    request carries; if it does not, the header is the request's Origin only
    when that exact string is in the list, and is absent otherwise. *)
Theorem allow_origin_when_enabled (options : WorkersTransportOptions)
    (request : Request) :
  enabled (cors options) = true ->
  allow_origin_as_stated options request.
Proof.
  intros He. unfold allow_origin_as_stated.
  rewrite (allow_origin_enabled options request He).
  split.
  - intros Hw. apply arrayIncludes_elem_of in Hw. now rewrite Hw.
  - intros Hw. apply arrayIncludes_not_elem_of in Hw. rewrite Hw.
    destruct (headersGet request "origin") as [og|]; split.
    + intros o Ho.
      destruct (Js.truthy (Some og) && Js.arrayIncludes (origins (cors options)) og)
        eqn:E; [|discriminate].
      injection Ho as <-. apply andb_true_iff in E as [_ E].
      split; [reflexivity | now apply arrayIncludes_elem_of].
    + intros Hno. specialize (Hno og eq_refl).
      apply arrayIncludes_not_elem_of in Hno. rewrite Hno.
      now rewrite andb_false_r.
    + discriminate.
    + reflexivity.
Qed.

Section Validation.

Context {Env : Type}.
Variable JSON_parse : string -> option json.
Variable captureStack : string -> string.

Implicit Types (this : WorkersTransport Env) (env : option Env)
  (trace : list event).

Local Abbreviation handle := (handleRequest JSON_parse captureStack).

(** C8.  An OPTIONS request on the configured prefix is answered 204 with
    an empty body and the access-control headers when CORS is enabled,
    and 403 when CORS is disabled. *)
Theorem preflight_on_prefix this request env trace :
  method request = "OPTIONS" ->
  Js.startsWith (pathname request) (pathPrefix (options this)) = true ->
  (enabled (cors (options this)) = true ->
   responses (handle this request env trace)
   = [ {| resBody := NoBody; status := 204;
          resHeaders := getCorsHeaders (options this) request |} ])
  /\ (enabled (cors (options this)) = false ->
      exists r, responses (handle this request env trace) = [r]
                /\ status r = 403).
Proof.
  intros Hm _. unfold handleRequest, handleCors. rewrite Hm. simpl.
  split; intros He; rewrite He; simpl; [reflexivity|].
  eexists. split; reflexivity.
Qed.

(** C10.  The preflight branch comes before the path check: every OPTIONS
    request, also one whose path does not start with the prefix, gets the
    preflight response (204 with CORS enabled, 403 with CORS disabled),
    never 404. *)
Theorem preflight_before_path this request env trace :
  method request = "OPTIONS" ->
  exists r,
    responses (handle this request env trace) = [r]
    /\ r = handleCors (options this) request
    /\ status r = (if enabled (cors (options this)) then 204 else 403)
    /\ status r <> 404.
Proof.
  intros Hm. unfold handleRequest. rewrite Hm. simpl.
  eexists. split; [reflexivity|]. split; [reflexivity|].
  unfold handleCors. destruct (enabled (cors (options this))); simpl;
    split; [reflexivity | discriminate | reflexivity | discriminate].
Qed.

(** C3 (as amended).  The path check comes before the method check: a
    request whose method is neither POST nor OPTIONS is answered 405 with
    [Allow: POST, OPTIONS] when its path starts with the prefix, and 404
    without an Allow header when it does not; in both cases the body is
    not read and no handler is called. *)
Theorem path_before_method this request env trace :
  method request <> "POST" ->
  method request <> "OPTIONS" ->
  let o := handle this request env trace in
  (Js.startsWith (pathname request) (pathPrefix (options this)) = true ->
   exists r, responses o = [r] /\ status r = 405
             /\ resHeaders r !! "Allow" = Some "POST, OPTIONS")
  /\ (Js.startsWith (pathname request) (pathPrefix (options this)) = false ->
      exists r, responses o = [r] /\ status r = 404
                /\ resHeaders r !! "Allow" = None)
  /\ bodyRead o = false
  /\ invoked o = [].
Proof.
  intros Hp Ho. apply String.eqb_neq in Hp, Ho.
  unfold handleRequest. rewrite Hp, Ho. simpl.
  destruct (Js.startsWith (pathname request) (pathPrefix (options this)));
    simpl; (split; [|split]); try discriminate; try (split; reflexivity).
  - intros _. eexists. split; [reflexivity|]. split; reflexivity.
  - intros _. eexists. split; [reflexivity|]. split; reflexivity.
Qed.

(** C5 (as amended).  A POST on the prefix that declares a JSON content
    type and a Content-Length parsing to more than [maxBodySize] is
    answered 413; the body is not read and no handler is called. *)
Theorem oversized_json_rejected this request env trace :
  isJson request = true ->
  oversized_rejected_as_stated JSON_parse captureStack this request env trace.
Proof.
  intros Hj Hm Hp cl n Hcl Hn Hlt.
  assert (Hover : oversized (options this) request = true).
  { unfold oversized. rewrite Hcl, Hn. simpl. now apply Z.ltb_lt. }
  unfold handleRequest.
  rewrite contentType_guard, contentLength_guard, Hm, Hp, Hj, Hover. simpl.
  split; [|split; reflexivity].
  eexists. split; reflexivity.
Qed.

(** C2 (as amended).  With CORS enabled, every response of
    [handleRequest] is either one of the responses composed with the CORS
    decision -- success (200), internal error (500), preflight (204) -- and
    then carries the headers computed by [getCorsHeaders], or one of the
    validation rejections (404, 405, 400, 413). *)
Theorem cors_on_composed_responses this request env trace :
  enabled (cors (options this)) = true ->
  forall r,
    r ∈ responses (handle this request env trace) ->
    (status r ∈ [200; 500; 204]
     /\ getCorsHeaders (options this) request ⊆ resHeaders r)
    \/ status r ∈ [404; 405; 400; 413].
Proof.
  intros He r. unfold handleRequest.
  rewrite contentType_guard, contentLength_guard.
  destruct (String.eqb (method request) "OPTIONS").
  { intros ->%list_elem_of_singleton. left.
    unfold handleCors. rewrite He. simpl.
    split; [repeat constructor | reflexivity]. }
  destruct (negb (Js.startsWith (pathname request) (pathPrefix (options this)))).
  { intros ->%list_elem_of_singleton. right. repeat constructor. }
  destruct (negb (String.eqb (method request) "POST")).
  { intros ->%list_elem_of_singleton. right. repeat constructor. }
  destruct (negb (isJson request)).
  { intros ->%list_elem_of_singleton. right. repeat constructor. }
  destruct (oversized (options this) request).
  { intros ->%list_elem_of_singleton. right. repeat constructor. }
  destruct (JSON_parse (body request)) as [message|]; simpl.
  - intros (s & -> & _)%list_elem_of_fmap. left.
    destruct s; simpl; (split; [repeat constructor|]);
      apply map_union_subseteq_l.
  - intros ->%list_elem_of_singleton. right. repeat constructor.
Qed.

(** X6.  The validation rejections (404, 405, 400, 413) carry none of the
    four access-control headers, whatever the CORS configuration. *)
Theorem rejections_without_cors this request env trace :
  forall r,
    r ∈ responses (handle this request env trace) ->
    status r ∈ [404; 405; 400; 413] ->
    forall k,
      k ∈ [ALLOW_HEADERS; ALLOW_METHODS; ALLOW_ORIGIN; ALLOW_CREDENTIALS] ->
      resHeaders r !! k = None.
Proof.
  assert (Hmem : forall z : Z, z ∈ [404; 405; 400; 413] ->
                               z = 404 \/ z = 405 \/ z = 400 \/ z = 413).
  { intros z Hz. rewrite !elem_of_cons, elem_of_nil in Hz. tauto. }
  intros r. unfold handleRequest.
  rewrite contentType_guard, contentLength_guard.
  destruct (String.eqb (method request) "OPTIONS").
  { intros ->%list_elem_of_singleton Hs. apply Hmem in Hs. exfalso.
    unfold handleCors in Hs. destruct (negb (enabled (cors (options this))));
      simpl in Hs; lia. }
  destruct (negb (Js.startsWith (pathname request) (pathPrefix (options this)))).
  { intros ->%list_elem_of_singleton _ k _. apply lookup_empty. }
  destruct (negb (String.eqb (method request) "POST")).
  { intros ->%list_elem_of_singleton _ k Hk. simpl.
    apply lookup_singleton_ne. intros <-.
    rewrite !elem_of_cons, elem_of_nil in Hk.
    destruct Hk as [Hk|[Hk|[Hk|[Hk|[]]]]]; discriminate Hk. }
  destruct (negb (isJson request)).
  { intros ->%list_elem_of_singleton _ k _. apply lookup_empty. }
  destruct (oversized (options this) request).
  { intros ->%list_elem_of_singleton _ k _. apply lookup_empty. }
  destruct (JSON_parse (body request)) as [message|]; simpl.
  - intros (s & -> & _)%list_elem_of_fmap Hs. apply Hmem in Hs. exfalso.
    destruct s; simpl in Hs; lia.
  - intros ->%list_elem_of_singleton _ k _. apply lookup_empty.
Qed.

End Validation.

(* ===================================================================== *)
(** ** The exchange: invariant and claims *)
(* ===================================================================== *)

Lemma coherent_armed (ms : Z) : coherent (armed ms).
Proof. left. simpl. eauto. Qed.

Lemma coherent_settled (x : exchange) (r : settled) (t : timerState) :
  coherent x -> (forall ms, t <> Armed ms) ->
  coherent (settle r {| promise := promise x; delivered := delivered x; timer := t |}).
Proof.
  intros [(Hp & Hd & _) | (s & Hp & Hd & _)] Ht; unfold settle; simpl;
    rewrite Hp, Hd; right; eexists; simpl; (split; [reflexivity|]);
    (split; [reflexivity|]); split; simpl; congruence.
Qed.

Lemma coherent_resolved_or_armed (x : exchange) :
  coherent x -> resolved x \/ exists ms, timer x = Armed ms.
Proof. intros [(_ & _ & Ht) | (s & _ & _ & Hr)]; [right | left]; assumption. Qed.

Lemma coherent_responseHandler (v : json) (x : exchange) :
  coherent x -> coherent (responseHandler v x).
Proof.
  intros Hx. destruct (coherent_resolved_or_armed x Hx) as [Hr | [ms Ht]].
  - now rewrite responseHandler_resolved.
  - unfold responseHandler, resolve, clearTimeout. rewrite Ht.
    apply coherent_settled; [assumption | discriminate].
Qed.

Lemma coherent_handlerRaised (e : thrown) (x : exchange) :
  coherent x -> coherent (handlerRaised e x).
Proof.
  intros Hx. destruct (coherent_resolved_or_armed x Hx) as [Hr | [ms Ht]].
  - now rewrite handlerRaised_resolved.
  - unfold handlerRaised, reject, clearTimeout. rewrite Ht.
    apply coherent_settled; [assumption | discriminate].
Qed.

Section ExchangeClaims.

Context {Env : Type}.
Variable JSON_parse : string -> option json.
Variable captureStack : string -> string.

Implicit Types (this : WorkersTransport Env) (h : handler Env)
  (env : option Env) (x : exchange) (trace : list event).

Local Abbreviation handle := (handleRequest JSON_parse captureStack).
Local Abbreviation process := (processMessage captureStack).

Lemma coherent_deadlineElapsed x :
  coherent x -> coherent (deadlineElapsed captureStack x).
Proof.
  intros Hx. destruct (coherent_resolved_or_armed x Hx) as [Hr | [ms Ht]].
  - now rewrite deadlineElapsed_resolved.
  - unfold deadlineElapsed, reject. rewrite Ht.
    apply coherent_settled; [assumption | discriminate].
Qed.

Lemma coherent_callHandler message env x h :
  coherent x -> coherent (callHandler message env x h).
Proof.
  intros Hx. unfold callHandler.
  assert (Hs : coherent
            (fold_left (fun x v => responseHandler v x)
                       (sinkCalls (h message env)) x)).
  { revert x Hx. induction (sinkCalls (h message env)) as [|v vs IH];
      intros x Hx; simpl; [assumption|].
    apply IH. now apply coherent_responseHandler. }
  destruct (raised (h message env)); [now apply coherent_handlerRaised | assumption].
Qed.

(** Every state the exchange of a request goes through is coherent. *)
Lemma coherent_processMessage this message env trace :
  coherent (process this message env trace).
Proof.
  unfold processMessage, broadcast.
  assert (Hb : forall hs x, coherent x ->
                 coherent (fold_left (callHandler message env) hs x)).
  { induction hs as [|h hs IH]; intros x Hx; simpl; [assumption|].
    apply IH. now apply coherent_callHandler. }
  generalize (Hb (messageHandlers this) _ (coherent_armed (timeout (options this)))).
  generalize (fold_left (callHandler message env) (messageHandlers this)
                (armed (timeout (options this)))).
  induction trace as [|ev trace IH]; intros x Hx; simpl; [assumption|].
  apply IH. destruct ev; simpl;
    [now apply coherent_responseHandler | now apply coherent_deadlineElapsed].
Qed.

(** X1.  [handleRequest] never produces more than one response. *)
Theorem at_most_one_response this request env trace :
  (length (responses (handle this request env trace)) <= 1)%nat.
Proof.
  unfold handleRequest.
  repeat match goal with
         | |- context [if ?b then _ else _] => destruct b; [simpl; lia|]
         end.
  destruct (JSON_parse (body request)) as [message|]; simpl; [|lia].
  rewrite length_map.
  destruct (coherent_processMessage this message env trace)
    as [(_ & -> & _) | (s & _ & -> & _)]; simpl; lia.
Qed.

(** X2.  Once the deadline has elapsed, a validated request has exactly
    one response, whatever came before and whatever comes after. *)
Theorem response_by_deadline this request message env early late :
  validated JSON_parse this request message ->
  exists r,
    responses (handle this request env (early ++ DeadlineElapsed :: late)) = [r].
Proof.
  intros Hv. rewrite (handleRequest_validated _ _ _ _ _ _ _ Hv). simpl.
  unfold processMessage. rewrite fold_left_app. simpl.
  pose proof (coherent_processMessage this message env early) as Hc.
  unfold processMessage in Hc.
  set (x := fold_left (deliver captureStack) early (broadcast this message env)) in *.
  assert (Hx : resolved (deadlineElapsed captureStack x)
               /\ exists s, delivered (deadlineElapsed captureStack x) = [s]).
  { destruct Hc as [(Hp & Hd & ms & Ht) | (s & Hp & Hd & Hr)].
    - unfold deadlineElapsed, reject, settle. rewrite Ht. simpl.
      rewrite Hp, Hd. split; [apply resolved_intro; discriminate | eauto].
    - rewrite deadlineElapsed_resolved by assumption. eauto. }
  destruct Hx as [Hr [s Hs]].
  rewrite trace_resolved by assumption. rewrite Hs. simpl. eauto.
Qed.

(** C1 (as amended).  A validated POST on the prefix whose handlers neither
    invoke the sink nor throw before the deadline elapses is answered 500
    with a JSON body whose error object has code -32603, message
    "Internal error" and data "Request timeout". *)
Theorem timeout_internal_error this request message env late :
  validated JSON_parse this request message ->
  allQuiet this message env ->
  exists r,
    reply (handle this request env (DeadlineElapsed :: late)) = Some r
    /\ status r = 500
    /\ errorField "code" r = Some (JNum (-32603))
    /\ errorField "message" r = Some (JStr "Internal error")
    /\ errorField "data" r = Some (JStr "Request timeout").
Proof.
  intros Hv Hq. rewrite (handleRequest_validated _ _ _ _ _ _ _ Hv).
  unfold processMessage. rewrite (broadcast_quiet _ _ _ Hq). simpl fold_left.
  rewrite deadlineElapsed_armed.
  rewrite trace_resolved by (apply resolved_intro; discriminate).
  eexists. split; [reflexivity|]. repeat split.
Qed.

(** C9.  Once the deadline has fired and the timeout error has settled the
    exchange, later sink invocations are discarded: whatever arrives
    afterwards, the exchange, the timeout response and the whole outcome
    of the request are what they were when the deadline fired, and that
    response is the only one. *)
Theorem late_sink_discarded this request message env late :
  validated JSON_parse this request message ->
  allQuiet this message env ->
  process this message env (DeadlineElapsed :: late)
  = process this message env [DeadlineElapsed]
  /\ handle this request env (DeadlineElapsed :: late)
     = handle this request env [DeadlineElapsed]
  /\ responses (handle this request env (DeadlineElapsed :: late))
     = [internalError this request (newError captureStack "Request timeout")].
Proof.
  intros Hv Hq.
  assert (Hp : process this message env (DeadlineElapsed :: late)
               = process this message env [DeadlineElapsed]).
  { unfold processMessage. rewrite (broadcast_quiet _ _ _ Hq). simpl fold_left.
    rewrite deadlineElapsed_armed.
    apply trace_resolved, resolved_intro; discriminate. }
  split; [exact Hp|].
  rewrite !(handleRequest_validated _ _ _ _ _ _ _ Hv), Hp.
  split; [reflexivity|].
  unfold processMessage. rewrite (broadcast_quiet _ _ _ Hq). reflexivity.
Qed.

(** C4.  Resolution is one-shot.  The first invocation of the sink on a
    fresh exchange fixes the result and cancels the timer; a second
    invocation changes nothing; and whether that first invocation comes
    from a handler during the broadcast (with any number of handlers
    after it) or asynchronously, the request has exactly the one response
    built from the first value, whatever is invoked later. *)
Theorem first_sink_wins this request message env v :
  validated JSON_parse this request message ->
  let x1 := responseHandler v (armed (timeout (options this))) in
  (promise x1 = Some (Fulfilled v) /\ delivered x1 = [Fulfilled v]
   /\ timer x1 = Cleared)
  /\ (forall w, responseHandler w x1 = x1)
  /\ (forall (before : list (handler Env)) h after more trace,
        messageHandlers this = (before ++ h :: after)%list ->
        Forall (fun g : handler Env => quiet (g message env)) before ->
        sinkCalls (h message env) = v :: more ->
        process this message env trace = x1
        /\ responses (handle this request env trace)
           = [respond this request (Fulfilled v)])
  /\ (forall rest,
        allQuiet this message env ->
        process this message env (SinkInvoked v :: rest) = x1
        /\ responses (handle this request env (SinkInvoked v :: rest))
           = [respond this request (Fulfilled v)]).
Proof.
  intros Hv x1.
  assert (Hx1 : resolved x1) by (apply resolved_intro; discriminate).
  split; [repeat split|]. split; [|split].
  - intros w. now apply responseHandler_resolved.
  - intros before h after more trace Hm Hq Hs.
    assert (Hp : process this message env trace = x1).
    { unfold processMessage, broadcast. rewrite Hm, fold_left_app.
      rewrite (callHandlers_quiet _ _ _ _ Hq). simpl fold_left.
      assert (Hh : callHandler message env (armed (timeout (options this))) h = x1).
      { unfold callHandler. rewrite Hs. simpl fold_left. fold x1.
        rewrite sinkCalls_resolved by assumption.
        destruct (raised (h message env));
          [now apply handlerRaised_resolved | reflexivity]. }
      rewrite Hh, callHandlers_resolved by assumption.
      now apply trace_resolved. }
    split; [exact Hp|].
    now rewrite (handleRequest_validated _ _ _ _ _ _ _ Hv), Hp.
  - intros rest Hq.
    assert (Hp : process this message env (SinkInvoked v :: rest) = x1).
    { unfold processMessage. rewrite (broadcast_quiet _ _ _ Hq). simpl fold_left.
      now apply trace_resolved. }
    split; [exact Hp|].
    now rewrite (handleRequest_validated _ _ _ _ _ _ _ Hv), Hp.
Qed.

(** C7.  When a handler throws during the broadcast before any sink
    invocation, the exchange is rejected with that error and the timer
    cancelled before the broadcast returns; whatever happens afterwards,
    the one response is the 500 envelope with code -32603 whose data is
    the error's message (the string conversion of a thrown value that is
    not an Error), and the response does not depend on the error's
    stack. *)
Theorem handler_raise_internal_error this request message env
    (before after : list (handler Env)) h error :
  validated JSON_parse this request message ->
  messageHandlers this = (before ++ h :: after)%list ->
  Forall (fun g : handler Env => quiet (g message env)) before ->
  sinkCalls (h message env) = [] ->
  raised (h message env) = Some error ->
  (promise (broadcast this message env) = Some (Rejected error)
   /\ timer (broadcast this message env) = Cleared)
  /\ (forall trace,
        responses (handle this request env trace)
        = [internalError this request error])
  /\ status (internalError this request error) = 500
  /\ errorField "code" (internalError this request error) = Some (JNum (-32603))
  /\ errorField "data" (internalError this request error)
     = Some (JStr (errorData error))
  /\ (forall m stk stk',
        error = ErrorObject m stk ->
        errorData error = m
        /\ internalError this request error
           = internalError this request (ErrorObject m stk')).
Proof.
  intros Hv Hm Hq Hs Hr.
  assert (Hb : broadcast this message env = handlerRaised error (armed (timeout (options this)))).
  { unfold broadcast. rewrite Hm, fold_left_app.
    rewrite (callHandlers_quiet _ _ _ _ Hq). simpl fold_left.
    unfold callHandler at 2. rewrite Hs, Hr. simpl fold_left.
    apply callHandlers_resolved. rewrite handlerRaised_armed.
    apply resolved_intro; discriminate. }
  split; [rewrite Hb; split; reflexivity|].
  split.
  { intros trace. rewrite (handleRequest_validated _ _ _ _ _ _ _ Hv).
    unfold processMessage. rewrite Hb, handlerRaised_armed.
    rewrite trace_resolved by (apply resolved_intro; discriminate).
    reflexivity. }
  repeat split; try reflexivity.
  - now subst error.
  - now subst error.
Qed.

End ExchangeClaims.

(* ===================================================================== *)
(** ** Further properties of the validator and the policy *)
(* ===================================================================== *)

Section Rejections.

Context {Env : Type}.
Variable JSON_parse : string -> option json.
Variable captureStack : string -> string.

Implicit Types (this : WorkersTransport Env) (env : option Env)
  (trace : list event).

Local Abbreviation handle := (handleRequest JSON_parse captureStack).

(** X3.  A POST on the prefix without a JSON content type is answered 400; the
    body is not read and no handler is called. *)
Theorem non_json_rejected this request env trace :
  method request = "POST" ->
  Js.startsWith (pathname request) (pathPrefix (options this)) = true ->
  isJson request = false ->
  handle this request env trace
  = {| responses := [plain "Bad Request: Content-Type must be application/json" 400];
       bodyRead := false; invoked := [] |}.
Proof.
  intros Hm Hp Hj. unfold handleRequest.
  rewrite contentType_guard, Hm, Hp, Hj. reflexivity.
Qed.

(** X4.  A POST that passes the header checks but whose body does not parse is
    answered 400 after the body was read; no handler is called. *)
Theorem malformed_body_rejected this request env trace :
  method request = "POST" ->
  Js.startsWith (pathname request) (pathPrefix (options this)) = true ->
  isJson request = true ->
  oversized (options this) request = false ->
  JSON_parse (body request) = None ->
  handle this request env trace
  = {| responses := [plain "Bad Request: Invalid JSON" 400];
       bodyRead := true; invoked := [] |}.
Proof.
  intros Hm Hp Hj Ho Hb. unfold handleRequest.
  rewrite contentType_guard, contentLength_guard, Hm, Hp, Hj, Ho, Hb. reflexivity.
Qed.

End Rejections.

(** X5.  With CORS enabled, Access-Control-Allow-Credentials is "true" exactly
    when the credentials flag is set, wildcard or not. *)
Theorem allow_credentials_follows_flag (options : WorkersTransportOptions)
    (request : Request) :
  enabled (cors options) = true ->
  getCorsHeaders options request !! ALLOW_CREDENTIALS
  = if credentials (cors options) then Some "true" else None.
Proof.
  intros He. unfold getCorsHeaders. rewrite He. simpl negb. cbv iota.
  assert (Hne : forall k, k ∈ [ALLOW_ORIGIN; ALLOW_HEADERS; ALLOW_METHODS] ->
                          k <> ALLOW_CREDENTIALS).
  { intros k Hk. rewrite !elem_of_cons, elem_of_nil in Hk.
    destruct Hk as [->|[->|[->|[]]]]; discriminate. }
  destruct (credentials (cors options)); [apply lookup_insert_eq|].
  repeat match goal with
         | |- context [if ?b then _ else _] => destruct b
         | |- context [match ?o with Some _ => _ | None => _ end] => destruct o
         end;
    rewrite !lookup_insert_ne by (apply Hne; repeat constructor);
    apply lookup_empty.
Qed.

(* ===================================================================== *)
(** ** Concrete runs *)
(* ===================================================================== *)

(** *** The worded statements fail on the code *)

(** C1, counterexample: a POST of "{}" to /mcp with one handler that never
    answers.  When the deadline elapses the response is 500 and its error
    object's message is "Internal error" ("Request timeout" is its data), so
    the statement fails. *)
Lemma timeout_message_counterexample :
  (exists r,
     reply (Scenario.handle (Scenario.transport [Scenario.silent])
              (Scenario.postJson "{}") None [DeadlineElapsed]) = Some r
     /\ status r = 500
     /\ errorField "message" r = Some (JStr "Internal error")
     /\ errorField "data" r = Some (JStr "Request timeout"))
  /\ ~ timeout_message_as_stated Scenario.parse Scenario.stackOf
        (Scenario.transport [Scenario.silent]) (Scenario.postJson "{}") None [].
Proof.
  split.
  - eexists. split; [vm_compute; reflexivity|]. repeat split.
  - intros H.
    destruct (H (JObj [])) as (r & Hr & _ & _ & Hmsg).
    + repeat split; vm_compute; reflexivity.
    + repeat constructor.
    + vm_compute in Hr. injection Hr as <-. vm_compute in Hmsg. discriminate Hmsg.
Qed.

(** C2, counterexample: with the default options (CORS enabled), GET
    /unrelated is answered 404 with no header at all, although
    [getCorsHeaders] computes access-control headers for the request. *)
Lemma cors_everywhere_counterexample :
  responses (Scenario.handle (Scenario.transport []) Scenario.elsewhere None [])
  = [ {| resBody := Text "Not Found"; status := 404; resHeaders := ∅ |} ]
  /\ getCorsHeaders DEFAULT_OPTIONS Scenario.elsewhere !! ALLOW_ORIGIN = Some "*"
  /\ ~ cors_everywhere_as_stated Scenario.parse Scenario.stackOf
        (Scenario.transport []) Scenario.elsewhere None [].
Proof.
  split; [reflexivity|]. split; [vm_compute; reflexivity|].
  intros H.
  specialize (H eq_refl (plain "Not Found" 404)).
  assert (Hin : plain "Not Found" 404
                ∈ responses (Scenario.handle (Scenario.transport [])
                               Scenario.elsewhere None [])).
  { apply list_elem_of_singleton. reflexivity. }
  specialize (H Hin).
  assert (Hk : getCorsHeaders DEFAULT_OPTIONS Scenario.elsewhere !! ALLOW_METHODS
               = Some "POST, OPTIONS") by (vm_compute; reflexivity).
  eapply lookup_weaken in Hk; [|exact H].
  simpl in Hk. rewrite lookup_empty in Hk. discriminate Hk.
Qed.

(** C3, counterexample: GET /unrelated (method neither POST nor OPTIONS,
    path outside the prefix) is answered 404, not 405. *)
Lemma method_first_counterexample :
  (exists r,
     responses (Scenario.handle (Scenario.transport []) Scenario.elsewhere None []) = [r]
     /\ status r = 404)
  /\ ~ method_first_as_stated Scenario.parse Scenario.stackOf
        (Scenario.transport []) Scenario.elsewhere None [].
Proof.
  split.
  - eexists. split; reflexivity.
  - intros H. destruct H as (r & Hr & Hs & _); [discriminate..|].
    vm_compute in Hr. injection Hr as <-. discriminate Hs.
Qed.

(** C5, counterexample: a POST to /mcp declaring Content-Length 2000000
    (above the default maximum of 1048576) and no Content-Type is answered
    400, not 413. *)
Lemma oversized_rejected_counterexample :
  (exists r,
     responses (Scenario.handle (Scenario.transport [Scenario.silent])
                  Scenario.sizeOnly None []) = [r]
     /\ status r = 400)
  /\ ~ oversized_rejected_as_stated Scenario.parse Scenario.stackOf
        (Scenario.transport [Scenario.silent]) Scenario.sizeOnly None [].
Proof.
  split.
  - eexists. split; [vm_compute; reflexivity | reflexivity].
  - intros H.
    destruct (H eq_refl eq_refl "2000000" 2000000) as [(r & Hr & Hs) _].
    + vm_compute. reflexivity.
    + vm_compute. reflexivity.
    + vm_compute. reflexivity.
    + vm_compute in Hr. injection Hr as <-. discriminate Hs.
Qed.

(** C6, counterexample: with CORS disabled and the wildcard in the
    allow-list, no Access-Control-Allow-Origin header is computed. *)
Lemma allow_origin_counterexample :
  "*" ∈ origins (cors Scenario.closedCors)
  /\ getCorsHeaders Scenario.closedCors (Scenario.preflight "/mcp" "https://a.com")
       !! ALLOW_ORIGIN = None
  /\ ~ allow_origin_as_stated Scenario.closedCors
        (Scenario.preflight "/mcp" "https://a.com").
Proof.
  assert (Hw : "*" ∈ origins (cors Scenario.closedCors)) by repeat constructor.
  split; [exact Hw|]. split; [vm_compute; reflexivity|].
  intros [H _]. specialize (H Hw). vm_compute in H. discriminate H.
Qed.

(** *** The theorems at concrete inputs *)

Lemma timeout_internal_error_witness :
  validated Scenario.parse (Scenario.transport [Scenario.silent])
    (Scenario.postJson "{}") (JObj [])
  /\ allQuiet (Scenario.transport [Scenario.silent]) (JObj []) None
  /\ exists r,
       reply (Scenario.handle (Scenario.transport [Scenario.silent])
                (Scenario.postJson "{}") None [DeadlineElapsed; SinkInvoked JNull])
       = Some r
       /\ status r = 500
       /\ errorField "code" r = Some (JNum (-32603))
       /\ errorField "message" r = Some (JStr "Internal error")
       /\ errorField "data" r = Some (JStr "Request timeout").
Proof.
  assert (Hv : validated Scenario.parse (Scenario.transport [Scenario.silent])
                 (Scenario.postJson "{}") (JObj []))
    by (repeat split; vm_compute; reflexivity).
  assert (Hq : allQuiet (Scenario.transport [Scenario.silent]) (JObj []) None)
    by (repeat constructor).
  split; [exact Hv|]. split; [exact Hq|].
  exact (timeout_internal_error Scenario.parse Scenario.stackOf
           (Scenario.transport [Scenario.silent]) (Scenario.postJson "{}")
           (JObj []) None [SinkInvoked JNull] Hv Hq).
Defined.

Lemma cors_on_composed_responses_witness :
  enabled (cors (options (Scenario.transport [Scenario.prompt JNull]))) = true
  /\ respond (Scenario.transport [Scenario.prompt JNull]) (Scenario.postJson "{}")
       (Fulfilled JNull)
     ∈ responses (Scenario.handle (Scenario.transport [Scenario.prompt JNull])
                    (Scenario.postJson "{}") None [])
  /\ getCorsHeaders DEFAULT_OPTIONS (Scenario.postJson "{}")
     ⊆ resHeaders (respond (Scenario.transport [Scenario.prompt JNull])
                     (Scenario.postJson "{}") (Fulfilled JNull)).
Proof.
  assert (Hin : respond (Scenario.transport [Scenario.prompt JNull])
                  (Scenario.postJson "{}") (Fulfilled JNull)
                ∈ responses (Scenario.handle (Scenario.transport [Scenario.prompt JNull])
                               (Scenario.postJson "{}") None [])).
  { apply list_elem_of_singleton. vm_compute. reflexivity. }
  split; [reflexivity|]. split; [exact Hin|].
  destruct (cors_on_composed_responses Scenario.parse Scenario.stackOf
              (Scenario.transport [Scenario.prompt JNull]) (Scenario.postJson "{}")
              None [] eq_refl _ Hin) as [[_ Hsub] | Hrej].
  - exact Hsub.
  - exfalso. simpl in Hrej. rewrite !elem_of_cons, elem_of_nil in Hrej.
    destruct Hrej as [Hr|[Hr|[Hr|[Hr|[]]]]]; discriminate Hr.
Defined.

Lemma rejections_without_cors_witness :
  plain "Not Found" 404
  ∈ responses (Scenario.handle (Scenario.transport []) Scenario.elsewhere None [])
  /\ getCorsHeaders DEFAULT_OPTIONS Scenario.elsewhere !! ALLOW_ORIGIN = Some "*"
  /\ resHeaders (plain "Not Found" 404) !! ALLOW_ORIGIN = None.
Proof.
  assert (Hin : plain "Not Found" 404
                ∈ responses (Scenario.handle (Scenario.transport [])
                               Scenario.elsewhere None [])).
  { apply list_elem_of_singleton. reflexivity. }
  split; [exact Hin|]. split; [vm_compute; reflexivity|].
  apply (rejections_without_cors Scenario.parse Scenario.stackOf
           (Scenario.transport []) Scenario.elsewhere None [] _ Hin);
    repeat constructor.
Defined.

Lemma path_before_method_witness :
  method Scenario.elsewhere <> "POST"
  /\ method Scenario.elsewhere <> "OPTIONS"
  /\ exists r,
       responses (Scenario.handle (Scenario.transport []) Scenario.elsewhere None []) = [r]
       /\ status r = 404 /\ resHeaders r !! "Allow" = None.
Proof.
  assert (Hp : method Scenario.elsewhere <> "POST") by discriminate.
  assert (Ho : method Scenario.elsewhere <> "OPTIONS") by discriminate.
  split; [exact Hp|]. split; [exact Ho|].
  destruct (path_before_method Scenario.parse Scenario.stackOf
              (Scenario.transport []) Scenario.elsewhere None [] Hp Ho)
    as (_ & Hnot & _).
  apply Hnot. reflexivity.
Defined.

Lemma first_sink_wins_witness :
  validated Scenario.parse
    (Scenario.transport [Scenario.silent; Scenario.prompt (JNum 1); Scenario.prompt (JNum 2)])
    (Scenario.postJson "{}") (JObj [])
  /\ responses
       (Scenario.handle
          (Scenario.transport [Scenario.silent; Scenario.prompt (JNum 1); Scenario.prompt (JNum 2)])
          (Scenario.postJson "{}") None [SinkInvoked (JNum 3); DeadlineElapsed])
     = [ {| resBody := Serialized (JNum 1); status := 200;
            resHeaders := jsonHeaders
              (Scenario.transport [Scenario.silent; Scenario.prompt (JNum 1); Scenario.prompt (JNum 2)])
              (Scenario.postJson "{}") |} ].
Proof.
  assert (Hv : validated Scenario.parse
                 (Scenario.transport [Scenario.silent; Scenario.prompt (JNum 1);
                                      Scenario.prompt (JNum 2)])
                 (Scenario.postJson "{}") (JObj []))
    by (repeat split; vm_compute; reflexivity).
  split; [exact Hv|].
  destruct (first_sink_wins Scenario.parse Scenario.stackOf _ _ _ None (JNum 1) Hv)
    as (_ & _ & Hsync & _).
  destruct (Hsync [Scenario.silent] (Scenario.prompt (JNum 1))
              [Scenario.prompt (JNum 2)] []
              [SinkInvoked (JNum 3); DeadlineElapsed] eq_refl)
    as [_ Hresp].
  - repeat constructor.
  - reflexivity.
  - exact Hresp.
Defined.

Lemma oversized_json_rejected_witness :
  isJson Scenario.sizeAndType = true
  /\ (exists r,
        responses (Scenario.handle (Scenario.transport [Scenario.silent])
                     Scenario.sizeAndType None []) = [r]
        /\ status r = 413)
  /\ bodyRead (Scenario.handle (Scenario.transport [Scenario.silent])
                 Scenario.sizeAndType None []) = false
  /\ invoked (Scenario.handle (Scenario.transport [Scenario.silent])
                Scenario.sizeAndType None []) = [].
Proof.
  assert (Hj : isJson Scenario.sizeAndType = true) by (vm_compute; reflexivity).
  split; [exact Hj|].
  apply (oversized_json_rejected Scenario.parse Scenario.stackOf
           (Scenario.transport [Scenario.silent]) Scenario.sizeAndType None [] Hj
           eq_refl eq_refl "2000000" 2000000).
  - vm_compute. reflexivity.
  - vm_compute. reflexivity.
  - vm_compute. reflexivity.
Defined.

Lemma allow_origin_when_enabled_witness :
  enabled (cors Scenario.listed) = true
  /\ allow_origin_as_stated Scenario.listed (Scenario.preflight "/mcp" "https://b.com")
  /\ getCorsHeaders Scenario.listed (Scenario.preflight "/mcp" "https://b.com")
       !! ALLOW_ORIGIN = None
  /\ getCorsHeaders Scenario.listed (Scenario.preflight "/mcp" "https://a.com")
       !! ALLOW_ORIGIN = Some "https://a.com".
Proof.
  split; [reflexivity|].
  split; [exact (allow_origin_when_enabled Scenario.listed
                   (Scenario.preflight "/mcp" "https://b.com") eq_refl)|].
  split; vm_compute; reflexivity.
Defined.

Lemma handler_raise_internal_error_witness :
  validated Scenario.parse
    (Scenario.transport [Scenario.silent; Scenario.failing "boom"; Scenario.prompt JNull])
    (Scenario.postJson "{}") (JObj [])
  /\ responses
       (Scenario.handle
          (Scenario.transport [Scenario.silent; Scenario.failing "boom"; Scenario.prompt JNull])
          (Scenario.postJson "{}") None [SinkInvoked JNull; DeadlineElapsed])
     = [ internalError
           (Scenario.transport [Scenario.silent; Scenario.failing "boom"; Scenario.prompt JNull])
           (Scenario.postJson "{}")
           (ErrorObject "boom" (Scenario.stackOf "boom")) ].
Proof.
  assert (Hv : validated Scenario.parse
                 (Scenario.transport [Scenario.silent; Scenario.failing "boom";
                                      Scenario.prompt JNull])
                 (Scenario.postJson "{}") (JObj []))
    by (repeat split; vm_compute; reflexivity).
  split; [exact Hv|].
  destruct (handler_raise_internal_error Scenario.parse Scenario.stackOf
              _ _ _ None [Scenario.silent] [Scenario.prompt JNull]
              (Scenario.failing "boom") (ErrorObject "boom" (Scenario.stackOf "boom"))
              Hv eq_refl)
    as (_ & Hresp & _).
  - repeat constructor.
  - reflexivity.
  - reflexivity.
  - apply Hresp.
Defined.

Lemma preflight_on_prefix_witness :
  method (Scenario.preflight "/mcp" "https://b.com") = "OPTIONS"
  /\ Js.startsWith (pathname (Scenario.preflight "/mcp" "https://b.com"))
       (pathPrefix Scenario.listed) = true
  /\ responses
       (Scenario.handle {| options := Scenario.listed; messageHandlers := [] |}
          (Scenario.preflight "/mcp" "https://b.com") None [])
     = [ {| resBody := NoBody; status := 204;
            resHeaders := getCorsHeaders Scenario.listed
                            (Scenario.preflight "/mcp" "https://b.com") |} ].
Proof.
  split; [reflexivity|]. split; [reflexivity|].
  apply (preflight_on_prefix Scenario.parse Scenario.stackOf
           {| options := Scenario.listed; messageHandlers := [] |}
           (Scenario.preflight "/mcp" "https://b.com") None [] eq_refl eq_refl).
  reflexivity.
Defined.

Lemma late_sink_discarded_witness :
  validated Scenario.parse (Scenario.transport [Scenario.silent])
    (Scenario.postJson "{}") (JObj [])
  /\ allQuiet (Scenario.transport [Scenario.silent]) (JObj []) None
  /\ Scenario.handle (Scenario.transport [Scenario.silent]) (Scenario.postJson "{}")
       None [DeadlineElapsed; SinkInvoked (JNum 7); SinkInvoked JNull]
     = Scenario.handle (Scenario.transport [Scenario.silent]) (Scenario.postJson "{}")
         None [DeadlineElapsed].
Proof.
  assert (Hv : validated Scenario.parse (Scenario.transport [Scenario.silent])
                 (Scenario.postJson "{}") (JObj []))
    by (repeat split; vm_compute; reflexivity).
  assert (Hq : allQuiet (Scenario.transport [Scenario.silent]) (JObj []) None)
    by (repeat constructor).
  split; [exact Hv|]. split; [exact Hq|].
  exact (proj1 (proj2 (late_sink_discarded Scenario.parse Scenario.stackOf
                         (Scenario.transport [Scenario.silent])
                         (Scenario.postJson "{}") (JObj []) None
                         [SinkInvoked (JNum 7); SinkInvoked JNull] Hv Hq))).
Defined.

Lemma preflight_before_path_witness :
  method (Scenario.preflight "/unrelated" "https://a.com") = "OPTIONS"
  /\ Js.startsWith (pathname (Scenario.preflight "/unrelated" "https://a.com"))
       (pathPrefix DEFAULT_OPTIONS) = false
  /\ exists r,
       responses (Scenario.handle (Scenario.transport [])
                    (Scenario.preflight "/unrelated" "https://a.com") None []) = [r]
       /\ r = handleCors DEFAULT_OPTIONS (Scenario.preflight "/unrelated" "https://a.com")
       /\ status r = 204
       /\ status r <> 404.
Proof.
  split; [reflexivity|]. split; [reflexivity|].
  exact (preflight_before_path Scenario.parse Scenario.stackOf
           (Scenario.transport []) (Scenario.preflight "/unrelated" "https://a.com")
           None [] eq_refl).
Defined.

Lemma response_by_deadline_witness :
  validated Scenario.parse (Scenario.transport [Scenario.silent])
    (Scenario.postJson "{}") (JObj [])
  /\ exists r,
       responses (Scenario.handle (Scenario.transport [Scenario.silent])
                    (Scenario.postJson "{}") None
                    ([SinkInvoked (JNum 1)] ++ DeadlineElapsed :: [SinkInvoked (JNum 2)]))
       = [r].
Proof.
  assert (Hv : validated Scenario.parse (Scenario.transport [Scenario.silent])
                 (Scenario.postJson "{}") (JObj []))
    by (repeat split; vm_compute; reflexivity).
  split; [exact Hv|].
  exact (response_by_deadline Scenario.parse Scenario.stackOf
           (Scenario.transport [Scenario.silent]) (Scenario.postJson "{}")
           (JObj []) None [SinkInvoked (JNum 1)] [SinkInvoked (JNum 2)] Hv).
Defined.

Lemma non_json_rejected_witness :
  method Scenario.sizeOnly = "POST"
  /\ isJson Scenario.sizeOnly = false
  /\ Scenario.handle (Scenario.transport [Scenario.silent]) Scenario.sizeOnly None []
     = {| responses := [plain "Bad Request: Content-Type must be application/json" 400];
          bodyRead := false; invoked := [] |}.
Proof.
  assert (Hj : isJson Scenario.sizeOnly = false) by (vm_compute; reflexivity).
  split; [reflexivity|]. split; [exact Hj|].
  exact (non_json_rejected Scenario.parse Scenario.stackOf
           (Scenario.transport [Scenario.silent]) Scenario.sizeOnly None []
           eq_refl eq_refl Hj).
Defined.

Lemma malformed_body_rejected_witness :
  Scenario.parse (body (Scenario.postJson "{]")) = None
  /\ Scenario.handle (Scenario.transport [Scenario.silent]) (Scenario.postJson "{]")
       None [DeadlineElapsed]
     = {| responses := [plain "Bad Request: Invalid JSON" 400];
          bodyRead := true; invoked := [] |}.
Proof.
  assert (Hb : Scenario.parse (body (Scenario.postJson "{]")) = None)
    by (vm_compute; reflexivity).
  assert (Hj : isJson (Scenario.postJson "{]") = true) by (vm_compute; reflexivity).
  assert (Ho : oversized DEFAULT_OPTIONS (Scenario.postJson "{]") = false)
    by (vm_compute; reflexivity).
  split; [exact Hb|].
  exact (malformed_body_rejected Scenario.parse Scenario.stackOf
           (Scenario.transport [Scenario.silent]) (Scenario.postJson "{]") None
           [DeadlineElapsed] eq_refl eq_refl Hj Ho Hb).
Defined.

Lemma allow_credentials_follows_flag_witness :
  enabled (cors DEFAULT_OPTIONS) = true
  /\ getCorsHeaders DEFAULT_OPTIONS Scenario.elsewhere !! ALLOW_CREDENTIALS = None.
Proof.
  split; [reflexivity|].
  exact (allow_credentials_follows_flag DEFAULT_OPTIONS Scenario.elsewhere eq_refl).
Defined.

(** *** The scenarios of the specification *)

(** Scenario 1: one handler answers at once. *)
Example scenario_success :
  responses (Scenario.handle
               (Scenario.transport [Scenario.prompt (JObj [("result", JArr [])])])
               (Scenario.postJson Scenario.toolsList) None [])
  = [ {| resBody := Serialized (JObj [("result", JArr [])]); status := 200;
         resHeaders := jsonHeaders (Scenario.transport []) (Scenario.postJson "") |} ].
Proof. vm_compute. reflexivity. Qed.

(** Scenario 3: a path outside the prefix. *)
Example scenario_not_found :
  responses (Scenario.handle (Scenario.transport [])
               (Scenario.request "POST" "/unrelated" [] "{}") None [])
  = [plain "Not Found" 404].
Proof. reflexivity. Qed.

(** Scenario 4: GET on the prefix. *)
Example scenario_method_not_allowed :
  responses (Scenario.handle (Scenario.transport [])
               (Scenario.request "GET" "/mcp" [] "") None [])
  = [ {| resBody := Text "Method Not Allowed"; status := 405;
         resHeaders := {[ "Allow" := "POST, OPTIONS" ]} |} ].
Proof. reflexivity. Qed.

(** Scenario 5: preflight from an origin that is not on the allow-list. *)
Example scenario_preflight_unlisted :
  exists r,
    responses (Scenario.handle {| options := Scenario.listed; messageHandlers := [] |}
                 (Scenario.preflight "/mcp" "https://b.com") None []) = [r]
    /\ status r = 204 /\ resBody r = NoBody
    /\ resHeaders r !! ALLOW_ORIGIN = None
    /\ resHeaders r !! ALLOW_METHODS = Some "POST, OPTIONS".
Proof. eexists. split; [reflexivity|]. repeat split. Qed.

(** Scenario 6 on the wire: the body of the timeout response. *)
Example scenario_timeout_wire :
  (fun o => option_map (fun r => bodyText (resBody r)) (reply o))
    (Scenario.handle {| options := Scenario.listed; messageHandlers := [Scenario.silent] |}
       (Scenario.postJson "{}") None [DeadlineElapsed])
  = Some (Some ("{" +:+ Json.quote "error" +:+ ":{"
                 +:+ Json.quote "code" +:+ ":-32603,"
                 +:+ Json.quote "message" +:+ ":" +:+ Json.quote "Internal error" +:+ ","
                 +:+ Json.quote "data" +:+ ":" +:+ Json.quote "Request timeout"
                 +:+ "}}")).
Proof. vm_compute. reflexivity. Qed.

(* ===================================================================== *)
(** ** The listener registries: properties *)
(* ===================================================================== *)

Section RegistryProperties.

Context {Env : Type}.
Variable JSON_parse : string -> option json.
Variable captureStack : string -> string.

Implicit Types (t : Listeners.registries Env) (h : Listeners.listener Env)
  (s : list (Listeners.listener Env)).

Lemma has_elem_of s h :
  Listeners.has s h = true <-> Listeners.ref h ∈ map Listeners.ref s.
Proof.
  unfold Listeners.has. rewrite existsb_exists, list_elem_of_In, in_map_iff.
  split; intros (g & Hg1 & Hg2).
  - exists g. apply Nat.eqb_eq in Hg2. auto.
  - exists g. split; [assumption | now apply Nat.eqb_eq].
Qed.

Lemma has_add s h : Listeners.has (Listeners.add h s) h = true.
Proof.
  unfold Listeners.add. destruct (Listeners.has s h) eqn:E; [assumption|].
  unfold Listeners.has. rewrite existsb_app. simpl.
  now rewrite Nat.eqb_refl, orb_true_r.
Qed.

Lemma add_member s h : Listeners.has s h = true -> Listeners.add h s = s.
Proof. intros H. unfold Listeners.add. now rewrite H. Qed.

Lemma delete_absent s h : Listeners.has s h = false -> Listeners.delete h s = s.
Proof.
  unfold Listeners.has, Listeners.delete.
  induction s as [|g s IH]; simpl; [reflexivity|].
  intros H. apply orb_false_iff in H as [Hg Hs].
  rewrite Hg. simpl. now rewrite IH.
Qed.

Lemma delete_add_absent s h :
  Listeners.has s h = false -> Listeners.delete h (Listeners.add h s) = s.
Proof.
  intros H. unfold Listeners.add. rewrite H. unfold Listeners.delete.
  rewrite List.filter_app. simpl. rewrite Nat.eqb_refl. simpl.
  rewrite app_nil_r. now apply delete_absent.
Qed.

Lemma add_NoDup s h :
  NoDup (map Listeners.ref s) -> NoDup (map Listeners.ref (Listeners.add h s)).
Proof.
  intros Hs. unfold Listeners.add. destruct (Listeners.has s h) eqn:E; [assumption|].
  rewrite map_app. simpl. apply NoDup_app. split; [assumption|].
  split; [|apply NoDup_singleton].
  intros x Hx ->%list_elem_of_singleton.
  apply has_elem_of in Hx. congruence.
Qed.

Lemma delete_NoDup s h :
  NoDup (map Listeners.ref s) -> NoDup (map Listeners.ref (Listeners.delete h s)).
Proof.
  unfold Listeners.delete. induction s as [|g s IH]; simpl; [auto|].
  intros Hs. apply NoDup_cons in Hs as [Hg Hs].
  destruct (negb (Listeners.ref g =? Listeners.ref h)%nat); simpl; [|auto].
  apply NoDup_cons. split; [|auto].
  intros Hin. apply Hg. apply list_elem_of_In in Hin. apply list_elem_of_In.
  apply in_map_iff in Hin as (k & Hk1 & Hk2). apply in_map_iff.
  exists k. split; [assumption|]. apply filter_In in Hk2. tauto.
Qed.

(** X7.  Registering a listener that is already registered for the event
    changes nothing: a second [addEventListener] with the same event and
    function leaves the transport as the first one left it. *)
Theorem addEventListener_twice (event : string) h t :
  Listeners.addEventListener event h (Listeners.addEventListener event h t)
  = Listeners.addEventListener event h t.
Proof.
  unfold Listeners.addEventListener.
  destruct (String.eqb event "message"); [|destruct (String.eqb event "close");
    [|destruct (String.eqb event "error")]]; simpl;
    rewrite ?(add_member _ _ (has_add _ _)); reflexivity.
Qed.

(** X8.  Registering a function that is not yet registered for an event
    and removing it again gives back the transport as it was. *)
Theorem removeEventListener_after_add (event : string) h t :
  Listeners.registered event h t = false ->
  Listeners.removeEventListener event h (Listeners.addEventListener event h t) = t.
Proof.
  unfold Listeners.registered, Listeners.selected,
    Listeners.removeEventListener, Listeners.addEventListener.
  destruct t as [o ms cs es]; simpl.
  destruct (String.eqb event "message"); [|destruct (String.eqb event "close");
    [|destruct (String.eqb event "error")]]; simpl; intros H;
    rewrite ?delete_add_absent by assumption; reflexivity.
Qed.

(** X9.  No operation puts a function twice into a set: a fresh transport
    has distinct members, and [addEventListener], [removeEventListener] and
    [close] keep them distinct. *)
Theorem registries_stay_distinct (o : WorkersTransportOptions) (event : string) h t :
  Listeners.distinct (Listeners.create (Env := Env) o)
  /\ (Listeners.distinct t ->
      Listeners.distinct (Listeners.addEventListener event h t)
      /\ Listeners.distinct (Listeners.removeEventListener event h t)
      /\ Listeners.distinct (Listeners.close t).1.1).
Proof.
  split; [repeat split; apply NoDup_nil_2|].
  intros (Hm & Hc & He). repeat split.
  1-3: unfold Listeners.addEventListener;
    destruct (String.eqb event "message"); [|destruct (String.eqb event "close");
      [|destruct (String.eqb event "error")]]; simpl; auto using add_NoDup.
  1-3: unfold Listeners.removeEventListener;
    destruct (String.eqb event "message"); [|destruct (String.eqb event "close");
      [|destruct (String.eqb event "error")]]; simpl; auto using delete_NoDup.
  all: unfold Listeners.close;
    destruct (Listeners.callCloseHandlers (Listeners.closeHandlers t)) as [called [e|]];
    simpl; auto using NoDup_nil_2.
Qed.

Lemma callCloseHandlers_return s :
  Forall (fun g => Listeners.onClose g = None) s ->
  Listeners.callCloseHandlers s = (map Listeners.ref s, None).
Proof.
  induction 1 as [|g s Hg _ IH]; simpl; [reflexivity|].
  now rewrite Hg, IH.
Qed.

Lemma callCloseHandlers_throw (before after : list (Listeners.listener Env)) h e :
  Forall (fun g => Listeners.onClose g = None) before ->
  Listeners.onClose h = Some e ->
  Listeners.callCloseHandlers (before ++ h :: after)
  = ((map Listeners.ref before ++ [Listeners.ref h])%list, Some e).
Proof.
  intros Hb Hh. induction Hb as [|g s Hg _ IH]; simpl.
  - now rewrite Hh.
  - now rewrite Hg, IH.
Qed.

(** X10.  When no close handler throws, [close] calls every close handler
    once, in registration order, and empties the three registries.  A
    validated request that arrives afterwards is still accepted, calls no
    handler, and is answered by the timeout response when the deadline
    elapses. *)
Theorem close_then_request_times_out t request message env late :
  Forall (fun g => Listeners.onClose g = None) (Listeners.closeHandlers t) ->
  validated JSON_parse (Listeners.transportOf t) request message ->
  let '(t', called, err) := Listeners.close t in
  called = map Listeners.ref (Listeners.closeHandlers t)
  /\ err = None
  /\ t' = Listeners.create (Listeners.options t)
  /\ handleRequest JSON_parse captureStack (Listeners.transportOf t') request env
       (DeadlineElapsed :: late)
     = {| responses := [internalError (Listeners.transportOf t') request
                          (newError captureStack "Request timeout")];
          bodyRead := true; invoked := [] |}.
Proof.
  intros Hc Hv. unfold Listeners.close.
  rewrite (callCloseHandlers_return _ Hc).
  repeat split.
  assert (Hv' : validated JSON_parse
                  (Listeners.transportOf (Listeners.create (Env := Env) (Listeners.options t)))
                  request message) by exact Hv.
  rewrite (handleRequest_validated _ _ _ _ _ _ _ Hv').
  unfold processMessage, broadcast. simpl fold_left at 2. simpl fold_left.
  rewrite deadlineElapsed_armed.
  rewrite trace_resolved by (apply resolved_intro; discriminate).
  reflexivity.
Qed.

(** X11.  When a close handler throws, [close] throws that error at once:
    the close handlers registered after it are not called and none of the
    three registries is cleared. *)
Theorem close_throw_keeps_registries t
    (before after : list (Listeners.listener Env)) h e :
  Listeners.closeHandlers t = (before ++ h :: after)%list ->
  Forall (fun g => Listeners.onClose g = None) before ->
  Listeners.onClose h = Some e ->
  Listeners.close t
  = (t, (map Listeners.ref before ++ [Listeners.ref h])%list, Some e).
Proof.
  intros Ht Hb Hh. unfold Listeners.close.
  now rewrite Ht, (callCloseHandlers_throw _ _ _ _ Hb Hh).
Qed.

End RegistryProperties.
Lemma removeEventListener_after_add_witness :
  Listeners.registered "message" (Samples.returning 7) Samples.wired = false
  /\ Listeners.removeEventListener "message" (Samples.returning 7)
       (Listeners.addEventListener "message" (Samples.returning 7) Samples.wired)
     = Samples.wired.
Proof.
  split; [reflexivity|].
  exact (removeEventListener_after_add "message" (Samples.returning 7)
           Samples.wired eq_refl).
Defined.

Lemma close_then_request_times_out_witness :
  validated Scenario.parse (Listeners.transportOf Samples.wired)
    (Scenario.postJson "{}") (JObj [])
  /\ (Listeners.close Samples.wired).1.2 = [2%nat; 3%nat]
  /\ invoked (Scenario.handle
                (Listeners.transportOf (Listeners.close Samples.wired).1.1)
                (Scenario.postJson "{}") None [DeadlineElapsed]) = [].
Proof.
  assert (Hv : validated Scenario.parse (Listeners.transportOf Samples.wired)
                 (Scenario.postJson "{}") (JObj []))
    by (repeat split; vm_compute; reflexivity).
  assert (Hc : Forall (fun g : Listeners.listener unit => Listeners.onClose g = None)
                 (Listeners.closeHandlers Samples.wired))
    by (repeat constructor).
  split; [exact Hv|].
  pose proof (close_then_request_times_out Scenario.parse Scenario.stackOf
                Samples.wired (Scenario.postJson "{}") (JObj []) None [] Hc Hv) as H.
  destruct (Listeners.close Samples.wired) as [[t' called] err].
  destruct H as (Hcalled & _ & _ & Hout). simpl.
  split; [exact Hcalled|]. unfold Scenario.handle. now rewrite Hout.
Defined.

Lemma close_throw_keeps_registries_witness :
  Listeners.close Samples.brittle
  = (Samples.brittle, [2%nat; 4%nat], Some (ErrorObject "stop" (Scenario.stackOf "stop"))).
Proof.
  apply (close_throw_keeps_registries Samples.brittle [Samples.returning 2]
           [Samples.returning 3] (Samples.throwing 4 "stop")).
  - reflexivity.
  - repeat constructor.
  - reflexivity.
Defined.

(* ===================================================================== *)
(** ** Response helpers: properties *)
(* ===================================================================== *)

Lemma spreadData_lookup (d : option json) (base : list (string * json)) :
  Json.lookupLast "data" base = None ->
  Json.lookupLast "data" (base ++ ResponseHelpers.spreadData d)
  = if ResponseHelpers.truthy d then d else None.
Proof.
  intros Hb. destruct d as [j|];
    cbv beta iota delta [ResponseHelpers.spreadData].
  - destruct (ResponseHelpers.truthy (Some j)); [|now rewrite app_nil_r].
    clear Hb. induction base as [|[k v] base IH]; [reflexivity|].
    change (Json.lookupLast "data" (((k, v) :: base) ++ [("data", j)]))
      with (match Json.lookupLast "data" (base ++ [("data", j)]) with
            | Some w => Some w
            | None => if String.eqb "data" k then Some v else None
            end).
    now rewrite IH.
  - now rewrite app_nil_r.
Qed.

Lemma spreadData_lookup_other (k : string) (d : option json)
    (base : list (string * json)) :
  String.eqb k "data" = false ->
  Json.lookupLast k (base ++ ResponseHelpers.spreadData d)
  = Json.lookupLast k base.
Proof.
  intros Hk. destruct d as [j|];
    cbv beta iota delta [ResponseHelpers.spreadData];
    [destruct (ResponseHelpers.truthy (Some j))|]; rewrite ?app_nil_r; try reflexivity.
  induction base as [|[k' v] base IH].
  - cbn. now rewrite Hk.
  - change (Json.lookupLast k (((k', v) :: base) ++ [("data", j)]))
      with (match Json.lookupLast k (base ++ [("data", j)]) with
            | Some w => Some w
            | None => if String.eqb k k' then Some v else None
            end).
    now rewrite IH.
Qed.

Lemma errorField_members (k : string) (ms : list (string * json)) (st : Z)
    (hs : gmap string string) :
  errorField k (Build_Response (Serialized (JObj [("error", JObj ms)])) st hs)
  = Json.lookupLast k ms.
Proof. reflexivity. Qed.

(** X12.  The body of [createErrorResponse] always has the given code and
    message, and it has a [data] member exactly when the given data is
    truthy: a data of [null], [false], [0] or the empty string is left
    out, like a data that was never given. *)
Theorem createErrorResponse_data (error : ResponseHelpers.ErrorInfo)
    (options : ResponseHelpers.ResponseOptions) :
  let r := ResponseHelpers.createErrorResponse error options in
  errorField "code" r = Some (JNum (ResponseHelpers.code error))
  /\ errorField "message" r = Some (JStr (ResponseHelpers.message error))
  /\ errorField "data" r
     = (if ResponseHelpers.truthy (ResponseHelpers.data error)
        then ResponseHelpers.data error else None).
Proof.
  unfold ResponseHelpers.createErrorResponse. cbv zeta.
  rewrite !errorField_members.
  rewrite !spreadData_lookup_other by reflexivity.
  rewrite spreadData_lookup by reflexivity.
  repeat split.
Qed.

Section HelperAndTransport.

Context {Env : Type}.
Implicit Types (this : WorkersTransport Env).

(** X13.  The transport's internal-error response is what
    [createErrorResponse] builds from code -32603, message "Internal error",
    the error's message as data and the CORS headers -- unless the error's
    message is empty: the helper then leaves [data] out, while the transport
    sends [data] as the empty string. *)
Theorem internalError_vs_createErrorResponse this request (error : thrown) :
  let helper :=
    ResponseHelpers.createErrorResponse
      {| ResponseHelpers.code := -32603;
         ResponseHelpers.message := "Internal error";
         ResponseHelpers.data := Some (JStr (errorData error)) |}
      {| ResponseHelpers.status := None;
         ResponseHelpers.headers := Some (getCorsHeaders (options this) request) |} in
  (errorData error <> "" -> internalError this request error = helper)
  /\ (errorData error = "" ->
      errorField "data" helper = None
      /\ errorField "data" (internalError this request error) = Some (JStr "")).
Proof.
  unfold ResponseHelpers.createErrorResponse, internalError, jsonHeaders,
    ResponseHelpers.withContentType. simpl.
  split; intros He.
  - destruct (errorData error) as [|c s]; [congruence | reflexivity].
  - rewrite He. split; reflexivity.
Qed.

End HelperAndTransport.

(** X14.  [createCorsResponse] with the methods POST and OPTIONS and the
    default allowed headers is the transport's preflight answer for an
    enabled CORS configuration with the same origins and credentials flag;
    with its own default methods it differs from it only in
    Access-Control-Allow-Methods, which then lists GET as well. *)
Theorem createCorsResponse_vs_handleCors (request : Request)
    (os : list string) (c : bool) (o : WorkersTransportOptions) :
  enabled (cors o) = true ->
  origins (cors o) = os ->
  credentials (cors o) = c ->
  ResponseHelpers.createCorsResponse request
    {| ResponseHelpers.origins := Some os;
       ResponseHelpers.credentials := Some c;
       ResponseHelpers.methods := Some ["POST"; "OPTIONS"];
       ResponseHelpers.allowedHeaders := None |}
  = handleCors o request
  /\ resHeaders
       (ResponseHelpers.createCorsResponse request
          {| ResponseHelpers.origins := Some os;
             ResponseHelpers.credentials := Some c;
             ResponseHelpers.methods := None;
             ResponseHelpers.allowedHeaders := None |})
     = <[ALLOW_METHODS := "GET, POST, OPTIONS"]> (resHeaders (handleCors o request)).
Proof.
  intros He <- <-. unfold ResponseHelpers.createCorsResponse, handleCors,
    getCorsHeaders. rewrite He. simpl negb. cbv iota. simpl default.
  change (ResponseHelpers.join ["Content-Type"; "Authorization"])
    with "Content-Type, Authorization".
  change (ResponseHelpers.join ["POST"; "OPTIONS"]) with "POST, OPTIONS".
  change (ResponseHelpers.join ["GET"; "POST"; "OPTIONS"]) with "GET, POST, OPTIONS".
  split; [reflexivity|]. simpl resHeaders.
  assert (Hmove : forall (m : gmap string string) k v,
             k <> ALLOW_METHODS ->
             <[ALLOW_METHODS := "GET, POST, OPTIONS"]> (<[k := v]> m)
             = <[k := v]> (<[ALLOW_METHODS := "GET, POST, OPTIONS"]> m)).
  { intros m k v Hk. apply insert_insert_ne. congruence. }
  destruct (credentials (cors o));
    destruct (Js.arrayIncludes (origins (cors o)) "*");
    try destruct (headersGet request "origin") as [og|];
    try destruct (Js.truthy (Some og) && Js.arrayIncludes (origins (cors o)) og);
    rewrite ?Hmove by discriminate; now rewrite insert_insert_eq.
Qed.

(** X15.  [createJsonResponse] keeps every header the caller gives,
    including a Content-Type of the caller's own; it adds
    [Content-Type: application/json] only when the caller gives none.  The
    status is the caller's, 200 when left out. *)
Theorem createJsonResponse_headers (data : json)
    (options : ResponseHelpers.ResponseOptions) (k : string) :
  let r := ResponseHelpers.createJsonResponse data options in
  let given := default ∅ (ResponseHelpers.headers options) in
  resHeaders r !! k
  = (match given !! k with
     | Some v => Some v
     | None => if String.eqb k "Content-Type" then Some "application/json" else None
     end)
  /\ status r = default 200 (ResponseHelpers.status options)
  /\ resBody r = Serialized data.
Proof.
  simpl. unfold ResponseHelpers.withContentType. split; [|split; reflexivity].
  rewrite lookup_union.
  destruct (default ∅ (ResponseHelpers.headers options) !! k) as [v|] eqn:E.
  - now rewrite union_Some_l.
  - rewrite (left_id None _). destruct (String.eqb_spec k "Content-Type") as [->|Hne].
    + apply lookup_singleton_eq.
    + apply lookup_singleton_ne. congruence.
Qed.

(** X16.  [createHealthResponse] answers 200 exactly when the reported
    status is "ok" (or left out) and 503 for every other status; the body
    reports the status and the timestamp, and the data only when it is
    truthy. *)
Theorem createHealthResponse_status (now : string) (st : option string)
    (data : option json) :
  let r := ResponseHelpers.createHealthResponse now st data in
  (status r = 200 <-> default "ok" st = "ok")
  /\ (status r = 503 <-> default "ok" st <> "ok")
  /\ ResponseHelpers.bodyField "status" r = Some (JStr (default "ok" st))
  /\ ResponseHelpers.bodyField "timestamp" r = Some (JStr now)
  /\ ResponseHelpers.bodyField "data" r
     = (if ResponseHelpers.truthy data then data else None).
Proof.
  unfold ResponseHelpers.createHealthResponse, ResponseHelpers.createJsonResponse,
    ResponseHelpers.bodyField. cbv zeta.
  set (s := default "ok" st).
  cbn [resBody status Json.get from_option id ResponseHelpers.status].
  rewrite !spreadData_lookup_other by reflexivity.
  rewrite spreadData_lookup by reflexivity.
  destruct (String.eqb_spec s "ok") as [Hok|Hne];
    repeat split; try congruence; try discriminate.
Qed.

Lemma createCorsResponse_vs_handleCors_witness :
  enabled (cors Scenario.listed) = true
  /\ ResponseHelpers.createCorsResponse (Scenario.preflight "/mcp" "https://a.com")
       {| ResponseHelpers.origins := Some ["https://a.com"];
          ResponseHelpers.credentials := Some false;
          ResponseHelpers.methods := Some ["POST"; "OPTIONS"];
          ResponseHelpers.allowedHeaders := None |}
     = handleCors Scenario.listed (Scenario.preflight "/mcp" "https://a.com").
Proof.
  split; [reflexivity|].
  exact (proj1 (createCorsResponse_vs_handleCors
                  (Scenario.preflight "/mcp" "https://a.com")
                  ["https://a.com"] false Scenario.listed eq_refl eq_refl eq_refl)).
Defined.

(* ===================================================================== *)
(** ** The event emitter polyfill: properties *)
(* ===================================================================== *)

Lemma wrapperIds_app (a b : list Emitter.entry) :
  Emitter.wrapperIds (a ++ b) = (Emitter.wrapperIds a ++ Emitter.wrapperIds b)%list.
Proof.
  induction a as [|[f|w f] a IH]; simpl; [reflexivity | assumption | now rewrite IH].
Qed.

Lemma forEach_past_end (fuel k : nat) (l : list Emitter.entry) :
  (length l <= k)%nat -> Emitter.forEach fuel k l = (l, []).
Proof.
  revert k. induction fuel as [|fuel IH]; intros k Hk; simpl; [reflexivity|].
  rewrite (proj2 (lookup_ge_None l k)) by lia. apply IH. lia.
Qed.

Lemma removeFirst_wrapper (done rest : list Emitter.entry) (w f : nat) :
  w ∉ Emitter.wrapperIds done ->
  Emitter.removeFirst (Emitter.Wrapper w f) (done ++ Emitter.Wrapper w f :: rest)
  = (done ++ rest)%list.
Proof.
  induction done as [|[g|v g] done IH]; simpl; intros Hw.
  - now rewrite Nat.eqb_refl.
  - now rewrite IH.
  - apply not_elem_of_cons in Hw as [Hne Hw].
    destruct (Nat.eqb_spec v w) as [->|_]; [congruence|]. now rewrite IH.
Qed.

Lemma removeFirst_absent (x : Emitter.entry) (l : list Emitter.entry) :
  existsb (fun y => Emitter.same y x) l = false -> Emitter.removeFirst x l = l.
Proof.
  induction l as [|y l IH]; simpl; [reflexivity|].
  intros H. apply orb_false_iff in H as [Hy Hl]. now rewrite Hy, IH.
Qed.

(** The index loop of [emit] against its reading off the array. *)
Lemma forEach_spec (fuel : nat) :
  forall (rest done : list Emitter.entry),
    NoDup (Emitter.wrapperIds (done ++ rest)) ->
    (length rest <= fuel)%nat ->
    Emitter.forEach fuel (length done) (done ++ rest)
    = ((done ++ Emitter.kept rest)%list, Emitter.fired rest).
Proof.
  induction fuel as [|fuel IH]; intros rest done Hnd Hlen.
  - destruct rest; [reflexivity | simpl in Hlen; lia].
  - destruct rest as [|[f|w f] rest].
    + simpl Emitter.kept. apply forEach_past_end. rewrite length_app. simpl. lia.
    + cbn [Emitter.forEach]. rewrite list_lookup_middle by reflexivity.
      replace (done ++ Emitter.Plain f :: rest)%list
        with ((done ++ [Emitter.Plain f]) ++ rest)%list in *
        by now rewrite <- app_assoc.
      replace (S (length done)) with (length (done ++ [Emitter.Plain f]))
        by (rewrite length_app; simpl; lia).
      rewrite IH by (simpl in Hlen; auto with lia).
      simpl. now rewrite <- app_assoc.
    + cbn [Emitter.forEach]. rewrite list_lookup_middle by reflexivity.
      rewrite wrapperIds_app in Hnd. simpl in Hnd.
      apply NoDup_app in Hnd as (Hd & Hcross & Hr).
      apply NoDup_cons in Hr as [Hw Hr].
      assert (Hwd : w ∉ Emitter.wrapperIds done).
      { intros Hin. apply (Hcross w Hin). left. }
      rewrite removeFirst_wrapper by assumption.
      destruct rest as [|y rest].
      * rewrite forEach_past_end by (rewrite length_app; simpl; lia).
        reflexivity.
      * replace (done ++ y :: rest)%list with ((done ++ [y]) ++ rest)%list
          by now rewrite <- app_assoc.
        replace (S (length done)) with (length (done ++ [y]))
          by (rewrite length_app; simpl; lia).
        rewrite IH.
        -- simpl. now rewrite <- app_assoc.
        -- rewrite <- app_assoc. simpl. rewrite wrapperIds_app.
           apply NoDup_app. split; [assumption|]. split; [|assumption].
           intros v Hv Hv'. apply (Hcross v Hv). now right.
        -- simpl in Hlen. lia.
Qed.

Lemma forEach_whole (l : list Emitter.entry) :
  NoDup (Emitter.wrapperIds l) ->
  Emitter.forEach (length l) 0 l = (Emitter.kept l, Emitter.fired l).
Proof. intros Hnd. now apply (forEach_spec (length l) l []). Qed.

Lemma fired_plain (l : list Emitter.entry) :
  forallb Emitter.isPlain l = true ->
  Emitter.fired l = map Emitter.target l /\ Emitter.kept l = l.
Proof.
  induction l as [|[f|w f] l IH]; simpl; intros H; [auto| |discriminate].
  destruct (IH H) as [-> ->]. auto.
Qed.

Lemma fired_plain_prefix (pre rest : list Emitter.entry) :
  forallb Emitter.isPlain pre = true ->
  Emitter.fired (pre ++ rest) = (map Emitter.target pre ++ Emitter.fired rest)%list
  /\ Emitter.kept (pre ++ rest) = (pre ++ Emitter.kept rest)%list.
Proof.
  induction pre as [|[f|w f] pre IH]; simpl; intros H; [auto| |discriminate].
  destruct (IH H) as [-> ->]. auto.
Qed.

Lemma wrapperIds_plain (l : list Emitter.entry) :
  forallb Emitter.isPlain l = true -> Emitter.wrapperIds l = [].
Proof. induction l as [|[f|w f] l IH]; simpl; auto; discriminate. Qed.

Lemma emit_on_array (throws : nat -> bool) (event : string) (em : Emitter.emitter)
    (l : list Emitter.entry) :
  Emitter.events em !! event = Some l ->
  NoDup (Emitter.wrapperIds l) ->
  l <> [] ->
  Emitter.emit throws event em
  = {| Emitter.returned := true;
       Emitter.after := {| Emitter.events := <[event := Emitter.kept l]> (Emitter.events em);
                           Emitter.wrappers := Emitter.wrappers em |};
       Emitter.called := Emitter.fired l;
       Emitter.logged := List.filter throws (Emitter.fired l) |}.
Proof.
  intros He Hnd Hne. unfold Emitter.emit. rewrite He.
  destruct l as [|x rest]; [congruence|].
  now rewrite (forEach_whole _ Hnd).
Qed.

(** X17.  What [emit] does, read off the listener array: it returns true
    exactly when the array is not empty; it calls the listeners in
    registration order, except that the listener standing right after a
    [once] listener is passed over in the emit in which that [once] listener
    fires; the [once] listeners that fired are removed, every other listener
    stays; a listener that throws is logged and stops nothing; the arrays of
    other events are untouched. *)
Theorem emit_characterised (throws : nat -> bool) (event : string)
    (em : Emitter.emitter) :
  Emitter.wellFormed em ->
  let l := Emitter.listeners event em in
  let r := Emitter.emit throws event em in
  Emitter.returned r = negb (Nat.eqb (length l) 0)
  /\ Emitter.called r = (if Emitter.returned r then Emitter.fired l else [])
  /\ Emitter.logged r = List.filter throws (Emitter.called r)
  /\ Emitter.listeners event (Emitter.after r) = Emitter.kept l
  /\ forall other, other <> event ->
       Emitter.listeners other (Emitter.after r) = Emitter.listeners other em.
Proof.
  intros Hwf. unfold Emitter.listeners.
  destruct (Emitter.events em !! event) as [l|] eqn:He.
  - destruct (Hwf _ _ He) as [Hnd _].
    destruct l as [|x rest].
    + unfold Emitter.emit. rewrite He. simpl. rewrite He. repeat split.
    + rewrite (emit_on_array throws _ _ _ He Hnd) by discriminate. simpl default.
      cbn [Emitter.returned Emitter.called Emitter.logged Emitter.after
           Emitter.events length Nat.eqb negb].
      rewrite lookup_insert_eq. repeat split.
      intros other Hne. now rewrite lookup_insert_ne by congruence.
  - unfold Emitter.emit. rewrite He. simpl. rewrite He. repeat split.
Qed.

(** X18.  A listener registered right after a [once] listener misses the
    emit in which the [once] listener fires: when the array is plain
    listeners, then a [once] listener of [f], then a listener [x], [emit]
    calls the plain ones and [f] and goes on with what follows [x]; [x] is
    not called by its position, and it stays registered. *)
Theorem emit_passes_over_next (throws : nat -> bool) (event : string)
    (em : Emitter.emitter) (pre post : list Emitter.entry) (w f : nat)
    (x : Emitter.entry) :
  Emitter.wellFormed em ->
  Emitter.events em !! event = Some (pre ++ Emitter.Wrapper w f :: x :: post)%list ->
  forallb Emitter.isPlain pre = true ->
  let r := Emitter.emit throws event em in
  Emitter.called r = (map Emitter.target pre ++ f :: Emitter.fired post)%list
  /\ Emitter.listeners event (Emitter.after r)
     = (pre ++ x :: Emitter.kept post)%list.
Proof.
  intros Hwf He Hpre. destruct (Hwf _ _ He) as [Hnd _].
  rewrite (emit_on_array throws _ _ _ He Hnd) by (destruct pre; discriminate).
  cbn [Emitter.called Emitter.after]. unfold Emitter.listeners.
  cbn [Emitter.events]. rewrite lookup_insert_eq.
  destruct (fired_plain_prefix pre (Emitter.Wrapper w f :: x :: post) Hpre)
    as [-> ->].
  split; reflexivity.
Qed.

(** X19.  [once] in the plain case: when every listener already registered
    for the event is a plain one, a listener added with [once] is called
    last by the next emit, after all the others, and not at all by the emit
    after that, which calls the others as before. *)
Theorem once_fires_once (throws : nat -> bool) (event : string)
    (em : Emitter.emitter) (f : nat) :
  forallb Emitter.isPlain (Emitter.listeners event em) = true ->
  let others := map Emitter.target (Emitter.listeners event em) in
  let first := Emitter.emit throws event (Emitter.once event f em) in
  let second := Emitter.emit throws event (Emitter.after first) in
  Emitter.called first = (others ++ [f])%list
  /\ Emitter.called second = others
  /\ Emitter.listeners event (Emitter.after second) = Emitter.listeners event em.
Proof.
  intros Hpl. cbv zeta.
  set (l := Emitter.listeners event em) in *.
  assert (He : Emitter.events (Emitter.once event f em) !! event
               = Some (l ++ [Emitter.Wrapper (Emitter.wrappers em) f])%list).
  { unfold Emitter.once, Emitter.push. cbn [Emitter.events].
    now rewrite lookup_insert_eq. }
  assert (Hnd : NoDup (Emitter.wrapperIds (l ++ [Emitter.Wrapper (Emitter.wrappers em) f]))).
  { rewrite wrapperIds_app, (wrapperIds_plain _ Hpl). simpl. apply NoDup_singleton. }
  rewrite (emit_on_array throws _ _ _ He Hnd) by (destruct l; discriminate).
  cbn [Emitter.called Emitter.after].
  destruct (fired_plain_prefix l [Emitter.Wrapper (Emitter.wrappers em) f] Hpl)
    as [-> ->].
  simpl Emitter.fired. simpl Emitter.kept. rewrite app_nil_r.
  split; [reflexivity|].
  destruct (fired_plain l Hpl) as [Hfired Hkept].
  assert (Hnd2 : NoDup (Emitter.wrapperIds l))
    by (rewrite (wrapperIds_plain _ Hpl); apply NoDup_nil_2).
  set (em1 := {| Emitter.events := <[event := l]> (Emitter.events (Emitter.once event f em));
                 Emitter.wrappers := Emitter.wrappers (Emitter.once event f em) |}).
  assert (He2 : Emitter.events em1 !! event = Some l)
    by (cbn [Emitter.events em1]; apply lookup_insert_eq).
  assert (Hcases : l = [] \/ l <> [])
    by (clearbody l; destruct l; [left; reflexivity | right; discriminate]).
  destruct Hcases as [Hl|Hl].
  - clearbody l. subst l. unfold Emitter.emit. rewrite He2.
    cbn [Emitter.called Emitter.after]. unfold Emitter.listeners.
    rewrite He2. split; reflexivity.
  - rewrite (emit_on_array throws _ _ _ He2 Hnd2 Hl).
    cbn [Emitter.called Emitter.after]. unfold Emitter.listeners.
    cbn [Emitter.events]. rewrite lookup_insert_eq, Hfired, Hkept.
    split; reflexivity.
Qed.

Lemma wrappers_sublist (n m : nat) (ids ids' : list nat) :
  ids' `sublist_of` ids -> (n <= m)%nat ->
  NoDup ids /\ Forall (fun w => (w < n)%nat) ids ->
  NoDup ids' /\ Forall (fun w => (w < m)%nat) ids'.
Proof.
  intros Hsub Hle [Hnd Hall]. split; [eapply sublist_NoDup; eassumption|].
  apply Forall_forall. intros w Hw.
  apply (sublist_subseteq _ _ Hsub) in Hw.
  rewrite Forall_forall in Hall. specialize (Hall w Hw). lia.
Qed.

Lemma wellFormed_empty : Emitter.wellFormed Emitter.empty.
Proof. intros event l H. simpl in H. now rewrite lookup_empty in H. Qed.

Lemma wellFormed_listeners (event : string) (em : Emitter.emitter) :
  Emitter.wellFormed em ->
  NoDup (Emitter.wrapperIds (Emitter.listeners event em))
  /\ Forall (fun w => (w < Emitter.wrappers em)%nat)
       (Emitter.wrapperIds (Emitter.listeners event em)).
Proof.
  intros Hwf. unfold Emitter.listeners.
  destruct (Emitter.events em !! event) as [l|] eqn:E; simpl.
  - exact (Hwf _ _ E).
  - split; [apply NoDup_nil_2 | constructor].
Qed.

Lemma wellFormed_on (event : string) (f : nat) (em : Emitter.emitter) :
  Emitter.wellFormed em -> Emitter.wellFormed (Emitter.on event f em).
Proof.
  intros Hwf e l. unfold Emitter.on, Emitter.push. cbn [Emitter.events Emitter.wrappers].
  destruct (decide (event = e)) as [->|Hne].
  - rewrite lookup_insert_eq. intros [= <-].
    rewrite wrapperIds_app. simpl. rewrite app_nil_r.
    now apply wellFormed_listeners.
  - rewrite lookup_insert_ne by assumption. apply Hwf.
Qed.

Lemma wellFormed_once (event : string) (f : nat) (em : Emitter.emitter) :
  Emitter.wellFormed em -> Emitter.wellFormed (Emitter.once event f em).
Proof.
  intros Hwf e l. unfold Emitter.once, Emitter.push, Emitter.listeners.
  cbn [Emitter.events Emitter.wrappers].
  destruct (decide (event = e)) as [->|Hne].
  - rewrite lookup_insert_eq. intros [= <-].
    rewrite wrapperIds_app. simpl.
    destruct (wellFormed_listeners e em Hwf) as [Hnd Hall].
    unfold Emitter.listeners in *. split.
    + apply NoDup_app. split; [assumption|]. split; [|apply NoDup_singleton].
      intros w Hw ->%list_elem_of_singleton.
      rewrite Forall_forall in Hall. specialize (Hall _ Hw). lia.
    + apply Forall_app. split; [|repeat constructor].
      eapply Forall_impl; [exact Hall|]. simpl. intros; lia.
  - rewrite lookup_insert_ne by assumption. intros H.
    eapply wrappers_sublist; [reflexivity | | exact (Hwf _ _ H)]. lia.
Qed.

Lemma removeFirst_last (x : Emitter.entry) (l : list Emitter.entry) :
  Emitter.same x x = true ->
  Emitter.removeFirst x (l ++ [x])
  = if existsb (fun y => Emitter.same y x) l
    then (Emitter.removeFirst x l ++ [x])%list else l.
Proof.
  intros Hx. induction l as [|y l IH]; cbn [app Emitter.removeFirst existsb].
  - now rewrite Hx.
  - destruct (Emitter.same y x); cbn [orb]; [reflexivity|].
    rewrite IH. now destruct (existsb (fun y => Emitter.same y x) l).
Qed.

Lemma removeFirst_length (x : Emitter.entry) (l : list Emitter.entry) :
  existsb (fun y => Emitter.same y x) l = true ->
  S (length (Emitter.removeFirst x l)) = length l.
Proof.
  induction l as [|y l IH]; cbn [Emitter.removeFirst existsb length];
    [discriminate|].
  destruct (Emitter.same y x); cbn [orb length]; [reflexivity|].
  intros H. now rewrite IH.
Qed.

(** X20.  [off] removes the oldest registration of a listener.
    Registering a listener and removing it again restores the listener
    count; it restores the array itself when the listener was not
    registered before, and otherwise moves the listener to the end: the
    earlier registration is the one that goes. *)
Theorem off_after_on (event : string) (f : nat) (em : Emitter.emitter) :
  let l := Emitter.listeners event em in
  let em' := Emitter.off event f (Emitter.on event f em) in
  Emitter.listenerCount event em' = Emitter.listenerCount event em
  /\ Emitter.listeners event em'
     = (if existsb (fun y => Emitter.same y (Emitter.Plain f)) l
        then (Emitter.removeFirst (Emitter.Plain f) l ++ [Emitter.Plain f])%list
        else l).
Proof.
  cbv zeta. unfold Emitter.off, Emitter.on, Emitter.drop, Emitter.push.
  cbn [Emitter.events Emitter.wrappers]. rewrite lookup_insert_eq.
  unfold Emitter.listenerCount, Emitter.listeners. cbn [Emitter.events].
  rewrite !lookup_insert_eq. simpl default.
  rewrite removeFirst_last by (simpl; apply Nat.eqb_refl).
  set (l := default [] (Emitter.events em !! event)).
  assert (Hcount : length l = match Emitter.events em !! event with
                              | Some l0 => length l0 | None => O end).
  { subst l. now destruct (Emitter.events em !! event). }
  rewrite <- Hcount. split; [|reflexivity].
  destruct (existsb (fun y => Emitter.same y (Emitter.Plain f)) l) eqn:E;
    [|reflexivity].
  rewrite length_app. simpl. rewrite Nat.add_1_r. now apply removeFirst_length.
Qed.

(** X21.  [removeAllListeners] called with the empty string behaves like
    the call without argument: it removes the listeners of every event,
    not those of the event named by the empty string alone.  With any other
    name it removes that event's listeners and no others. *)
Theorem removeAllListeners_scope (event : option string) (em : Emitter.emitter)
    (other : string) :
  let em' := Emitter.removeAllListeners event em in
  match event with
  | None | Some "" => Emitter.listenerCount other em' = O
  | Some name =>
      Emitter.listenerCount name em' = O
      /\ (other <> name ->
          Emitter.listeners other em' = Emitter.listeners other em)
  end.
Proof.
  cbv zeta. unfold Emitter.removeAllListeners, Emitter.listenerCount,
    Emitter.listeners.
  destruct event as [[|c name]|]; cbn [Js.truthy String.eqb negb Emitter.events].
  - now rewrite lookup_empty.
  - simpl default. rewrite lookup_delete_eq. split; [reflexivity|].
    intros Hne. now rewrite lookup_delete_ne by congruence.
  - now rewrite lookup_empty.
Qed.

Lemma wellFormed_mixed : Emitter.wellFormed EmitterSamples.mixed.
Proof.
  unfold EmitterSamples.mixed.
  apply wellFormed_on, wellFormed_once, wellFormed_once, wellFormed_on,
    wellFormed_empty.
Defined.

Lemma emit_characterised_witness :
  Emitter.wellFormed EmitterSamples.mixed
  /\ Emitter.called (Emitter.emit EmitterSamples.oneThrows "x" EmitterSamples.mixed)
     = [0%nat; 1%nat; 3%nat]
  /\ Emitter.logged (Emitter.emit EmitterSamples.oneThrows "x" EmitterSamples.mixed)
     = [1%nat]
  /\ Emitter.listeners "x"
       (Emitter.after (Emitter.emit EmitterSamples.oneThrows "x" EmitterSamples.mixed))
     = [Emitter.Plain 0; Emitter.Wrapper 1 2; Emitter.Plain 3].
Proof.
  split; [exact wellFormed_mixed|].
  destruct (emit_characterised EmitterSamples.oneThrows "x" EmitterSamples.mixed
              wellFormed_mixed) as (_ & Hc & Hl & Hk & _).
  split; [|split].
  - rewrite Hc. vm_compute. reflexivity.
  - rewrite Hl, Hc. vm_compute. reflexivity.
  - rewrite Hk. vm_compute. reflexivity.
Defined.

Lemma emit_passes_over_next_witness :
  Emitter.events EmitterSamples.mixed !! "x"
  = Some ([Emitter.Plain 0] ++ Emitter.Wrapper 0 1
            :: Emitter.Wrapper 1 2 :: [Emitter.Plain 3])%list
  /\ Emitter.called (Emitter.emit EmitterSamples.oneThrows "x" EmitterSamples.mixed)
     = [0%nat; 1%nat; 3%nat]
  /\ Emitter.listeners "x"
       (Emitter.after (Emitter.emit EmitterSamples.oneThrows "x" EmitterSamples.mixed))
     = [Emitter.Plain 0; Emitter.Wrapper 1 2; Emitter.Plain 3].
Proof.
  assert (He : Emitter.events EmitterSamples.mixed !! "x"
               = Some ([Emitter.Plain 0] ++ Emitter.Wrapper 0 1
                         :: Emitter.Wrapper 1 2 :: [Emitter.Plain 3])%list)
    by (vm_compute; reflexivity).
  split; [exact He|].
  exact (emit_passes_over_next EmitterSamples.oneThrows "x" EmitterSamples.mixed
           [Emitter.Plain 0] [Emitter.Plain 3] 0 1 (Emitter.Wrapper 1 2)
           wellFormed_mixed He eq_refl).
Defined.

Lemma once_fires_once_witness :
  forallb Emitter.isPlain (Emitter.listeners "x" EmitterSamples.plainTwo) = true
  /\ Emitter.called
       (Emitter.emit EmitterSamples.oneThrows "x"
          (Emitter.once "x" 9 EmitterSamples.plainTwo))
     = [4%nat; 5%nat; 9%nat]
  /\ Emitter.called
       (Emitter.emit EmitterSamples.oneThrows "x"
          (Emitter.after
             (Emitter.emit EmitterSamples.oneThrows "x"
                (Emitter.once "x" 9 EmitterSamples.plainTwo))))
     = [4%nat; 5%nat].
Proof.
  assert (Hp : forallb Emitter.isPlain (Emitter.listeners "x" EmitterSamples.plainTwo)
               = true) by (vm_compute; reflexivity).
  split; [exact Hp|].
  destruct (once_fires_once EmitterSamples.oneThrows "x" EmitterSamples.plainTwo 9 Hp)
    as (H1 & H2 & _).
  split; [exact H1 | exact H2].
Defined.

(* ===================================================================== *)
(** ** Content helpers: properties *)
(* ===================================================================== *)

(** X22.  Both detectors read the header only: the type they report for a
    buffer is the type they report for its first twelve bytes. *)
Theorem detectors_read_twelve_bytes (data : list Byte.byte) :
  Content.detectMimeTypeFromBytes data
  = Content.detectMimeTypeFromBytes (firstn 12 data)
  /\ Content.detectAudioMimeTypeFromBytes data
     = Content.detectAudioMimeTypeFromBytes (firstn 12 data).
Proof.
  do 12 (destruct data as [|? data]; [split; reflexivity|]).
  split; reflexivity.
Qed.

Ltac byte_cases :=
  repeat match goal with
         | |- context [Byte.eqb ?b ?v] =>
             is_var b;
             let E := fresh "E" in
             destruct (Byte.eqb b v) eqn:E;
             [apply Byte.byte_dec_bl in E; subst b|]
         end.

(** X23.  No buffer is taken for an image and for audio at once: when
    [detectMimeTypeFromBytes] reports a type, [detectAudioMimeTypeFromBytes]
    reports none. *)
Theorem detectors_exclusive (data : list Byte.byte) :
  Content.detectMimeTypeFromBytes data = None
  \/ Content.detectAudioMimeTypeFromBytes data = None.
Proof.
  unfold Content.detectMimeTypeFromBytes, Content.detectAudioMimeTypeFromBytes,
    Content.byteIs.
  do 12 (destruct data as [|? data]; [cbn; byte_cases; cbn; auto|]).
  cbn. byte_cases; cbn; auto.
Qed.

Lemma detect_image_types (data : list Byte.byte) :
  default "image/jpeg" (Content.detectMimeTypeFromBytes data)
  ∈ ["image/png"; "image/jpeg"; "image/gif"; "image/webp"].
Proof.
  unfold Content.detectMimeTypeFromBytes.
  repeat match goal with
         | |- context [if ?c then _ else _] => destruct c
         end; simpl; repeat constructor.
Qed.

Lemma detect_audio_types (data : list Byte.byte) :
  default "audio/mpeg" (Content.detectAudioMimeTypeFromBytes data)
  ∈ ["audio/mpeg"; "audio/wav"; "audio/ogg"].
Proof.
  unfold Content.detectAudioMimeTypeFromBytes.
  repeat match goal with
         | |- context [if ?c then _ else _] => destruct c
         end; simpl; repeat constructor.
Qed.

(** X24.  Given a buffer (and no url), [imageContent] and [audioContent]
    never fetch, never fail and never warn: the result carries the Base64
    text of the buffer, and a MIME type that is one of image/png,
    image/jpeg, image/gif, image/webp for an image and one of audio/mpeg,
    audio/wav, audio/ogg for audio, whatever the bytes are. *)
Theorem buffer_content_always_typed (fetch : string -> Content.fetchResult)
    (raw : list Byte.byte) :
  let input := {| Content.url := None; Content.buffer := Some raw |} in
  (exists m,
     Content.imageContent fetch input
     = Content.Content
         {| Content.type := "image"; Content.data := Content.toBase64 raw;
            Content.mimeType := m |} false
     /\ m ∈ ["image/png"; "image/jpeg"; "image/gif"; "image/webp"])
  /\ (exists m,
        Content.audioContent fetch input
        = Content.Content
            {| Content.type := "audio"; Content.data := Content.toBase64 raw;
               Content.mimeType := m |} false
        /\ m ∈ ["audio/mpeg"; "audio/wav"; "audio/ogg"]).
Proof.
  split; eexists; (split; [reflexivity|]);
    [apply detect_image_types | apply detect_audio_types].
Qed.

Lemma startsWith_listed (prefix m : string) (l : list string) :
  m ∈ l -> forallb (fun x => Js.startsWith x prefix) l = true ->
  Js.startsWith m prefix = true.
Proof.
  intros Hm Hall. rewrite forallb_forall in Hall. apply Hall.
  now apply list_elem_of_In.
Qed.

(** X25.  Whatever the input and whatever [fetch] returns, a content that
    [imageContent] returns without a warning has a MIME type that starts
    with "image/", and a content that [audioContent] returns without a
    warning has one that starts with "audio/"; the [type] member is always
    the helper's kind. *)
Theorem content_type_or_warning (fetch : string -> Content.fetchResult)
    (input : Content.ContentInput) (c : Content.MediaContent) (warned : bool) :
  (Content.imageContent fetch input = Content.Content c warned ->
   Content.type c = "image"
   /\ (warned = false -> Js.startsWith (Content.mimeType c) "image/" = true))
  /\ (Content.audioContent fetch input = Content.Content c warned ->
      Content.type c = "audio"
      /\ (warned = false -> Js.startsWith (Content.mimeType c) "audio/" = true)).
Proof.
  unfold Content.imageContent, Content.audioContent, Content.mediaContent.
  split.
  - destruct (Content.url input) as [u|].
    + destruct (fetch u) as [msg|resp]; [discriminate|].
      destruct (negb (Content.ok resp)); [discriminate|].
      destruct (Content.getMimeType resp (Some u)) as [declared|n]; [|discriminate].
      change ("image" +:+ "/") with "image/".
      destruct (Js.startsWith declared "image/") eqn:Ed.
      * intros [= <- <-]. auto.
      * destruct (Content.getMimeTypeFromUrl u) as [detected|n]; [|discriminate].
        destruct (Js.startsWith detected "image/") eqn:Et;
          intros [= <- <-]; split; auto; discriminate.
    + destruct (Content.buffer input) as [raw|]; [|discriminate].
      intros [= <- <-]. split; [reflexivity|]. intros _. cbn [Content.mimeType].
      eapply startsWith_listed; [apply detect_image_types | reflexivity].
  - destruct (Content.url input) as [u|].
    + destruct (fetch u) as [msg|resp]; [discriminate|].
      destruct (negb (Content.ok resp)); [discriminate|].
      destruct (Content.getMimeType resp (Some u)) as [declared|n]; [|discriminate].
      change ("audio" +:+ "/") with "audio/".
      destruct (Js.startsWith declared "audio/") eqn:Ed.
      * intros [= <- <-]. auto.
      * destruct (Content.getMimeTypeFromUrl u) as [detected|n]; [|discriminate].
        destruct (Js.startsWith detected "audio/") eqn:Et;
          intros [= <- <-]; split; auto; discriminate.
    + destruct (Content.buffer input) as [raw|]; [|discriminate].
      intros [= <- <-]. split; [reflexivity|]. intros _. cbn [Content.mimeType].
      eapply startsWith_listed; [apply detect_audio_types | reflexivity].
Qed.

Lemma split_nonempty (sep : ascii) (s : string) : Content.split sep s <> [].
Proof.
  destruct s as [|c s]; simpl; [discriminate|].
  destruct (Ascii.eqb c sep); [discriminate|].
  destruct (Content.split sep s); discriminate.
Qed.

Lemma last_cons_nonempty {A} (x d : A) (l : list A) :
  l <> [] -> List.last (x :: l) d = List.last l d.
Proof. destruct l; [congruence | reflexivity]. Qed.

(** Splitting a text that contains the separator: the last segment is the
    last segment of what follows any one occurrence. *)
Lemma split_last_after (sep : ascii) (base rest : string) :
  exists first others,
    Content.split sep (base +:+ String sep rest) = first :: others
    /\ others <> []
    /\ List.last others EmptyString
       = List.last (Content.split sep rest) EmptyString.
Proof.
  induction base as [|c base IH]; simpl.
  - rewrite Ascii.eqb_refl. eexists _, _. split; [reflexivity|].
    split; [apply split_nonempty | reflexivity].
  - destruct IH as (first & others & Hs & Hne & Hlast).
    destruct (Ascii.eqb c sep).
    + eexists _, _. split; [reflexivity|]. split; [apply split_nonempty|].
      rewrite Hs, last_cons_nonempty by assumption. exact Hlast.
    + rewrite Hs. eexists _, _. split; [reflexivity|]. auto.
Qed.

Lemma split_no_separator (sep : ascii) (s : string) :
  Js.includes s (String sep EmptyString) = false ->
  Content.split sep s = [s].
Proof.
  induction s as [|c s IH]; [reflexivity|].
  cbn [Js.includes String.prefix Content.split].
  destruct (Ascii.eqb_spec c sep) as [->|Hne].
  - destruct (ascii_dec sep sep) as [_|Hn]; [|congruence].
    destruct s; discriminate.
  - destruct (ascii_dec sep c) as [->|_]; [congruence|].
    simpl. intros H. now rewrite IH.
Qed.

(** X27.  [getMimeTypeFromUrl] looks at the text after the last dot only,
    without regard to case: for an extension without a dot, any url ending
    in a dot and that extension gets the type the tables list for the
    lower-cased extension (application/octet-stream when they list none),
    and so does the bare extension, a url with no dot at all. *)
Theorem getMimeTypeFromUrl_by_extension (base extension : string) :
  Js.includes extension "." = false ->
  let listed :=
    Content.firstTruthy
      (Content.read Content.imageTypes (Content.toLowerCase extension))
      (Content.read Content.audioTypes (Content.toLowerCase extension)) in
  Content.getMimeTypeFromUrl (base +:+ "." +:+ extension) = listed
  /\ Content.getMimeTypeFromUrl extension = listed.
Proof.
  intros Hdot. cbv zeta. unfold Content.getMimeTypeFromUrl, Content.extensionOf.
  rewrite (split_no_separator "." extension Hdot).
  destruct (split_last_after "." base extension) as (first & others & Hs & Hne & Hlast).
  change (base +:+ "." +:+ extension) with (base +:+ String "." extension).
  rewrite Hs, last_cons_nonempty, Hlast by assumption.
  rewrite (split_no_separator "." extension Hdot). split; reflexivity.
Qed.

Lemma split_head (sep : ascii) (s : string) :
  let first := List.hd EmptyString (Content.split sep s) in
  Js.includes first (String sep EmptyString) = false
  /\ (s = first \/ exists rest, s = first +:+ String sep rest).
Proof.
  induction s as [|c s IH]; cbn [Content.split].
  - split; [reflexivity | left; reflexivity].
  - destruct (Ascii.eqb_spec c sep) as [->|Hne]; cbn [List.hd].
    + split; [reflexivity | right; exists s; reflexivity].
    + destruct IH as [Hinc Hor]. pose proof (split_nonempty sep s) as Hn.
      destruct (Content.split sep s) as [|first others]; [congruence|].
      cbn [List.hd] in *. split.
      * cbn [Js.includes String.prefix].
        destruct (ascii_dec sep c) as [->|_]; [congruence|]. exact Hinc.
      * destruct Hor as [->|[rest ->]]; [left; reflexivity|].
        right. exists rest. reflexivity.
Qed.

(** X28.  When the response declares a content type, [getMimeType] returns
    it up to its first semicolon, as it stands (no trimming, no change of
    case), and does not look at the url; the result contains no
    semicolon. *)
Theorem getMimeType_declared (response : Content.Fetched) (url : option string)
    (ct : string) :
  Content.contentType response = Some ct ->
  ct <> "" ->
  exists m,
    Content.getMimeType response url = Content.MimeString m
    /\ Js.includes m ";" = false
    /\ (ct = m \/ exists rest, ct = m +:+ ";" +:+ rest).
Proof.
  intros Hct Hne. unfold Content.getMimeType. rewrite Hct.
  assert (Ht : Js.truthy (Some ct) = true) by (destruct ct; [congruence | reflexivity]).
  rewrite Ht. eexists. split; [reflexivity|]. simpl default.
  exact (split_head ";" ct).
Qed.

Lemma getMimeTypeFromUrl_by_extension_witness :
  Js.includes "PNG" "." = false
  /\ Content.getMimeTypeFromUrl ("https://host.example/a.b/photo" +:+ "." +:+ "PNG")
     = Content.MimeString "image/png".
Proof.
  split; [reflexivity|].
  exact (proj1 (getMimeTypeFromUrl_by_extension "https://host.example/a.b/photo"
                  "PNG" eq_refl)).
Defined.

Lemma getMimeType_declared_witness :
  exists m,
    Content.getMimeType
      {| Content.ok := true; Content.fetchedStatus := 200; Content.statusText := "OK";
         Content.contentType := Some "Image/PNG; charset=binary";
         Content.bytes := [] |} (Some "https://host.example/photo.gif")
    = Content.MimeString m
    /\ Js.includes m ";" = false
    /\ ("Image/PNG; charset=binary" = m
        \/ exists rest, "Image/PNG; charset=binary" = m +:+ ";" +:+ rest).
Proof.
  apply (getMimeType_declared
           {| Content.ok := true; Content.fetchedStatus := 200;
              Content.statusText := "OK";
              Content.contentType := Some "Image/PNG; charset=binary";
              Content.bytes := [] |}
           (Some "https://host.example/photo.gif") "Image/PNG; charset=binary").
  - reflexivity.
  - discriminate.
Defined.

(* ===================================================================== *)
(** ** Version check: properties *)
(* ===================================================================== *)

Lemma inRange_current (a b c : Z) :
  VersionCheck.inRange a b c 3 0 0 4 0 0 = false.
Proof.
  unfold VersionCheck.inRange.
  destruct (Z.ltb_spec a 3); [reflexivity|].
  destruct (Z.eqb_spec a 3); cbn [andb].
  - destruct (Z.ltb_spec b 0); [reflexivity|].
    destruct (Z.eqb_spec b 0); cbn [andb].
    + destruct (Z.ltb_spec c 0); [reflexivity|].
      destruct (Z.leb_spec 4 a); [reflexivity|].
      replace (a =? 4 - 1) with true by (symmetry; apply Z.eqb_eq; lia).
      cbn [andb]. destruct (Z.leb_spec 0 b); [reflexivity | lia].
    + destruct (Z.leb_spec 4 a); [reflexivity|].
      replace (a =? 4 - 1) with true by (symmetry; apply Z.eqb_eq; lia).
      cbn [andb]. destruct (Z.leb_spec 0 b); [reflexivity | lia].
  - destruct (Z.leb_spec 4 a); [reflexivity | lia].
Qed.

Lemma parts_current_minimum :
  VersionCheck.parts (VersionCheck.minimum VersionCheck.SUPPORTED_FASTMCP_VERSIONS)
  = [VersionCheck.Int 3; VersionCheck.Int 0; VersionCheck.Int 0].
Proof. vm_compute. reflexivity. Qed.

Lemma parts_current_maximum :
  VersionCheck.parts (VersionCheck.maximum VersionCheck.SUPPORTED_FASTMCP_VERSIONS)
  = [VersionCheck.Int 4; VersionCheck.Int 0; VersionCheck.Int 0].
Proof. vm_compute. reflexivity. Qed.

Lemma parts_legacy_minimum :
  VersionCheck.parts (VersionCheck.minimum VersionCheckLegacy.SUPPORTED_FASTMCP_VERSIONS)
  = [VersionCheck.Int 1; VersionCheck.Int 0; VersionCheck.Int 0].
Proof. vm_compute. reflexivity. Qed.

Lemma parts_legacy_maximum :
  VersionCheck.parts (VersionCheck.maximum VersionCheckLegacy.SUPPORTED_FASTMCP_VERSIONS)
  = [VersionCheck.Int 2; VersionCheck.Int 0; VersionCheck.Int 0].
Proof. vm_compute. reflexivity. Qed.

Lemma isVersionSupported_three_integers (version : string) (a b c : Z) :
  VersionCheck.parts version
  = [VersionCheck.Int a; VersionCheck.Int b; VersionCheck.Int c] ->
  VersionCheck.isVersionSupported version = Some false.
Proof.
  intros H. unfold VersionCheck.isVersionSupported, VersionCheck.isVersionSupportedIn.
  rewrite parts_current_minimum, parts_current_maximum, H.
  cbn. now rewrite inRange_current.
Qed.

(** X26.  With the table the file ships (3.0.0 up to 4.0.0, tested 3.12.0)
    [isVersionSupported] accepts no version at all: it never answers true,
    and it answers false on every version of three integer parts, the one
    listed as tested among them. *)
Theorem isVersionSupported_accepts_nothing (version : string) :
  VersionCheck.isVersionSupported version <> Some true /\
  (forall a b c : Z,
     VersionCheck.parts version
     = [VersionCheck.Int a; VersionCheck.Int b; VersionCheck.Int c] ->
     VersionCheck.isVersionSupported version = Some false) /\
  (forall tested : string,
     In tested (VersionCheck.tested VersionCheck.SUPPORTED_FASTMCP_VERSIONS) ->
     VersionCheck.isVersionSupported tested = Some false).
Proof.
  split; [|split].
  - unfold VersionCheck.isVersionSupported, VersionCheck.isVersionSupportedIn.
    rewrite parts_current_minimum, parts_current_maximum.
    generalize (VersionCheck.parts version) as vs. intros vs.
    rewrite existsb_app.
    destruct (existsb VersionCheck.isUnmodelled vs); [discriminate|].
    cbn [orb existsb VersionCheck.isUnmodelled].
    destruct vs as [|x [|y [|z [|w rest]]]]; try discriminate.
    destruct x, y, z; cbn; rewrite ?inRange_current; discriminate.
  - intros a b c. apply isVersionSupported_three_integers.
  - intros tested [<- | []]. vm_compute. reflexivity.
Qed.

Example isVersionSupported_tested :
  VersionCheck.isVersionSupported "3.12.0" = Some false /\
  VersionCheck.isVersionSupported "3.0.0" = Some false /\
  VersionCheck.isVersionSupported "3.5.1" = Some false.
Proof. vm_compute. repeat split. Qed.

(** X27.  The earlier revision of [isVersionSupported] (table 1.0.0 up to
    2.0.0) answers true exactly when the major part is not a number, or
    is 1 while the minor part is missing or not a number. *)
Theorem legacy_isVersionSupported_characterised (version : string) :
  existsb VersionCheck.isUnmodelled (VersionCheck.parts version) = false ->
  VersionCheckLegacy.isVersionSupported version
  = Some match VersionCheckLegacy.component 0 (VersionCheck.parts version) with
         | None => true
         | Some major =>
             (major =? 1) &&
             match VersionCheckLegacy.component 1 (VersionCheck.parts version) with
             | None => true
             | Some _ => false
             end
         end.
Proof.
  intros H. unfold VersionCheckLegacy.isVersionSupported.
  rewrite parts_legacy_minimum, parts_legacy_maximum.
  rewrite existsb_app, H.
  cbn [orb app existsb VersionCheck.isUnmodelled].
  f_equal.
  change (VersionCheckLegacy.component 0 [VersionCheck.Int 1; VersionCheck.Int 0; VersionCheck.Int 0]) with (Some 1).
  change (VersionCheckLegacy.component 1 [VersionCheck.Int 1; VersionCheck.Int 0; VersionCheck.Int 0]) with (Some 0).
  change (VersionCheckLegacy.component 2 [VersionCheck.Int 1; VersionCheck.Int 0; VersionCheck.Int 0]) with (Some 0).
  change (VersionCheckLegacy.component 0 [VersionCheck.Int 2; VersionCheck.Int 0; VersionCheck.Int 0]) with (Some 2).
  change (VersionCheckLegacy.component 1 [VersionCheck.Int 2; VersionCheck.Int 0; VersionCheck.Int 0]) with (Some 0).
  change (VersionCheckLegacy.component 2 [VersionCheck.Int 2; VersionCheck.Int 0; VersionCheck.Int 0]) with (Some 0).
  destruct (VersionCheckLegacy.component 0 (VersionCheck.parts version)) as [major|];
    destruct (VersionCheckLegacy.component 1 (VersionCheck.parts version)) as [minor|];
    destruct (VersionCheckLegacy.component 2 (VersionCheck.parts version)) as [patch|];
    cbn [VersionCheckLegacy.lt VersionCheckLegacy.ge VersionCheckLegacy.same
         VersionCheckLegacy.minus1 andb]; try reflexivity.
  all: change (2 - 1) with 1; change (0 - 1) with (-1).
  all: destruct (Z.ltb_spec major 1); [symmetry; apply andb_false_iff; left; apply Z.eqb_neq; lia|].
  all: destruct (Z.eqb_spec major 1) as [->|]; cbn [andb].
  all: try (destruct (Z.leb_spec 2 major); [reflexivity | lia]).
  all: change (2 <=? 1) with false; cbn iota.
  all: try reflexivity.
  all: destruct (Z.ltb_spec minor 0); [reflexivity|].
  all: destruct (Z.leb_spec 0 minor); [|lia].
  all: destruct (minor =? 0); cbn [andb]; try reflexivity.
  all: destruct (patch <? 0); reflexivity.
Qed.

Lemma legacy_isVersionSupported_characterised_witness :
  existsb VersionCheck.isUnmodelled (VersionCheck.parts "1") = false /\
  VersionCheckLegacy.isVersionSupported "1" = Some true.
Proof.
  split; [reflexivity|].
  exact (legacy_isVersionSupported_characterised "1" eq_refl).
Defined.

Lemma legacy_three_integers (version : string) (a b c : Z) :
  VersionCheck.parts version
  = [VersionCheck.Int a; VersionCheck.Int b; VersionCheck.Int c] ->
  VersionCheckLegacy.isVersionSupported version = Some false.
Proof.
  intros H. unfold VersionCheckLegacy.isVersionSupported.
  rewrite parts_legacy_minimum, parts_legacy_maximum, H.
  cbn [orb app existsb VersionCheck.isUnmodelled].
  f_equal.
  cbn [VersionCheckLegacy.component nth_error VersionCheckLegacy.lt
       VersionCheckLegacy.ge VersionCheckLegacy.same VersionCheckLegacy.minus1].
  change (2 - 1) with 1; change (0 - 1) with (-1).
  destruct (Z.ltb_spec a 1); [reflexivity|].
  destruct (Z.eqb_spec a 1) as [->|]; cbn [andb].
  - destruct (Z.ltb_spec b 0); [reflexivity|].
    destruct (b =? 0); cbn [andb].
    + destruct (c <? 0); [reflexivity|].
      change (2 <=? 1) with false. cbn iota.
      destruct (Z.leb_spec 0 b); [reflexivity | lia].
    + change (2 <=? 1) with false. cbn iota.
      destruct (Z.leb_spec 0 b); [reflexivity | lia].
  - destruct (Z.leb_spec 2 a); [reflexivity | lia].
Qed.

Lemma parts_three_nonempty (version : string) (a b c : VersionCheck.converted) :
  VersionCheck.parts version = [a; b; c] -> Js.truthy (Some version) = true.
Proof.
  destruct version; [discriminate | reflexivity].
Qed.

(** X28.  In the earlier revision, whatever the installed library offers,
    a package version of three integer parts (the tested 1.0.0 among them)
    is reported as incompatible: the range issue comes first in the list,
    [compatible] is false, and [assertFastMCPCompatibility] throws. *)
Theorem legacy_check_reports_incompatible
    (version : string) (a b c : Z) (apiIssues : list string) :
  VersionCheck.parts version
  = [VersionCheck.Int a; VersionCheck.Int b; VersionCheck.Int c] ->
  exists result rest message,
    VersionCheckLegacy.checkFastMCPCompatibility (Some version) apiIssues
    = Some result /\
    VersionCheckLegacy.compatible result = false /\
    VersionCheckLegacy.version result = Some version /\
    VersionCheckLegacy.issues result
    = (VersionCheckLegacy.rangeIssue version :: rest ++ apiIssues)%list /\
    (rest = [] <-> version = "1.0.0") /\
    VersionCheckLegacy.assertFastMCPCompatibility (Some version) apiIssues
    = Some (Some message).
Proof.
  intros H.
  pose proof (legacy_three_integers _ _ _ _ H) as Hs.
  pose proof (parts_three_nonempty _ _ _ _ H) as Ht.
  unfold VersionCheckLegacy.assertFastMCPCompatibility,
    VersionCheckLegacy.checkFastMCPCompatibility.
  rewrite Ht. cbn [default id]. 
  change (default "" (Some version)) with version.
  rewrite Hs. cbn [negb].
  eexists _, (if negb (Js.arrayIncludes
                (VersionCheck.tested VersionCheckLegacy.SUPPORTED_FASTMCP_VERSIONS)
                version)
              then [VersionCheckLegacy.untestedIssue version] else []), _.
  split; [reflexivity|].
  cbn [VersionCheckLegacy.compatible VersionCheckLegacy.version
       VersionCheckLegacy.issues app length Nat.eqb negb].
  repeat split.
  - cbn. destruct (String.eqb_spec version "1.0.0"); [intros _; assumption | discriminate].
  - cbn. intros ->. reflexivity.
Qed.

Lemma legacy_check_reports_incompatible_witness :
  exists result rest message,
    VersionCheckLegacy.checkFastMCPCompatibility (Some "1.0.0") []
    = Some result /\
    VersionCheckLegacy.compatible result = false /\
    VersionCheckLegacy.version result = Some "1.0.0" /\
    VersionCheckLegacy.issues result
    = (VersionCheckLegacy.rangeIssue "1.0.0" :: rest ++ [])%list /\
    (rest = [] <-> "1.0.0" = "1.0.0") /\
    VersionCheckLegacy.assertFastMCPCompatibility (Some "1.0.0") []
    = Some (Some message).
Proof.
  exact (legacy_check_reports_incompatible "1.0.0" 1 0 0 [] eq_refl).
Defined.

(* ===================================================================== *)
(** ** The server: properties *)
(* ===================================================================== *)

Section ServerProperties.

Context {Env : Type}.
Variable JSON_parse : string -> option json.
Variable captureStack : string -> string.
Variable readOfUndefined : string -> thrown.
Variable forward : handler Env.

Lemma loose_getCorsHeaders_complete (this : WorkersTransport Env) (request : Request) :
  Loose.getCorsHeaders readOfUndefined (Loose.loosenTransport this) request
  = Loose.Done (getCorsHeaders (options this) request).
Proof.
  destruct this as [[p [e os c] m t] hs].
  unfold Loose.getCorsHeaders, getCorsHeaders.
  cbn [Loose.cors Loose.options Loose.loosenTransport Loose.loosen Loose.enabled
       Loose.origins Loose.credentials Loose.flag default cors enabled origins
       credentials options].
  destruct e; reflexivity.
Qed.

Lemma loose_handleCors_complete (this : WorkersTransport Env) (request : Request) :
  Loose.handleCors readOfUndefined (Loose.loosenTransport this) request
  = Loose.Done (handleCors (options this) request).
Proof.
  unfold Loose.handleCors. rewrite loose_getCorsHeaders_complete.
  destruct this as [[p [e os c] m t] hs].
  unfold handleCors.
  cbn [Loose.cors Loose.options Loose.loosenTransport Loose.loosen Loose.enabled
       Loose.flag default cors enabled options].
  destruct e; reflexivity.
Qed.

Lemma loose_respond_complete (this : WorkersTransport Env) (request : Request)
    (r : settled) :
  Loose.respond readOfUndefined (Loose.loosenTransport this) request r
  = Loose.Done (respond this request r).
Proof.
  unfold Loose.respond, Loose.internalError.
  rewrite loose_getCorsHeaders_complete.
  destruct r; reflexivity.
Qed.

Lemma loose_processMessage_complete (this : WorkersTransport Env) (message : json)
    (env : option Env) (trace : list event) :
  Loose.processMessage captureStack (Loose.loosenTransport this) message env trace
  = processMessage captureStack this message env trace.
Proof.
  destruct this as [[p [e os c] m t] hs]. reflexivity.
Qed.

(** On complete options the transport read with missing members in mind is
    the transport of the first part: nothing is thrown, and the responses
    are the same. *)
Lemma loose_handleRequest_complete (this : WorkersTransport Env) (request : Request)
    (env : option Env) (trace : list event) :
  Loose.handleRequest JSON_parse captureStack readOfUndefined
    (Loose.loosenTransport this) request env trace
  = Loose.lift (handleRequest JSON_parse captureStack this request env trace).
Proof.
  unfold Loose.handleRequest, handleRequest.
  rewrite loose_handleCors_complete.
  destruct (String.eqb (method request) "OPTIONS"); [reflexivity|].
  replace (default "undefined" (Loose.pathPrefix (Loose.options (Loose.loosenTransport this))))
    with (pathPrefix (options this)) by (destruct this as [[p [e os c] m t] hs]; reflexivity).
  destruct (negb (Js.startsWith _ _)); [reflexivity|].
  destruct (negb (String.eqb (method request) "POST")); [reflexivity|].
  destruct (negb (Js.truthy _) || negb (Js.includes _ _)); [reflexivity|].
  replace (Loose.maxBodySize (Loose.options (Loose.loosenTransport this)))
    with (Some (maxBodySize (options this))) by (destruct this as [[p [e os c] m t] hs]; reflexivity).
  destruct (Js.truthy _ && Js.gt _ _); [reflexivity|].
  destruct (JSON_parse (body request)); [|reflexivity].
  rewrite loose_processMessage_complete.
  cbn [Loose.lift]. f_equal.
  - rewrite map_map. apply map_ext. intros r. apply loose_respond_complete.
  - destruct this; reflexivity.
Qed.


Lemma loose_getCorsHeaders_undefined (this : Loose.Transport Env) (request : Request) :
  Loose.cors (Loose.options this) = None ->
  Loose.getCorsHeaders readOfUndefined this request
  = Loose.Throws (readOfUndefined "enabled").
Proof. intros H. unfold Loose.getCorsHeaders. now rewrite H. Qed.

Lemma loose_respond_undefined (this : Loose.Transport Env) (request : Request)
    (r : settled) :
  Loose.cors (Loose.options this) = None ->
  Loose.respond readOfUndefined this request r
  = Loose.Throws (readOfUndefined "enabled").
Proof.
  intros H. unfold Loose.respond, Loose.internalError.
  rewrite (loose_getCorsHeaders_undefined _ _ H). now destruct r.
Qed.

(** A transport whose [cors] option is [undefined] answers the rejections
    of the validator as before; every other call of [handleRequest] throws
    the engine's [TypeError]: a preflight at once, a message when its
    exchange settles. *)
Lemma loose_handleRequest_without_cors (this : Loose.Transport Env)
    (request : Request) (env : option Env) (trace : list event) :
  Loose.cors (Loose.options this) = None ->
  let o := Loose.handleRequest JSON_parse captureStack readOfUndefined
             this request env trace in
  (method request = "OPTIONS" ->
   Loose.results o = [Loose.Throws (readOfUndefined "enabled")])
  /\ (forall a, In a (Loose.results o) ->
        a = Loose.Throws (readOfUndefined "enabled")
        \/ exists r, a = Loose.Done r /\ In (status r) [404; 405; 400; 413]).
Proof.
  intros H o. subst o. unfold Loose.handleRequest. split.
  - intros ->. cbn [String.eqb Ascii.eqb Bool.eqb]. unfold Loose.handleCors. now rewrite H.
  - intros a.
    destruct (String.eqb (method request) "OPTIONS").
    { unfold Loose.handleCors. rewrite H. intros [<- | []]. now left. }
    destruct (negb (Js.startsWith _ _)).
    { intros [<- | []]. right. eexists. split; [reflexivity|]. cbn. tauto. }
    destruct (negb (String.eqb (method request) "POST")).
    { intros [<- | []]. right. eexists. split; [reflexivity|]. cbn. tauto. }
    destruct (negb (Js.truthy _) || negb (Js.includes _ _)).
    { intros [<- | []]. right. eexists. split; [reflexivity|]. cbn. tauto. }
    destruct (Js.truthy _ && _).
    { intros [<- | []]. right. eexists. split; [reflexivity|]. cbn. tauto. }
    destruct (JSON_parse (body request)).
    + cbn [Loose.results]. intros Hin. apply in_map_iff in Hin as (r & <- & _).
      left. now apply loose_respond_undefined.
    + intros [<- | []]. right. eexists. split; [reflexivity|]. cbn. tauto.
Qed.

Lemma construct_returns (compatibility : Loose.attempt unit)
    (given : Server.WorkersServerOptions) :
  compatibility = Loose.Done () ->
  Server.construct captureStack forward Server.workers compatibility given
  = Loose.Done
      {| Server.options := Server.merge given;
         Server.serverTransport :=
           {| Loose.options :=
                Loose.construct (Server.transportOptions (Server.merge given));
              Loose.messageHandlers := [forward] |} |}.
Proof.
  intros ->. unfold Server.construct.
  destruct (negb (Loose.flag (Server.skipCompatibilityCheck given))); reflexivity.
Qed.

(** X28.  The server's constructor passes the transport a [cors] member in
    every case, [undefined] when the caller gives a [transport] object
    without [cors] and no [cors] option of the server's own.  The defaults
    do not fill it in: the server is constructed, and its handler then
    throws the engine's [TypeError] on every preflight request it does not
    answer itself, sends no success and no error response for any message,
    and answers only the validator's rejections. *)
Theorem server_loses_cors (compatibility : Loose.attempt unit)
    (given : Server.WorkersServerOptions) (t : Loose.Argument) :
  compatibility = Loose.Done () ->
  Server.cors given = None ->
  Server.transport given = Loose.Given t ->
  Loose.read (Loose.argCors t) = None ->
  exists this,
    Server.construct captureStack forward Server.workers compatibility given
    = Loose.Done this
    /\ Loose.cors (Loose.options (Server.serverTransport this)) = None
    /\ forall request env trace,
         Server.healthCheck this request = None ->
         Server.discovery this request = None ->
         let o := Server.toWorkerHandler JSON_parse captureStack readOfUndefined
                    this request env trace in
         (method request = "OPTIONS" ->
          Loose.results o = [Loose.Throws (readOfUndefined "enabled")])
         /\ (forall a, In a (Loose.results o) ->
               a = Loose.Throws (readOfUndefined "enabled")
               \/ exists r, a = Loose.Done r /\ In (status r) [404; 405; 400; 413]).
Proof.
  intros Hc Hcors Ht Hread.
  eexists. split; [apply construct_returns, Hc|].
  assert (Hnone : Loose.cors (Loose.construct (Server.transportOptions (Server.merge given))) = None).
  { unfold Server.transportOptions, Server.merge, Loose.construct.
    cbn [Server.cors Server.transport Loose.argCors Loose.cors].
    rewrite Hcors, Ht. cbn [Server.merged Loose.read]. now rewrite Hread. }
  split; [exact Hnone|].
  intros request env trace Hh Hd. unfold Server.toWorkerHandler.
  rewrite Hh, Hd.
  now apply loose_handleRequest_without_cors.
Qed.

(** X29.  When the options the constructor hands to the transport are
    complete, the server's handler is the transport's [handleRequest] on
    those options with the one listener the constructor registers, for
    every request that is neither a health check nor an OAuth discovery
    request.  The options are complete, and the default ones, when the
    caller gives neither [transport] nor [cors]. *)
Theorem server_delegates (compatibility : Loose.attempt unit)
    (given : Server.WorkersServerOptions) (o : WorkersTransportOptions) :
  compatibility = Loose.Done () ->
  Loose.construct (Server.transportOptions (Server.merge given)) = Loose.loosen o ->
  exists this,
    Server.construct captureStack forward Server.workers compatibility given
    = Loose.Done this
    /\ forall request env trace,
         Server.healthCheck this request = None ->
         Server.discovery this request = None ->
         Server.toWorkerHandler JSON_parse captureStack readOfUndefined
           this request env trace
         = Loose.lift
             (handleRequest JSON_parse captureStack
                {| options := o; messageHandlers := [forward] |} request env trace).
Proof.
  intros Hc Ho.
  eexists. split; [apply construct_returns, Hc|].
  intros request env trace Hh Hd. unfold Server.toWorkerHandler.
  rewrite Hh, Hd. rewrite <- loose_handleRequest_complete.
  cbn [Server.serverTransport Loose.loosenTransport]. now rewrite Ho.
Qed.

(** X30.  The health check.  The defaults apply only when the caller gives
    no [health] object at all: a request is answered by the health check
    exactly when the object in force has a true [enabled] member and a
    [path] equal to the request's path, so a [health] object without
    [enabled] switches the check off.  The check comes before everything
    else and looks at the path only: whatever the method, the answer is a
    text that is never empty, with a status that is never 0, the
    content type text/plain and no other header, and no listener is
    called. *)
Theorem health_check_route (compatibility : Loose.attempt unit)
    (given : Server.WorkersServerOptions) (this : Server.WorkersFastMCP Env)
    (request : Request) (env : option Env) (trace : list event) :
  Server.construct captureStack forward Server.workers compatibility given
  = Loose.Done this ->
  (Server.healthCheck this request <> None <->
   exists h,
     Loose.over (Some Server.DEFAULT_HEALTH) (Server.health given) = Some h
     /\ Server.enabled h = Some true
     /\ Server.path h = Some (pathname request))
  /\ (forall h, Server.healthCheck this request = Some h ->
      exists text code,
        Server.toWorkerHandler JSON_parse captureStack readOfUndefined
          this request env trace
        = Loose.answer
            (Loose.Done
               {| resBody := Text text; status := code;
                  resHeaders := {[ "Content-Type" := "text/plain" ]} |})
        /\ text <> "" /\ (Server.message h = Some text \/ text = "OK")
        /\ code <> 0 /\ (Server.status h = Some code \/ code = 200)).
Proof.
  intros Hthis.
  assert (Hoptions : Server.options this = Server.merge given).
  { unfold Server.construct in Hthis.
    destruct (Server.assertWorkersRuntime captureStack Server.workers); [|discriminate].
    cbn [mbind Loose.attempt_bind] in Hthis.
    destruct (if negb _ then _ else _); [|discriminate].
    cbn [mbind Loose.attempt_bind] in Hthis.
    now injection Hthis as <-. }
  split.
  - unfold Server.healthCheck. rewrite Hoptions.
    cbn [Server.merge Server.health].
    destruct (Server.health given) as [| |h];
      cbn [Server.merged Loose.read Loose.over].
    + split.
      * intros Hn. exists Server.DEFAULT_HEALTH. split; [reflexivity|].
        split; [reflexivity|].
        cbn in Hn |- *. destruct (String.eqb_spec (pathname request) "/health");
          [now f_equal | congruence].
      * intros (h0 & [= <-] & _ & Hp). cbn in Hp |- *.
        injection Hp as <-. discriminate.
    + split; [congruence|]. intros (h0 & [=] & _).
    + split.
      * intros Hn. exists h. split; [reflexivity|].
        destruct (Server.enabled h) as [[]|]; cbn in Hn; try congruence.
        split; [reflexivity|].
        destruct (Server.path h) as [p|]; [|congruence].
        destruct (String.eqb_spec (pathname request) p); [now f_equal | congruence].
      * intros (h' & [= <-] & He & Hp). rewrite He, Hp. cbn.
        rewrite String.eqb_refl. discriminate.
  - intros h Hh. unfold Server.toWorkerHandler. rewrite Hh.
    unfold Server.healthResponse.
    eexists _, _. split; [reflexivity|].
    split; [|split; [|split]].
    + destruct (Server.message h) as [[|c m]|]; cbn; discriminate.
    + destruct (Server.message h) as [[|c m]|]; cbn; auto.
    + destruct (Server.status h) as [s|]; [|discriminate].
      destruct (Z.eqb_spec s 0); [discriminate | assumption].
    + destruct (Server.status h) as [s|]; [|now right].
      destruct (Z.eqb_spec s 0); [now right | now left].
Qed.

End ServerProperties.

Lemma server_loses_cors_witness :
  Server.cors ServerSamples.prefixed = None
  /\ (exists this,
        ServerSamples.construct ServerSamples.prefixed = Loose.Done this
        /\ Loose.results
             (ServerSamples.handler this (Scenario.preflight "/api" "https://a.com")
                None [])
           = [Loose.Throws (ServerSamples.readOfUndefined "enabled")]
        /\ Loose.results
             (ServerSamples.handler this (Scenario.request "POST" "/api"
                [("content-type", "application/json")] "{}") None [DeadlineElapsed])
           = [Loose.Throws (ServerSamples.readOfUndefined "enabled")]).
Proof.
  split; [reflexivity|].
  destruct (server_loses_cors (Env := unit) Scenario.parse Scenario.stackOf
              ServerSamples.readOfUndefined Scenario.silent (Loose.Done ())
              ServerSamples.prefixed _ eq_refl eq_refl eq_refl eq_refl)
    as (this & Hthis & _ & Hall).
  exists this. split; [exact Hthis|].
  injection Hthis as <-. split.
  - apply (Hall (Scenario.preflight "/api" "https://a.com") None []); reflexivity.
  - vm_compute. reflexivity.
Defined.

Lemma server_delegates_witness :
  Loose.construct (Server.transportOptions (Server.merge ServerSamples.bare))
  = Loose.loosen DEFAULT_OPTIONS
  /\ (exists this,
        ServerSamples.construct ServerSamples.bare = Loose.Done this
        /\ ServerSamples.handler this (Scenario.preflight "/mcp" "https://a.com")
             None []
           = Loose.lift
               (Scenario.handle (Scenario.transport [Scenario.silent])
                  (Scenario.preflight "/mcp" "https://a.com") None [])).
Proof.
  split; [reflexivity|].
  destruct (server_delegates (Env := unit) Scenario.parse Scenario.stackOf
              ServerSamples.readOfUndefined Scenario.silent (Loose.Done ())
              ServerSamples.bare DEFAULT_OPTIONS eq_refl eq_refl)
    as (this & Hthis & Hall).
  exists this. split; [exact Hthis|].
  injection Hthis as <-.
  apply (Hall (Scenario.preflight "/mcp" "https://a.com") None []); reflexivity.
Defined.

Lemma health_check_route_witness :
  exists this,
    ServerSamples.construct ServerSamples.statusPage = Loose.Done this
    /\ Server.healthCheck this (Scenario.request "GET" "/status" [] "") = None
    /\ Server.healthCheck this (Scenario.request "GET" "/health" [] "") = None.
Proof.
  eexists. split; [reflexivity|].
  pose proof (fun request =>
    proj1 (health_check_route (Env := unit) Scenario.parse Scenario.stackOf
             ServerSamples.readOfUndefined Scenario.silent (Loose.Done ())
             ServerSamples.statusPage _ request None [] eq_refl)) as H.
  split.
  - destruct (Server.healthCheck _ (Scenario.request "GET" "/status" [] "")) eqn:E;
      [|reflexivity].
    exfalso.
    assert (Hn : Server.healthCheck
                   {| Server.options := Server.merge ServerSamples.statusPage;
                      Server.serverTransport :=
                        {| Loose.options :=
                             Loose.construct
                               (Server.transportOptions
                                  (Server.merge ServerSamples.statusPage));
                           Loose.messageHandlers := [Scenario.silent] |} |}
                   (Scenario.request "GET" "/status" [] "") <> None)
      by (rewrite E; discriminate).
    destruct (proj1 (H _) Hn) as (h0 & [= <-] & He & _). discriminate He.
  - destruct (Server.healthCheck _ (Scenario.request "GET" "/health" [] "")) eqn:E;
      [|reflexivity].
    exfalso.
    assert (Hn : Server.healthCheck
                   {| Server.options := Server.merge ServerSamples.statusPage;
                      Server.serverTransport :=
                        {| Loose.options :=
                             Loose.construct
                               (Server.transportOptions
                                  (Server.merge ServerSamples.statusPage));
                           Loose.messageHandlers := [Scenario.silent] |} |}
                   (Scenario.request "GET" "/health" [] "") <> None)
      by (rewrite E; discriminate).
    destruct (proj1 (H _) Hn) as (h0 & [= <-] & He & _). discriminate He.
Defined.

Example default_server_health :
  exists this,
    ServerSamples.construct ServerSamples.bare = Loose.Done this
    /\ Loose.results
         (ServerSamples.handler this (Scenario.preflight "/health" "https://a.com")
            None [])
       = [Loose.Done {| resBody := Text "OK"; status := 200;
                        resHeaders := {[ "Content-Type" := "text/plain" ]} |}].
Proof. eexists. split; reflexivity. Qed.
